(** * JAgent: routing, failsafe, fraud screening, price resolution

    A shallow embedding of the Python sources of the agent
    ([agent/failsafe.py], [agent/fraud.py], [agent/compliance.py],
    [agent/portfolio.py], [agent/cache.py], [agent/tools.py],
    [agent/agent.py] and the routing block of [jagent.py]) together with
    the properties its specification states about them, followed by
    further properties that the code shows.

    Conventions of the embedding.
    - A Python [str] is a [string]; the text is taken to be ASCII, so
      [str.lower], [str.upper], [str.strip] and the regular-expression
      classes [\d], [\s], [\w] act on ASCII characters only.
    - A Python [float] is a binary64 [float] ([PrimFloat]), with the
      rounding of every operation.  What the arithmetic owes to the
      interpreter and to the C library (the [pow] of [**], the way [sum]
      adds floats, the digit limit of [int]) is a parameter, the
      [runtime].
    - Calls that leave the process (tool handlers, the chat executor, the
      price providers, the file system) are oracles on an explicit world;
      every call is recorded in an event log, so that "is invoked", "in
      order" and "exactly once" are statements about that log.
    - A Python exception is an explicit outcome ([Raises], [None] ...): a
      function of the model that returns a value models a call that
      returns normally. *)

From Stdlib Require Import Ascii String PrimFloat ZArith Lia.
From Stdlib Require Uint63 DecimalString DecimalNat FloatOps SpecFloat.
From stdpp Require Import gmap strings list.

(** Decimal literals such as [0.10] denote the nearest binary64 value, as
    they do in Python. *)
Set Warnings "-inexact-float".

Open Scope string_scope.
Open Scope list_scope.

(* ===================================================================== *)
(** * Python strings *)
(* ===================================================================== *)

Module Str.

Definition chars (s : string) : list ascii := list_ascii_of_string s.
Definition of_chars (l : list ascii) : string := string_of_list_ascii l.

Definition code (c : ascii) : nat := nat_of_ascii c.

Definition between (lo hi : nat) (c : ascii) : bool :=
  (lo <=? code c)%nat && (code c <=? hi)%nat.

Definition is_upper (c : ascii) : bool := between 65 90 c.
Definition is_lower (c : ascii) : bool := between 97 122 c.
Definition is_alpha (c : ascii) : bool := is_upper c || is_lower c.
Definition is_digit (c : ascii) : bool := between 48 57 c.
Definition is_alnum (c : ascii) : bool := is_alpha c || is_digit c.
(** [\w]: letters, digits and the underscore. *)
Definition is_word (c : ascii) : bool := is_alnum c || (code c =? 95)%nat.
(** [str.isspace] / [\s]: TAB, LF, VT, FF, CR, FS, GS, RS, US and SPACE. *)
Definition is_space (c : ascii) : bool :=
  between 9 13 c || between 28 32 c.

Definition lower_char (c : ascii) : ascii :=
  if is_upper c then ascii_of_nat (code c + 32) else c.
Definition upper_char (c : ascii) : ascii :=
  if is_lower c then ascii_of_nat (code c - 32) else c.

Fixpoint map_string (f : ascii -> ascii) (s : string) : string :=
  match s with
  | EmptyString => EmptyString
  | String c s' => String (f c) (map_string f s')
  end.

(** [s.lower()], [s.upper()] *)
Definition lower (s : string) : string := map_string lower_char s.
Definition upper (s : string) : string := map_string upper_char s.

Definition eqb (a b : string) : bool := bool_decide (a = b).

(** [s.startswith(p)] *)
Fixpoint startswith (p s : string) : bool :=
  match p with
  | EmptyString => true
  | String a p' =>
      match s with
      | EmptyString => false
      | String b s' => bool_decide (a = b) && startswith p' s'
      end
  end.

(** [p in s] *)
Fixpoint contains (p s : string) : bool :=
  startswith p s ||
  match s with
  | EmptyString => false
  | String _ s' => contains p s'
  end.

(** [s.lstrip(chars)], [s.rstrip(chars)], [s.strip(chars)] with the set
    of characters given as a predicate. *)
Fixpoint lstrip_by (p : ascii -> bool) (s : string) : string :=
  match s with
  | EmptyString => EmptyString
  | String c s' => if p c then lstrip_by p s' else s
  end.

Fixpoint rstrip_by (p : ascii -> bool) (s : string) : string :=
  match s with
  | EmptyString => EmptyString
  | String c s' =>
      match rstrip_by p s' with
      | EmptyString => if p c then EmptyString else String c EmptyString
      | r => String c r
      end
  end.

Definition strip_by (p : ascii -> bool) (s : string) : string :=
  rstrip_by p (lstrip_by p s).

Definition one_of (set : string) (c : ascii) : bool :=
  existsb (fun x => bool_decide (x = c)) (chars set).

(** [s.strip()] *)
Definition strip (s : string) : string := strip_by is_space s.

(** [s[n:]] *)
Fixpoint drop (n : nat) (s : string) : string :=
  match n, s with
  | O, _ => s
  | S _, EmptyString => EmptyString
  | S n', String _ s' => drop n' s'
  end.

(** [s.split(sep, 1)[1]] for a separator that occurs in [s]: the text
    after the first occurrence of [sep]; [None] is the [IndexError] of
    the absent occurrence. *)
Fixpoint after_first (sep s : string) : option string :=
  if startswith sep s then Some (drop (String.length sep) s)
  else match s with
       | EmptyString => None
       | String _ s' => after_first sep s'
       end.

(** [s.split(maxsplit=1)[1]]: the text after the first run of white
    space that follows the first word, leading white space skipped. *)
Fixpoint skip_word (s : string) : option string :=
  match s with
  | EmptyString => None
  | String c s' =>
      if is_space c then
        match lstrip_by is_space s' with
        | EmptyString => None
        | r => Some r
        end
      else skip_word s'
  end.

Definition split1_ws (s : string) : option string :=
  skip_word (lstrip_by is_space s).

(** [s.split()]: the white-space separated words. *)
Fixpoint words_aux (cur : list ascii) (l : list ascii) : list string :=
  match l with
  | [] => match cur with [] => [] | _ => [of_chars (rev cur)] end
  | c :: l' =>
      if is_space c
      then match cur with
           | [] => words_aux [] l'
           | _ => of_chars (rev cur) :: words_aux [] l'
           end
      else words_aux (c :: cur) l'
  end.

Definition split_ws (s : string) : list string := words_aux [] (chars s).

(** [sep.join(parts)] *)
Fixpoint join (sep : string) (parts : list string) : string :=
  match parts with
  | [] => ""
  | [p] => p
  | p :: rest => p +:+ sep +:+ join sep rest
  end.

(** Substring as a proposition: [p] occurs somewhere in [s]. *)
Definition occurs_in (p s : string) : Prop :=
  exists pre post : string, s = pre +:+ p +:+ post.

End Str.

(* ===================================================================== *)
(** * Regular expressions ([re.search], [re.findall]) *)
(* ===================================================================== *)

Module Re.

(** The fragment of Python's [re] syntax the sources use.  A pattern is
    matched by backtracking, alternatives left to right and repetition
    greedy, as [re] does. *)
Inductive regex : Type :=
| Eps                          (* the empty pattern *)
| Chr (p : ascii -> bool)      (* one character of a class *)
| Seq (r1 r2 : regex)
| Alt (r1 r2 : regex)          (* [r1|r2] *)
| Star (r : regex)             (* [r*] *)
| Group (i : nat) (r : regex)  (* the i-th capturing group *)
| WordB.                       (* [\b] *)

Definition Plus (r : regex) : regex := Seq r (Star r).
Definition Opt (r : regex) : regex := Alt r Eps.

(** [r{0,n}] *)
Fixpoint UpTo (n : nat) (r : regex) : regex :=
  match n with
  | O => Eps
  | S n' => Opt (Seq r (UpTo n' r))
  end.

Definition Lit1 (c : ascii) : regex := Chr (fun x => bool_decide (x = c)).

(** A literal string. *)
Fixpoint Lit (s : string) : regex :=
  match s with
  | EmptyString => Eps
  | String c EmptyString => Lit1 c
  | String c s' => Seq (Lit1 c) (Lit s')
  end.

(** A literal under [re.I]. *)
Definition Lit1_i (c : ascii) : regex :=
  Chr (fun x => bool_decide (Str.lower_char x = Str.lower_char c)).

Fixpoint Lit_i (s : string) : regex :=
  match s with
  | EmptyString => Eps
  | String c EmptyString => Lit1_i c
  | String c s' => Seq (Lit1_i c) (Lit_i s')
  end.

Fixpoint Seqs (rs : list regex) : regex :=
  match rs with
  | [] => Eps
  | [r] => r
  | r :: rs' => Seq r (Seqs rs')
  end.

Fixpoint Alts (rs : list regex) : regex :=
  match rs with
  | [] => Chr (fun _ => false)
  | [r] => r
  | r :: rs' => Alt r (Alts rs')
  end.

(** [.] does not match a line feed. *)
Definition Dot : regex := Chr (fun c => negb (Str.code c =? 10)%nat).
Definition Space : regex := Chr Str.is_space.
Definition Digit : regex := Chr Str.is_digit.

(** Captured groups, most recent binding first. *)
Definition caps : Type := list (nat * list ascii).

Fixpoint group (i : nat) (cs : caps) : option string :=
  match cs with
  | [] => None
  | (j, v) :: cs' => if (i =? j)%nat then Some (Str.of_chars v) else group i cs'
  end.

Definition is_word_opt (c : option ascii) : bool :=
  match c with Some x => Str.is_word x | None => false end.

(** [\b] holds between a word character and a non-word character (or an
    end of the text). *)
Definition boundary (prev : option ascii) (s : list ascii) : bool :=
  xorb (is_word_opt prev) (is_word_opt (head s)).

Section Matcher.
Context {R : Type}.

(** The continuation receives the last character consumed, the rest of
    the text and the groups captured so far. *)
Definition cont : Type := option ascii -> list ascii -> caps -> option R.

Fixpoint rmatch (r : regex) (prev : option ascii) (s : list ascii)
         (cs : caps) (k : cont) {struct r} : option R :=
  match r with
  | Eps => k prev s cs
  | Chr p =>
      match s with
      | c :: s' => if p c then k (Some c) s' cs else None
      | [] => None
      end
  | Seq a b => rmatch a prev s cs (fun p' s' cs' => rmatch b p' s' cs' k)
  | Alt a b =>
      match rmatch a prev s cs k with
      | Some x => Some x
      | None => rmatch b prev s cs k
      end
  | Star a =>
      (fix loop (fuel : nat) (prev : option ascii) (s : list ascii)
           (cs : caps) {struct fuel} : option R :=
         match fuel with
         | O => k prev s cs
         | S fuel' =>
             match rmatch a prev s cs
                     (fun p' s' cs' =>
                        if (length s' <? length s)%nat
                        then loop fuel' p' s' cs' else None) with
             | Some x => Some x
             | None => k prev s cs
             end
         end) (length s) prev s cs
  | Group i a =>
      rmatch a prev s cs
        (fun p' s' cs' =>
           k p' s' ((i, take (length s - length s') s) :: cs'))
  | WordB => if boundary prev s then k prev s cs else None
  end.
End Matcher.

(** The last character consumed after reading [l] from a position whose
    previous character was [prev]. *)
Definition last_read (prev : option ascii) (l : list ascii) : option ascii :=
  match last l with Some c => Some c | None => prev end.

(** One match: where it ends (last character, rest of the text) and its
    groups. *)
Record hit : Type := Hit {
  hit_prev : option ascii;
  hit_rest : list ascii;
  hit_caps : caps
}.

Definition match_here (r : regex) (prev : option ascii) (s : list ascii)
  : option hit :=
  rmatch r prev s [] (fun p' s' cs => Some (Hit p' s' cs)).

(** Leftmost match at or after the current position; also returns the
    text from the start of the match. *)
Fixpoint scan (r : regex) (prev : option ascii) (s : list ascii)
  : option (list ascii * hit) :=
  match match_here r prev s with
  | Some h => Some (s, h)
  | None =>
      match s with
      | [] => None
      | c :: s' => scan r (Some c) s'
      end
  end.

(** [re.search(r, s)] as a truth value and with its groups. *)
Definition search_caps (r : regex) (s : string) : option caps :=
  match scan r None (Str.chars s) with
  | Some (_, h) => Some (hit_caps h)
  | None => None
  end.

Definition search (r : regex) (s : string) : bool :=
  match search_caps r s with Some _ => true | None => false end.

(** [re.findall(r, s)]: the groups of the successive non-overlapping
    matches, left to right.  (After an empty match the scan moves one
    character on; the patterns used with [findall] here never match the
    empty string.) *)
Fixpoint findall_aux (fuel : nat) (r : regex) (prev : option ascii)
         (s : list ascii) : list caps :=
  match fuel with
  | O => []
  | S fuel' =>
      match scan r prev s with
      | None => []
      | Some (start, h) =>
          hit_caps h ::
          (if (length (hit_rest h) <? length start)%nat
           then findall_aux fuel' r (hit_prev h) (hit_rest h)
           else match start with
                | [] => []
                | c :: s' => findall_aux fuel' r (Some c) s'
                end)
      end
  end.

Definition findall (r : regex) (s : string) : list caps :=
  findall_aux (S (String.length s)) r None (Str.chars s).

(** The two groups of each match, for a pattern with groups 1 and 2. *)
Definition findall2 (r : regex) (s : string) : list (string * string) :=
  map (fun cs => (default "" (group 1 cs), default "" (group 2 cs)))
      (findall r s).

End Re.

(* ===================================================================== *)
(** * Python values and outcomes of calls *)
(* ===================================================================== *)

Module Py.

(** What a handler may return: a [str], a [bytes] object (given by its
    [decode("utf-8", "ignore")]) or any other object (given by its
    [str()]). *)
Inductive value : Type :=
| VStr (s : string)
| VBytes (decoded : string)
| VObj (repr : string).

(** [out.decode(...)] for bytes, then [str(out)]. *)
Definition to_str (v : value) : string :=
  match v with
  | VStr s => s
  | VBytes d => d
  | VObj r => r
  end.

(** A call either raises an [Exception] or returns. *)
Inductive outcome (A : Type) : Type :=
| Raises
| Returns (a : A).
Arguments Raises {A}.
Arguments Returns {A} a.

(** ** Numbers *)

(** The interpreter and the C library the program runs on, as far as its
    arithmetic depends on them.
    - [c_pow x y] is what [float.__pow__] gets from C's [pow] on a finite
      base above 0 and other than 1: the value, or [Raises] for the
      [OverflowError] of a result out of range.
    - [complex_deviation a v] is what [abs(a / (v ** 0.5 or 1.0)) > 3]
      gives for a finite [v] below 0: the power is then a complex number,
      and the quotient and the absolute value are taken among these.
    - [compensated_sum] tells how [sum] adds floats: left to right
      (CPython up to 3.11), or with Neumaier's compensation (from 3.12).
    - [int_max_str_digits] is [sys.get_int_max_str_digits()]: 4300 by
      default, 0 where there is no limit. *)
Record runtime : Type := Runtime {
  c_pow : float -> float -> outcome float;
  complex_deviation : float -> float -> outcome bool;
  compensated_sum : bool;
  int_max_str_digits : nat
}.

Definition is_finite (x : float) : bool :=
  negb (PrimFloat.is_nan x || PrimFloat.is_infinity x).

(** [x ** 2] on a float: the special cases [float.__pow__] sorts out
    itself (not-a-number, infinities, zero, one), then C's [pow] on the
    absolute value (the exponent is even). *)
Definition pow_2 (rt : runtime) (x : float) : outcome float :=
  if PrimFloat.is_nan x then Returns x
  else if PrimFloat.is_infinity x then Returns infinity
  else if (x =? 0)%float then Returns 0%float
  else if (PrimFloat.abs x =? 1)%float then Returns 1%float
  else c_pow rt (PrimFloat.abs x) 2%float.

(** [v ** 0.5] on a float, with the same special cases; [None] where the
    base is negative and the power a complex number. *)
Definition pow_half (rt : runtime) (v : float) : outcome (option float) :=
  if PrimFloat.is_nan v then Returns (Some v)
  else if PrimFloat.is_infinity v then Returns (Some infinity)
  else if (v =? 0)%float then Returns (Some 0%float)
  else if (v <? 0)%float then Returns None
  else if (v =? 1)%float then Returns (Some 1%float)
  else match c_pow rt v 0.5%float with
       | Raises => Raises
       | Returns r => Returns (Some r)
       end.

(** One step of the compensated loop of [sum]: the running sum and the
    compensation. *)
Definition neumaier (acc : float * float) (x : float) : float * float :=
  let '(f, c) := acc in
  let t := (f + x)%float in
  (t, if (PrimFloat.abs x <=? PrimFloat.abs f)%float
      then (c + ((f - t) + x))%float
      else (c + ((x - t) + f))%float).

(** [sum(xs)] for floats, as a float: the integer 0 of the empty sum,
    else [0 + x] for the first item and the float loop for the others;
    the compensation is added at the end when it is finite and not
    zero. *)
Definition sum_floats (rt : runtime) (xs : list float) : float :=
  match xs with
  | [] => 0%float
  | x :: rest =>
      let first := (0 + x)%float in
      if compensated_sum rt then
        let '(f, c) := fold_left neumaier rest (first, 0%float) in
        if negb (c =? 0)%float && is_finite c then (f + c)%float else f
      else fold_left PrimFloat.add rest first
  end.

(** The float nearest to [n / d] for [n] not negative (ties to even,
    infinity beyond the range): the quotient is taken to 64 bits and
    more, with one more bit that tells whether anything was left over. *)
Definition float_of_ratio (n : Z) (d : positive) : float :=
  let s := Z.max 0 (64 + Z.log2 (Z.pos d) - Z.log2 n) in
  let num := (n * 2 ^ s)%Z in
  let q := (num / Z.pos d)%Z in
  let sticky := if (num mod Z.pos d =? 0)%Z then 0%Z else 1%Z in
  FloatOps.SF2Prim
    (SpecFloat.binary_normalize FloatOps.prec FloatOps.emax
       (2 * q + sticky) (- (s + 1)) false).

End Py.

(* ===================================================================== *)
(** * agent/compliance.py *)
(* ===================================================================== *)

Module Compliance.

Definition GENERIC_DISCLAIMER : string :=
  "This content is for informational purposes only and is not financial advice. "
  +:+ "No offer, solicitation, or recommendation is being made. "
  +:+ "Past performance does not guarantee future results. "
  +:+ "For personalized guidance, consult a licensed professional. "
  +:+ "Data sources may be delayed or inaccurate; verify independently. "
  +:+ "GDPR simulation: you can request deletion of your stored data with 'forget me'. "
  +:+ "Recommendations are hypothetical and not personalized advice under SEC rules. ".

Definition BANNED_PHRASES : list string :=
  [ "guaranteed profit"; "surefire"; "inside information";
    "front-run"; "pump and dump"; "tax evasion";
    "insider trading"; "day trading strategy"; "spoofing";
    "dark edge"; "gray edge" ].

Definition REFUSAL : string :=
  "I can’t assist with that request (compliance). If you want, I can explain legal, diversified approaches instead.".

Definition NEWLINE : string := String (ascii_of_nat 10) EmptyString.

(** [any(p in lower for p in BANNED_PHRASES)] *)
Definition has_banned (text : string) : bool :=
  existsb (fun p => Str.contains p (Str.lower text)) BANNED_PHRASES.

Definition guard_and_disclaim (text : string) (banned_only : bool)
  : bool * string :=
  if has_banned text then (false, REFUSAL)
  else if banned_only then (true, text)
  else (true,
        text +:+ NEWLINE +:+ NEWLINE +:+ GENERIC_DISCLAIMER
        +:+ "We avoid favoritism toward individual securities; suggestions are diversified and ETF-first where possible.").

End Compliance.

(* ===================================================================== *)
(** * agent/agent.py *)
(* ===================================================================== *)

Module Agent.

(** The LangChain executor (the language model together with the tools it
    may call) is an oracle on the world [W]: given the input and the chat
    history it raises or returns a result, of which [invoke] reads the
    ["output"] entry, or [str(result)] when there is none. *)
Record exec_result : Type := ExecResult {
  er_output : option string;
  er_repr : string
}.

Section WithWorld.
Context {W : Type}.

Definition executor : Type :=
  string -> list (string * string) -> W -> Py.outcome exec_result * W.

(** [AgentWithMemory]: the executor and the conversation memory (the
    turns saved so far).  [exec_calls] lists the inputs the executor was
    invoked with. *)
Record agent : Type := MkAgent {
  mem : list (string * string);
  exec_calls : list string
}.

Definition SORRY_INVOKE : string :=
  "Sorry — something went wrong while processing that. Try rephrasing or a simpler request.".

(** [AgentWithMemory.invoke(inputs)], returning the ["output"] entry of
    its result. *)
Definition invoke (exec : executor) (user_msg : string) (a : agent) (w : W)
  : string * agent * W :=
  let '(ok_in, maybe_msg) := Compliance.guard_and_disclaim user_msg true in
  if negb ok_in then (maybe_msg, a, w)
  else
    let hist := mem a in
    let '(r, w') := exec user_msg hist w in
    let ai_msg :=
      match r with
      | Py.Returns res => default (er_repr res) (er_output res)
      | Py.Raises => SORRY_INVOKE
      end in
    let a' := {| mem := mem a ++ [(user_msg, ai_msg)];
                 exec_calls := exec_calls a ++ [user_msg] |} in
    let '(_, final_text) := Compliance.guard_and_disclaim ai_msg false in
    (final_text, a', w').

End WithWorld.

(** What [chat.invoke({"input": prompt})] may give back to
    [run_and_comply]: a dict (with or without an ["output"] entry) or
    another object, given by its [str()]. *)
Inductive chat_result : Type :=
| ChatDict (output : option string)
| ChatOther (repr : string).

Definition SORRY : string :=
  "Sorry — something went wrong while processing that.".

Section RunAndComply.
Context {W : Type}.

Definition chat_fn : Type := string -> W -> Py.outcome chat_result * W.

(** [run_and_comply(executor, prompt)] *)
Definition run_and_comply (chat : chat_fn) (prompt : string) (w : W)
  : string * W :=
  let '(r, w') := chat prompt w in
  match r with
  | Py.Returns (ChatDict o) => (default "" o, w')
  | Py.Returns (ChatOther repr) => (repr, w')
  | Py.Raises => (SORRY, w')
  end.

End RunAndComply.

End Agent.

(* ===================================================================== *)
(** * agent/failsafe.py *)
(* ===================================================================== *)

Module Failsafe.

(** [os.getenv("FAILSAFE_STRICT", "1") not in {"0", "false", "False"}] *)
Definition FAILSAFE_STRICT (env : option string) : bool :=
  let v := default "1" env in
  negb (Str.eqb v "0" || Str.eqb v "false" || Str.eqb v "False").

(** [\bnan\b] *)
Definition NAN_WORD : Re.regex := Re.Seqs [Re.WordB; Re.Lit "nan"; Re.WordB].

Definition _BAD_PATTERNS : list Re.regex :=
  [ NAN_WORD;
    Re.Lit "could not parse";
    Re.Seqs [Re.Lit "invalid"; Re.Plus (Re.Lit " "); Re.Lit "json"]; (* invalid +json *)
    Re.Lit "unavailable";
    Re.Lit "no price data found";
    Re.Seqs [Re.Lit "yfinance"; Re.Star Re.Dot; Re.Lit "failed"];   (* yfinance.*failed *)
    Re.Lit "request timed out";
    Re.Lit "error:";
    Re.Lit "exception" ].

Definition MARKER : string := "expected annual return:".

Definition _looks_broken (strict : bool) (output : string) : bool :=
  if negb strict then false
  else if Str.eqb output "" then true
  else
    let text := Str.lower output in
    if Str.contains MARKER text && negb (Str.contains "nan" text) then false
    else if existsb (fun pat => Re.search pat text) _BAD_PATTERNS then true
    else if Str.contains MARKER text && Str.contains "nan" text then true
    else false.

(** The exemption of the quality gate: the marker phrase is in the
    lower-cased text and [nan] is not. *)
Definition exempt (text : string) : Prop :=
  Str.occurs_in MARKER text /\ ~ Str.occurs_in "nan" text.


(** The calls the executor makes: handler number [i] (from 0) with what it
    gave, and the chat capability with its prompt. *)
Inductive event : Type :=
| EvHandler (i : nat) (o : Py.outcome Py.value)
| EvChat (prompt : string).

(** A handler has failed when it raised or when the gate flags its text. *)
Definition failed (strict : bool) (o : Py.outcome Py.value) : bool :=
  match o with
  | Py.Raises => true
  | Py.Returns v => _looks_broken strict (Py.to_str v)
  end.


Section WithWorld.
Context {W : Type}.

(** A zero-argument callable. *)
Definition handler : Type := W -> Py.outcome Py.value * W.

(** The [for h in handlers] loop from handler number [i] on, then the
    fallback.  A handler that raises, and one whose output is flagged (the
    [RuntimeError] raised inside the [try]), both land in the [except]
    clause, which logs and lets the loop go on. *)
Fixpoint run_from (strict : bool) (i : nat) (question : string)
         (handlers : list handler) (chat : Agent.chat_fn) (w : W)
         (log : list event) : string * W * list event :=
  match handlers with
  | [] =>
      let '(text, w') := Agent.run_and_comply chat question w in
      (text, w', log ++ [EvChat question])
  | h :: rest =>
      let '(o, w') := h w in
      let log' := log ++ [EvHandler i o] in
      match o with
      | Py.Returns out =>
          let out_str := Py.to_str out in
          if _looks_broken strict out_str
          then run_from strict (S i) question rest chat w' log'
          else (out_str, w', log')
      | Py.Raises => run_from strict (S i) question rest chat w' log'
      end
  end.

(** [run_with_failsafe(question=..., handlers=..., chat=...)]; [context]
    and [final] only reach the logger. *)
Definition run_with_failsafe (strict : bool) (question : string)
           (handlers : list handler) (chat : Agent.chat_fn) (w : W)
  : string * W * list event :=
  run_from strict 0 question handlers chat w [].

(** [freeform_only] *)
Definition freeform_only (strict : bool) (question : string)
           (chat : Agent.chat_fn) (w : W) : string * W * list event :=
  run_with_failsafe strict question [] chat w.


End WithWorld.

End Failsafe.

(* ===================================================================== *)
(** * agent/fraud.py *)
(* ===================================================================== *)

Module Fraud.

Import Py.

(** ** The z-score *)

Definition of_nat (n : nat) : float :=
  PrimFloat.of_uint63 (Uint63.of_Z (Z.of_nat n)).

(** The items of [(x - mu) ** 2 for x in history], as [sum] draws them:
    the first one that raises ends the sum. *)
Fixpoint squares (rt : runtime) (mu : float) (history : list float)
  : outcome (list float) :=
  match history with
  | [] => Returns []
  | x :: rest =>
      match pow_2 rt (x - mu)%float with
      | Raises => Raises
      | Returns q =>
          match squares rt mu rest with
          | Raises => Raises
          | Returns qs => Returns (q :: qs)
          end
      end
  end.

(** [v or 1.0]: a float is false exactly when it equals zero. *)
Definition or_one (v : float) : float :=
  if (v =? 0)%float then 1%float else v.

Definition zscore_flag (rt : runtime) (amount : float) (history : list float)
  : outcome bool :=
  if bool_decide (history = []) || (length history <? 5)%nat then Returns false
  else
    let n := of_nat (length history) in
    let mu := (sum_floats rt history / n)%float in
    match squares rt mu history with
    | Raises => Raises
    | Returns qs =>
        let v := (sum_floats rt qs / n)%float in
        match pow_half rt v with
        | Raises => Raises
        | Returns None => complex_deviation rt (amount - mu)%float v
        | Returns (Some root) =>
            let sd := or_one root in
            Returns (3 <? PrimFloat.abs ((amount - mu) / sd))%float
        end
    end.

(** ** The transaction *)

(** [int(text)]: surrounding white space, an optional sign, decimal
    digits, single underscores between digits; a [ValueError] when there
    are more digits than the limit allows. *)
Fixpoint digits_val (acc : Z) (after_digit : bool) (l : list ascii)
  : option Z :=
  match l with
  | [] => if after_digit then Some acc else None
  | c :: l' =>
      if Str.is_digit c
      then digits_val (acc * 10 + Z.of_nat (Str.code c - 48)) true l'
      else if bool_decide (c = "_"%char) && after_digit
           then digits_val acc false l'
           else None
  end.

Definition count_digits (l : list ascii) : nat :=
  length (List.filter Str.is_digit l).

Definition over_limit (rt : runtime) (l : list ascii) : bool :=
  (0 <? int_max_str_digits rt)%nat
  && (int_max_str_digits rt <? count_digits l)%nat.

Definition parse_int (rt : runtime) (text : string) : option Z :=
  match Str.chars (Str.strip text) with
  | c :: l =>
      let signed := bool_decide (c = "-"%char) || bool_decide (c = "+"%char) in
      if over_limit rt (if signed then l else c :: l) then None
      else if bool_decide (c = "-"%char) then Z.opp <$> digits_val 0 false l
      else if bool_decide (c = "+"%char) then digits_val 0 false l
      else digits_val 0 false (c :: l)
  | [] => None
  end.

(** The ["hour"] entry of the transaction: a number (given by its
    [int()]), a string, or any value on which [int()] raises. *)
Inductive hour_field : Type :=
| HourInt (z : Z)
| HourStr (s : string)
| HourBad.

(** The transaction dict, by the entries the screener reads; [None] is an
    absent (or null) entry.  The amount is a JSON number. *)
Record transaction : Type := Tx {
  tx_amount : option float;
  tx_counterparty : option string;
  tx_hour : option hour_field;
  tx_time : option string;
  tx_timestamp : option string
}.

(** [t.split(":")[0]] *)
Fixpoint before_colon (s : string) : string :=
  match s with
  | EmptyString => EmptyString
  | String c s' =>
      if bool_decide (c = ":"%char) then EmptyString
      else String c (before_colon s')
  end.

(** [x or y] on optional strings: the empty string is false. *)
Definition str_or (x y : option string) : option string :=
  match x with
  | Some EmptyString | None => y
  | Some _ => x
  end.

Definition int_of_hour (rt : runtime) (h : hour_field) : option Z :=
  match h with
  | HourInt z => Some z
  | HourStr s => parse_int rt s
  | HourBad => None
  end.

Definition _parse_hour (rt : runtime) (tx : transaction) : Z :=
  match tx_hour tx ≫= int_of_hour rt with
  | Some z => z
  | None =>
      match str_or (tx_time tx) (tx_timestamp tx) with
      | Some t =>
          if Str.contains ":" t
          then default (-1)%Z (parse_int rt (before_colon t))
          else (-1)%Z
      | None => (-1)%Z
      end
  end.

Record policy : Type := Policy {
  odd_hours : option (list Z);
  large_amount_threshold : option float
}.

Record details : Type := Details {
  flags : list string;
  amount : float;
  hour : Z;
  counterparty : string
}.

(** [float(tx.get("amount") or 0.0)] *)
Definition amount_of (tx : transaction) : float :=
  match tx_amount tx with
  | Some a => if (a =? 0)%float then 0%float else a
  | None => 0%float
  end.

(** [flags.append(name)] under a condition. *)
Definition append_if (c : bool) (name : string) (flags : list string)
  : list string :=
  if c then flags ++ [name] else flags.

(** [bool(history_by_cp)]: supplied and not empty. *)
Definition truthy_map (h : option (gmap string (list float))) : bool :=
  match h with
  | Some m => negb (bool_decide (m = ∅))
  | None => false
  end.

(** [(tx.get("counterparty") or "").strip()] *)
Definition counterparty_of (tx : transaction) : string :=
  Str.strip (default "" (tx_counterparty tx)).

(** [history_by_cp.get(cp) or []] *)
Definition history_of (history_by_cp : option (gmap string (list float)))
           (cp : string) : list float :=
  default [] (history_by_cp ≫= (fun m => m !! cp)).

Definition simple_fraud_check
           (rt : runtime)
           (tx : transaction)
           (known_counterparties : option (gset string))
           (pol : option policy)
           (history_by_cp : option (gmap string (list float)))
  : outcome (bool * details) :=
  let odd : list Z :=
    default [0; 1; 2; 3; 4]%Z (pol ≫= odd_hours) in
  let large_amt : float :=
    default 5000%float (pol ≫= large_amount_threshold) in
  let amt := amount_of tx in
  let cp := counterparty_of tx in
  let hour := _parse_hour rt tx in
  let fl := [] in
  let fl := append_if (bool_decide (hour ∈ odd)) "odd-hour" fl in
  let fl :=
    append_if
      (match known_counterparties with
       | Some known =>
           negb (Str.eqb cp "") && negb (bool_decide (cp ∈ known))
       | None => false
       end) "unknown-counterparty" fl in
  let fl := append_if (large_amt <=? amt)%float "large-amount" fl in
  let anomaly : outcome bool :=
    if truthy_map history_by_cp && negb (Str.eqb cp "")
    then zscore_flag rt amt (history_of history_by_cp cp)
    else Returns false in
  match anomaly with
  | Raises => Raises
  | Returns a =>
      let fl := append_if a "amount-anomaly" fl in
      Returns (negb (bool_decide (fl = [])),
               {| flags := fl; amount := amt; hour := hour;
                  counterparty := cp |})
  end.

(** ** The transaction as [json.loads] gives it *)

(** The ["amount"] entry under [float(... or 0.0)]: absent or false
    (null, zero, the empty text), a value [float()] converts, or one on
    which it raises (a text that is no number, a list, an integer beyond
    the floats). *)
Inductive amount_entry : Type :=
| AmountFalsy
| AmountFloat (a : float)
| AmountBad.

(** The ["counterparty"] entry under [(... or "").strip()]: absent or
    false, a text, or a true value without a [strip] method (a number, a
    list), on which the call raises. *)
Inductive counterparty_entry : Type :=
| CounterpartyFalsy
| CounterpartyStr (s : string)
| CounterpartyBad.

(** What [json.loads(tx_json)] returned: a dict, by the entries read, or
    a value without a [get] method (a list, a number, a text, null). *)
Inductive parsed : Type :=
| NotDict
| Dict (amt : amount_entry) (cp : counterparty_entry)
       (hour : option hour_field) (time timestamp : option string).

(** [tool_fraud_check] of [agent/tools.py], after the JSON is parsed: the
    known set is [known_counterparties or set()], no history is passed,
    and nothing catches what the screener raises. *)
Definition tool_fraud_check_core
           (rt : runtime)
           (p : parsed)
           (known_counterparties : option (gset string))
           (pol : option policy) : outcome (bool * details) :=
  match p with
  | NotDict => Raises
  | Dict AmountBad _ _ _ _ => Raises
  | Dict _ CounterpartyBad _ _ _ => Raises
  | Dict amt cp hour time timestamp =>
      let tx :=
        {| tx_amount := match amt with AmountFloat a => Some a | _ => None end;
           tx_counterparty :=
             match cp with CounterpartyStr s => Some s | _ => None end;
           tx_hour := hour; tx_time := time; tx_timestamp := timestamp |} in
      simple_fraud_check rt tx (Some (default ∅ known_counterparties)) pol None
  end.

(** ** The rules as the specification words them *)

(** The float a power gave, where it gave one. *)
Definition value (o : outcome float) : float :=
  match o with
  | Returns v => v
  | Raises => nan
  end.




(** A flag fires on a call of the screener: the call returns and the flag
    is among the flags of its details. *)
Definition fires (flag : string) (r : outcome (bool * details)) : Prop :=
  match r with
  | Returns (_, d) => In flag (flags d)
  | Raises => False
  end.



End Fraud.

(* ===================================================================== *)
(** * agent/portfolio.py *)
(* ===================================================================== *)

Module Portfolio.

(** A [Dict[str, float]] of weights: the entries in insertion order, every
    key once. *)
Definition dict : Type := list (string * float).

(** [d.get(k, 0.0)] *)
Fixpoint dict_get (k : string) (d : dict) : float :=
  match d with
  | [] => 0%float
  | (k', v) :: d' => if Str.eqb k k' then v else dict_get k d'
  end.

(** [d[k] = v]: in place for a key already there, else a new last entry. *)
Fixpoint dict_set (k : string) (v : float) (d : dict) : dict :=
  match d with
  | [] => [(k, v)]
  | (k', v') :: d' =>
      if Str.eqb k k' then (k', v) :: d' else (k', v') :: dict_set k v d'
  end.

Definition keys (d : dict) : list string := map fst d.
Definition values (d : dict) : list float := map snd d.

(** [normalize_allocations]; [None] is the [ValueError].  A total that is
    not a number is not [<= 0]: the weights are then not numbers either. *)
Definition normalize_allocations (rt : Py.runtime) (alloc : dict)
  : option dict :=
  let total := Py.sum_floats rt (values alloc) in
  if (total <=? 0)%float then None
  else Some (map (fun kv => (fst kv, (snd kv / total)%float)) alloc).

(** The percent pattern: group 1 is [\d+(?:\.\d+)?], then [\s*%\s*],
    then group 2, an alphanumeric character followed by any number of
    characters of [A-Za-z0-9.\-_]. *)
Definition number : Re.regex :=
  Re.Seq (Re.Plus Re.Digit)
         (Re.Opt (Re.Seq (Re.Lit ".") (Re.Plus Re.Digit))).

Definition sym_tail (c : ascii) : bool :=
  Str.is_alnum c || Str.one_of ".-_" c.

Definition PERCENT_PAIR : Re.regex :=
  Re.Seqs [ Re.Group 1 number; Re.Star Re.Space; Re.Lit "%";
            Re.Star Re.Space;
            Re.Group 2 (Re.Seq (Re.Chr Str.is_alnum)
                               (Re.Star (Re.Chr sym_tail))) ].

(** The digits of a text of the shape [\d+(\.\d+)?] as an integer, with
    the power of ten of its fractional digits. *)
Fixpoint decimal_acc (n : Z) (scale : positive) (in_frac : bool)
         (l : list ascii) : Z * positive :=
  match l with
  | [] => (n, scale)
  | c :: l' =>
      if Str.is_digit c
      then decimal_acc (n * 10 + Z.of_nat (Str.code c - 48))%Z
                       (if in_frac then scale * 10 else scale)%positive
                       in_frac l'
      else decimal_acc n scale true l'
  end.

(** [float(text)] for such a text: the float nearest to the decimal
    number, infinity when it is out of range. *)
Definition float_of_decimal (text : string) : float :=
  let '(n, scale) := decimal_acc 0 1 false (Str.chars text) in
  Py.float_of_ratio n scale.

(** [re.sub(r'[^A-Za-z0-9]', '', sym).upper()] *)
Definition clean_symbol (sym : string) : string :=
  Str.upper (Str.of_chars (filter (fun c => Is_true (Str.is_alnum c))
                                  (Str.chars sym))).

(** The [for pct_str, sym in pairs] loop. *)
Fixpoint accumulate (pairs : list (string * string)) (out : dict) : dict :=
  match pairs with
  | [] => out
  | (pct_str, sym) :: rest =>
      let w := (float_of_decimal pct_str / 100)%float in
      let sym_clean := clean_symbol sym in
      if Str.eqb sym_clean "" then accumulate rest out
      else accumulate rest
             (dict_set sym_clean (dict_get sym_clean out + w)%float out)
  end.

(** [parse_percent_alloc]; [None] is a [ValueError]. *)
Definition parse_percent_alloc (rt : Py.runtime) (s : string) : option dict :=
  let pairs := Re.findall2 PERCENT_PAIR s in
  let out := accumulate pairs [] in
  match out with
  | [] => None
  | _ => normalize_allocations rt out
  end.

(** ** The parser as the specification words it *)

(** The symbol a pair names: the letters and digits of what was typed, in
    upper case. *)
Fixpoint spec_symbol (sym : string) : string :=
  match sym with
  | EmptyString => EmptyString
  | String c sym' =>
      if Str.is_alnum c then String (Str.upper_char c) (spec_symbol sym')
      else spec_symbol sym'
  end.

(** The symbols named, each once, in the order they first come. *)
Definition symbols (pairs : list (string * string)) : list string :=
  fold_left (fun seen p =>
               let k := spec_symbol (snd p) in
               if Str.eqb k "" || bool_decide (k ∈ seen) then seen
               else seen ++ [k])
            pairs [].

(** The weight a pair contributes, and the weights of the pairs that name
    [k] added up in the order of the text. *)
Definition pair_weight (pct_str : string) : float :=
  (float_of_decimal pct_str / 100)%float.

Definition share (k : string) (pairs : list (string * string)) : float :=
  fold_left (fun acc p =>
               if Str.eqb (spec_symbol (snd p)) k
               then (acc + pair_weight (fst p))%float else acc)
            pairs 0%float.

(** The total the shares are divided by. *)
Definition total (rt : Py.runtime) (pairs : list (string * string)) : float :=
  Py.sum_floats rt (map (fun k => share k pairs) (symbols pairs)).

(** The characters of a cleaned symbol: capital letters and digits. *)
Definition clean_char (c : ascii) : bool := Str.is_upper c || Str.is_digit c.

(** [risk_fit_label(vol, tolerance)] *)
Definition risk_fit_label (vol : float) (tolerance : option string) : string :=
  let tol := Str.strip (Str.lower (default "" tolerance)) in
  if Str.eqb tol "conservative" || Str.eqb tol "low"
  then (if (vol <? 0.10)%float then "fit" else "too volatile")
  else if Str.eqb tol "moderate" || Str.eqb tol "medium"
  then (if (vol <? 0.20)%float then "fit" else "too volatile")
  else if Str.eqb tol "aggressive" || Str.eqb tol "high"
  then (if (vol <? 0.35)%float then "fit" else "too volatile")
  else "unknown".

End Portfolio.

(* ===================================================================== *)
(** * agent/cache.py *)
(* ===================================================================== *)

Module Cache.

(** One record of the CSV file, as [put_cached_price] writes it; the csv
    module quotes what needs quoting and [float] reads back the text of a
    float, so a record is read as it was written. *)
Record row : Type := Row {
  r_symbol : string;
  r_date : string;
  r_price : float;
  r_ts : float
}.

(** The file at [CACHE_PATH]: absent, or the header followed by the
    records in the order they were appended. *)
Definition file : Type := option (list row).

Definition float_of_Z (z : Z) : float :=
  if (z <? 0)%Z then (- PrimFloat.of_uint63 (Uint63.of_Z (- z)))%float
  else PrimFloat.of_uint63 (Uint63.of_Z z).

(** [CACHE_TTL_S = int(float(CACHE_TTL_HOURS) * 3600)] for the integer
    [CACHE_TTL_HOURS] of the configuration, as the float it is compared
    with. *)
Definition CACHE_TTL_S (ttl_hours : Z) : float := float_of_Z (ttl_hours * 3600).

Definition matches (sym date : string) (r : row) : bool :=
  Str.eqb (Str.upper (r_symbol r)) sym && Str.eqb (r_date r) date.

(** The [for row in r] loop: keep the last record that matches. *)
Definition last_match (sym date : string) (rows : list row) : option row :=
  fold_left (fun latest r => if matches sym date r then Some r else latest)
            rows None.

(** [get_cached_price(symbol, date)] at clock reading [now]; [io_ok] says
    whether reading the file goes through (an exception gives [None]). *)
Definition get_cached_price (ttl_hours : Z) (now : float) (io_ok : bool)
           (f : file) (symbol date : string) : option float :=
  match f with
  | None => None
  | Some rows =>
      if negb io_ok then None
      else
        match last_match (Str.upper symbol) date rows with
        | None => None
        | Some latest =>
            if (CACHE_TTL_S ttl_hours <? now - r_ts latest)%float then None
            else Some (r_price latest)
        end
  end.

(** [put_cached_price(symbol, date, price)]: appends one record, after the
    header when the file is new; a failing write is logged and dropped. *)
Definition put_cached_price (now : float) (io_ok : bool) (f : file)
           (symbol date : string) (price : float) : file :=
  if negb io_ok then f
  else
    let r := {| r_symbol := Str.upper symbol; r_date := date;
                r_price := price; r_ts := now |} in
    Some (default [] f ++ [r]).

End Cache.

(* ===================================================================== *)
(** * agent/tools.py: price resolution *)
(* ===================================================================== *)

Module Tools.

(** [BOND_MAP.get(s, s)] for [s = sym.strip().upper()] *)
Definition map_symbol (sym : string) : string :=
  let s := Str.upper (Str.strip sym) in
  if Str.eqb s "BONDS" then "BND" else s.

(** What the Alpha Vantage request gives: an exception anywhere in the
    request or the conversion, a payload without a price, or a price. *)
Inductive av_response : Type :=
| AvFails
| AvNoPrice
| AvPrice (p : float).

(** What [yf.Ticker(symbol).history(...)] gives: an exception, an empty
    frame, or a frame whose last close is [p]. *)
Inductive yf_response : Type :=
| YfRaises
| YfEmpty
| YfClose (p : float).

(** The surroundings of one call. *)
Record env : Type := Env {
  today : string;                          (* _today_str() *)
  now : float;                             (* time.time() *)
  ttl_hours : Z;                           (* CACHE_TTL_HOURS *)
  api_key : option string;                 (* os.getenv("ALPHAVANTAGE_API_KEY") *)
  alpha_vantage : string -> av_response;
  yf_intraday : string -> yf_response;     (* period="1d", interval="1m" *)
  yf_daily : string -> yf_response;        (* period="5d", interval="1d" *)
  read_ok : bool;
  write_ok : bool
}.

(** The calls made, in order. *)
Inductive event : Type :=
| CacheRead (sym date : string)
| AlphaVantage (sym : string)
| YfIntraday (sym : string)
| YfDaily (sym : string)
| CacheWrite (sym date : string) (p : float).

Definition alpha_vantage_price (e : env) (symbol : string)
  : option float * string :=
  match alpha_vantage e symbol with
  | AvPrice p => (Some p, "alpha_vantage")
  | AvNoPrice => (None, "alpha_vantage:no_price")
  | AvFails => (None, "alpha_vantage:error")
  end.

Definition _latest_price_yf (e : env) (symbol : string)
  : option float * string * list event :=
  match yf_intraday e symbol with
  | YfRaises => (None, "yfinance:error", [YfIntraday symbol])
  | YfClose p => (Some p, "yfinance (intraday)", [YfIntraday symbol])
  | YfEmpty =>
      match yf_daily e symbol with
      | YfRaises => (None, "yfinance:error", [YfIntraday symbol; YfDaily symbol])
      | YfClose p =>
          (Some p, "yfinance:last_close", [YfIntraday symbol; YfDaily symbol])
      | YfEmpty =>
          (None, "yfinance:unavailable", [YfIntraday symbol; YfDaily symbol])
      end
  end.

(** [bool(api_key)] *)
Definition configured (k : option string) : bool :=
  match k with
  | Some EmptyString | None => false
  | Some _ => true
  end.

(** [get_latest_price(symbol)]: the result, the cache file afterwards and
    the calls made. *)
Definition get_latest_price (e : env) (f : Cache.file) (symbol : string)
  : (option float * string) * Cache.file * list event :=
  let sy := map_symbol symbol in
  let day := today e in
  let put p := Cache.put_cached_price (now e) (write_ok e) f sy day p in
  let secondary (log : list event) :=
    let '(p, src, yf_log) := _latest_price_yf e sy in
    match p with
    | Some v => ((Some v, src), put v, log ++ yf_log ++ [CacheWrite sy day v])
    | None => ((None, src), f, log ++ yf_log)
    end in
  match Cache.get_cached_price (ttl_hours e) (now e) (read_ok e) f sy day with
  | Some cached => ((Some cached, "cache:today"), f, [CacheRead sy day])
  | None =>
      if configured (api_key e) then
        match alpha_vantage_price e sy with
        | (Some p, src) =>
            ((Some p, src), put p,
             [CacheRead sy day; AlphaVantage sy; CacheWrite sy day p])
        | (None, _) => secondary [CacheRead sy day; AlphaVantage sy]
        end
      else secondary [CacheRead sy day]
  end.

End Tools.

(* ===================================================================== *)
(** * jagent.py: the routing block *)
(* ===================================================================== *)

Module Jagent.

Import Re.

(** The pattern of [_alloc_only]: as the percent pattern of the parser,
    but the symbol is a letter followed by at least one more character. *)
Definition ALLOC_PAIR : regex :=
  Seqs [ Group 1 Portfolio.number; Star Space; Lit "%"; Star Space;
         Group 2 (Seq (Chr Str.is_alpha) (Plus (Chr Portfolio.sym_tail))) ].

Definition STOP : list string := ["IN"; "OF"; "TO"; "INTO"; "ON"; "AT"].

Definition ALIAS (s : string) : string :=
  if Str.eqb s "BONDS" then "BND"
  else if Str.eqb s "BOND" then "BND"
  else if Str.eqb s "FIXEDINCOME" then "BND"
  else if Str.eqb s "APPL" then "AAPL"
  else s.

Fixpoint cleaned_pairs (pairs : list (string * string)) : list string :=
  match pairs with
  | [] => []
  | (pct, sym) :: rest =>
      let s := Str.rstrip_by (Str.one_of ".,;:)") (Str.upper (Str.strip sym)) in
      if bool_decide (s ∈ STOP) then cleaned_pairs rest
      else (pct +:+ "% " +:+ ALIAS s) :: cleaned_pairs rest
  end.

Definition _alloc_only (text : string) : string :=
  match findall2 ALLOC_PAIR text with
  | [] => ""
  | pairs => Str.join ", " (cleaned_pairs pairs)
  end.

(** The cue of a first-person risk statement. *)
Definition I_AM : regex := Alt (Lit "i am") (Lit "i'm").

Definition CUE : regex :=
  Seqs [ WordB;
         Group 1 (Alts [
           Lit "i am"; Lit "i'm";
           Seqs [ Lit "my"; Plus Space; Lit "risk";
                  Opt (Seq (Star Space)
                           (Alts [ Seqs [Lit "toler"; Chr (Str.one_of "ae"); Lit "nce"];
                                   Lit "preference"; Lit "profile";
                                   Lit "level"; Lit "appetite" ]));
                  Plus Space; Lit "is" ];
           Seqs [Lit "assume"; Plus Space; I_AM];
           Lit "consider me"; Lit "treat me as";
           Seqs [ Lit "set"; Plus Space; Star Dot; Lit "risk"; Star Dot;
                  Alt (Lit "to") (Lit "as") ] ]);
         WordB ].

Definition TOLERANCE : regex :=
  Seqs [ WordB;
         Group 1 (Alts [Lit "conservative"; Lit "moderate"; Lit "aggressive"]);
         WordB ].

Definition dash_or_space (c : ascii) : bool :=
  bool_decide (c = "-"%char) || Str.is_space c.

(** [SYNONYMS], in the order of the dict.  The first pattern has an empty
    alternative (between [risk on] and [risk[-\s]?on]), as the source has. *)
Definition SYNONYMS : list (regex * string) :=
  [ (Seqs [ WordB;
            Group 1 (Alts [ Lit "high risk"; Lit "risk-on"; Lit "risk on"; Eps;
                            Seqs [Lit "risk"; Opt (Chr dash_or_space); Lit "on"];
                            Lit "very aggressive"; Lit "speculative";
                            Lit "max risk" ]);
            WordB ], "aggressive");
    (Seqs [ WordB;
            Group 1 (Alts [ Lit "balanced"; Lit "medium risk";
                            Lit "average risk"; Lit "moderately" ]);
            WordB ], "moderate");
    (Seqs [ WordB;
            Group 1 (Alts [ Lit "low risk";
                            Seqs [Lit "risk"; Opt (Chr dash_or_space); Lit "off"];
                            Lit "risk-averse"; Lit "risk averse";
                            Lit "defensive"; Lit "capital preservation" ]);
            WordB ], "conservative") ].

Fixpoint first_synonym (t : string) (syn : list (regex * string))
  : option string :=
  match syn with
  | [] => None
  | (pat, canon) :: rest =>
      if search pat t then Some canon else first_synonym t rest
  end.

Definition _infer_risk_freeform (text : string) : option string :=
  let t := Str.lower text in
  if negb (search CUE t) then None
  else
    match search_caps TOLERANCE t with
    | Some cs => group 1 cs
    | None => first_synonym t SYNONYMS
    end.

(** [PRICE_TICKER_REGEX], compiled with [re.I].  The typographic
    apostrophe of the source is its UTF-8 byte sequence here. *)
Definition TICKER : regex :=
  Seq (Chr Str.is_alpha)
      (UpTo 9 (Chr (fun c => Str.is_alnum c || Str.one_of ".-" c))).

Definition APOSTROPHE : regex := Alt (Lit "'") (Lit "’").
Definition PRICE_OR_QUOTE : regex := Alt (Lit_i "price") (Lit_i "quote").

Definition PRICE_TICKER_REGEX : regex :=
  Alt (Seqs [ Group 1 TICKER; Opt (Seq APOSTROPHE (Lit_i "s"));
              Plus Space; PRICE_OR_QUOTE; WordB ])
      (Seqs [ WordB;
              Opt (Seqs [ Lit_i "what"; Alt (Lit_i "'s") (Lit_i " is");
                          Plus Space ]);
              Opt (Seq (Lit_i "the") (Plus Space));
              PRICE_OR_QUOTE; Plus Space;
              Opt (Alt (Lit_i "of") (Lit_i "for"));
              Star Space; Group 2 TICKER; WordB ]).

(** [s.endswith(suffix)] and the removal of a matched suffix. *)
Definition endswith (suffix s : string) : bool :=
  Str.startswith (Str.of_chars (rev (Str.chars suffix)))
                 (Str.of_chars (rev (Str.chars s))).

Definition chop (n : nat) (s : string) : string :=
  Str.of_chars (take (String.length s - n) (Str.chars s)).

(** [re.sub(r"['’]s$", "", raw)] *)
Definition drop_possessive (raw : string) : string :=
  if endswith "'s" raw then chop 2 raw
  else if endswith "’s" raw then chop 4 raw
  else raw.

(** The deterministic tools a route may hand to the failsafe executor. *)
Inductive tool_call : Type :=
| StockQuery (q : string)
| PortfolioAnalysis (alloc : string) (risk_tolerance : string)
| FraudCheck (js : string) (known : list string)
| Sentiment (text : string)
| NewsHeadlines (q : string).

(** What one turn of the loop of [main] does with the line read. *)
Inductive action : Type :=
| Skip                                   (* empty line *)
| Exit
| ShowHelp
| ShowHelpTopic (topic : string)
| SetRiskInferred (tol : string)
| SetRisk (tol : option string)          (* [None]: the usage line *)
| ForgetMe
| PayeeAdd (name : string)               (* empty name: the usage line *)
| PayeeList
| AnalyzeUsage
| Crash                                  (* an uncaught [IndexError] *)
| Failsafe (question : string) (handlers : list tool_call).

(** The session variables the routes read: the risk tolerance and the
    counterparties listed from the database (none without a database). *)
Record session : Type := Session {
  risk_tol : string;
  known : list string
}.

Definition quote_chars : string := String (ascii_of_nat 34) EmptyString.

(** [x.strip()], then the double quotes and then the single quotes
    stripped from both ends. *)
Definition unquote (x : string) : string :=
  Str.strip_by (Str.one_of "'")
    (Str.strip_by (Str.one_of quote_chars) (Str.strip x)).

Definition route (st : session) (line : string) : action :=
  let user_in := Str.strip line in
  if Str.eqb user_in "" then Skip else
  let low := Str.strip (Str.lower user_in) in
  if Str.eqb low "exit" || Str.eqb low "quit" then Exit else
  if Str.eqb low "help" then ShowHelp else
  if Str.startswith "help " low then
    match Str.after_first " " low with
    | Some t => ShowHelpTopic (Str.lower (Str.strip t))
    | None => Crash
    end
  else
  match _infer_risk_freeform user_in with
  | Some tol_guess => SetRiskInferred tol_guess
  | None =>
  if Str.startswith "set risk" low then
    let parts := Str.split_ws low in
    if (3 <=? length parts)%nat then SetRisk (last parts) else SetRisk None
  else
  if Str.eqb low "forget me" then ForgetMe else
  if Str.startswith "price " low then
    match Str.split1_ws user_in with
    | Some t => Failsafe user_in [StockQuery (Str.strip t)]
    | None => Crash
    end
  else
  if Str.startswith "analyze portfolio" low then
    match Str.after_first "analyze portfolio" user_in with
    | Some alloc_raw =>
        let alloc := _alloc_only (Str.strip alloc_raw) in
        if Str.eqb alloc "" || negb (Str.contains "%" alloc) then AnalyzeUsage
        else Failsafe user_in [PortfolioAnalysis alloc (risk_tol st)]
    | None => Crash
    end
  else
  if Str.startswith "fraud " low then
    match Str.after_first "fraud" user_in with
    | Some js => Failsafe user_in [FraudCheck (Str.strip js) (known st)]
    | None => Crash
    end
  else
  if Str.startswith "sentiment " low then
    match Str.after_first " " user_in with
    | Some t => Failsafe user_in [Sentiment (Str.strip t)]
    | None => Crash
    end
  else
  if Str.startswith "payee add " low || Str.startswith "counterparty add " low
  then
    let prefix :=
      if Str.startswith "payee add " low then "payee add "
      else "counterparty add " in
    PayeeAdd (Str.rstrip_by (Str.one_of ".,;:")
                (unquote (Str.drop (String.length prefix) user_in)))
  else
  if Str.startswith "news " low then
    match Str.after_first " " user_in with
    | Some t =>
        let topic := Str.strip t in
        Failsafe ("Give me recent headlines for: " +:+ topic)
                 [NewsHeadlines (unquote topic)]
    | None => Crash
    end
  else
  if bool_decide (low ∈ ["payee list"; "counterparty list";
                         "payee/counterparty list"])
  then PayeeList else
  let alloc_guess := _alloc_only user_in in
  if negb (Str.eqb alloc_guess "") && Str.contains "%" alloc_guess
  then Failsafe user_in [PortfolioAnalysis alloc_guess (risk_tol st)]
  else
  match search_caps PRICE_TICKER_REGEX user_in with
  | Some cs =>
      let raw :=
        Str.upper (match group 1 cs with
                   | Some t1 => if Str.eqb t1 "" then default "" (group 2 cs) else t1
                   | None => default "" (group 2 cs)
                   end) in
      let ticker :=
        Str.rstrip_by (Str.one_of ".,!?):;") (drop_possessive raw) in
      Failsafe user_in [StockQuery ticker]
  | None => Failsafe user_in []
  end
  end.

Section Pipeline.
Context {W : Type}.

(** The tools are oracles on the world. *)
Variable tools : tool_call -> W -> Py.outcome Py.value * W.
Variable exec : @Agent.executor W.

(** The world of a turn: the agent (its memory and the record of its
    executor calls) and the outside world. *)
Definition world : Type := @Agent.agent * W.

(** The zero-argument callable built for a tool call.  The fraud route
    post-processes the text with [guard_and_disclaim]. *)
Definition handler_of (t : tool_call) : @Failsafe.handler world :=
  fun '(a, w) =>
    let '(o, w') := tools t w in
    match t, o with
    | FraudCheck _ _, Py.Returns v =>
        (Py.Returns
           (Py.VStr (snd (Compliance.guard_and_disclaim (Py.to_str v) false))),
         (a, w'))
    | _, _ => (o, (a, w'))
    end.

(** [chat=agent]: [run_and_comply] calls [AgentWithMemory.invoke]. *)
Definition agent_chat : @Agent.chat_fn world :=
  fun prompt '(a, w) =>
    let '(out, a', w') := Agent.invoke exec prompt a w in
    (Py.Returns (Agent.ChatDict (Some out)), (a', w')).

(** One turn of the loop on the line read: the text printed by a route
    that goes through the failsafe executor, the world afterwards and the
    handler and chat calls made. *)
Definition turn (strict : bool) (st : session) (line : string) (wd : world)
  : option string * world * list Failsafe.event :=
  match route st line with
  | Failsafe question handlers =>
      let '(out, wd', log) :=
        Failsafe.run_with_failsafe strict question (map handler_of handlers)
                                   agent_chat wd in
      (Some out, wd', log)
  | _ => (None, wd, [])
  end.

End Pipeline.

End Jagent.

(* ===================================================================== *)
(** * Python's decimal text of an integer *)
(* ===================================================================== *)

Module Fmt.

(** [str(n)] for a natural number [n]: its decimal digits, most
    significant first, no sign and no leading zero. *)
Definition str_of_nat (n : nat) : string :=
  DecimalString.NilZero.string_of_uint (Nat.to_uint n).

End Fmt.

(* ===================================================================== *)
(** * agent/tools.py: the older price lookup *)
(* ===================================================================== *)

Module Realtime.

Import Tools.

(** [alpha_vantage_price(sy, key, timeout=15)]: the request made here
    waits 15 seconds where the one of [get_latest_price] waits 60, so it
    is a request of its own. *)
Definition alpha_vantage_price (request_15 : string -> av_response)
           (symbol : string) : option float * string :=
  match request_15 symbol with
  | AvPrice p => (Some p, "alpha_vantage")
  | AvNoPrice => (None, "alpha_vantage:no_price")
  | AvFails => (None, "alpha_vantage:error")
  end.

(** [get_realtime_price(symbol)]: the result, the cache file afterwards
    and the calls made.  One yfinance request only, the intraday one; an
    exception in it, or an empty frame, ends the lookup. *)
Definition get_realtime_price (request_15 : string -> av_response)
           (e : env) (f : Cache.file) (symbol : string)
  : (option float * string) * Cache.file * list event :=
  let sy := map_symbol symbol in
  let day := today e in
  let put p := Cache.put_cached_price (now e) (write_ok e) f sy day p in
  let yfinance (log : list event) :=
    match yf_intraday e sy with
    | YfClose p =>
        ((Some p, "yfinance (intraday)"), put p,
         log ++ [YfIntraday sy; CacheWrite sy day p])
    | YfEmpty | YfRaises => ((None, "unavailable"), f, log ++ [YfIntraday sy])
    end in
  match Cache.get_cached_price (ttl_hours e) (now e) (read_ok e) f sy day with
  | Some p => ((Some p, "cache(csv)"), f, [CacheRead sy day])
  | None =>
      if configured (api_key e) then
        match alpha_vantage_price request_15 sy with
        | (Some price, src) =>
            ((Some price, src), put price,
             [CacheRead sy day; AlphaVantage sy; CacheWrite sy day price])
        | (None, _) => yfinance [CacheRead sy day; AlphaVantage sy]
        end
      else yfinance [CacheRead sy day]
  end.

End Realtime.

(* ===================================================================== *)
(** * agent/tools.py: weights given as a dict *)
(* ===================================================================== *)

Module Analysis.

Import Portfolio.

(** The dict given: each key by its [str()], each value by what [float()]
    makes of it. *)
Definition entries : Type := list (string * Py.outcome float).

(** The comprehension [{map_symbol(str(k)): float(v) for k, v in d.items()}]:
    the entries are set one after the other, so a later entry replaces the
    value of an earlier one that maps to the same symbol; a value that
    [float()] rejects ends it. *)
Fixpoint mapped_from (vals : dict) (d : entries) : Py.outcome dict :=
  match d with
  | [] => Py.Returns vals
  | (k, Py.Raises) :: _ => Py.Raises
  | (k, Py.Returns v) :: rest =>
      mapped_from (dict_set (Tools.map_symbol k) v vals) rest
  end.

(** [_normalize_from_dict(d)]; the [ValueError] of a total that is not
    positive is raised too. *)
Definition _normalize_from_dict (rt : Py.runtime) (d : entries)
  : Py.outcome dict :=
  match mapped_from [] d with
  | Py.Raises => Py.Raises
  | Py.Returns vals =>
      let total := Py.sum_floats rt (values vals) in
      if (total <=? 0)%float then Py.Raises
      else Py.Returns (map (fun kv => (fst kv, (snd kv / total)%float)) vals)
  end.

(** The value of the last entry of [d] whose key maps to [k]. *)
Definition last_value (k : string) (d : entries) : option float :=
  match find (fun kv => Str.eqb (Tools.map_symbol (fst kv)) k) (rev d) with
  | Some (_, Py.Returns v) => Some v
  | _ => None
  end.

End Analysis.

(* ===================================================================== *)
(** * agent/tools.py: the texts the tools answer with *)
(* ===================================================================== *)

Module Report.

Definition LF : string := String (ascii_of_nat 10) EmptyString.

(** The fields of the report of [tool_portfolio_analysis], each as its
    f-string formats it. *)
Record fields : Type := Fields {
  symbols : list string;
  hsrc : string;             (* [yfinance] or [synthetic], from get_history *)
  exp_ret : string;          (* exp_ret:.2% *)
  vol : string;              (* vol:.2% *)
  rf : string;               (* RISK_FREE_RATE:.2% *)
  sharpe : string;           (* sharpe:.2f *)
  hhi : string;              (* hhi:.3f *)
  var : string;              (* var:.2% *)
  risk_tolerance : string;
  fit : string               (* risk_fit_label *)
}.

Definition lines (r : fields) : list string :=
  [ "Symbols: " +:+ Str.join ", " (symbols r)
      +:+ " (history source: " +:+ hsrc r +:+ ")";
    "Expected annual return: " +:+ exp_ret r;
    "Annualized volatility: " +:+ vol r;
    "Sharpe (rf=" +:+ rf r +:+ "): " +:+ sharpe r;
    "Diversification (HHI): " +:+ hhi r +:+ " (lower is better)";
    "Approx 5% annual VaR: " +:+ var r;
    "Risk fit vs tolerance '" +:+ risk_tolerance r +:+ "': " +:+ fit r ].

(** What [tool_portfolio_analysis] returns. *)
Definition text (r : fields) : string := Str.join LF (lines r).

(** What [tool_stock_query] answers for the symbol [sym] it read and the
    result of [get_latest_price(sym)]; [fmt2] is the [.2f] format. *)
Definition stock_query_answer (fmt2 : float -> string) (today sym : string)
           (res : option float * string) : string :=
  match res with
  | (None, src) =>
      "Could not fetch a price for " +:+ sym +:+ "." +:+ LF
        +:+ "[source: " +:+ src +:+ "]"
  | (Some p, src) =>
      sym +:+ " ≈ " +:+ fmt2 p +:+ " (asof: " +:+ today +:+ ")" +:+ LF
        +:+ "[source: " +:+ src +:+ "]"
  end.

End Report.

(* ===================================================================== *)
(** * agent/tools.py: news rows *)
(* ===================================================================== *)

Module News.

(** One item of a Finnhub answer: the three keys read, absent or with
    their text. *)
Record item : Type := Item {
  headline : option string;
  source : option string;
  url : option string
}.

Definition DASH : string := " — ".
Definition BREAK : string := String (ascii_of_nat 10) "  ".

(** The row of the company-news branch and of the last loop. *)
Definition row_titled (it : item) : string :=
  "- " +:+ default "(no title)" (headline it) +:+ DASH
    +:+ default "" (source it) +:+ BREAK +:+ default "" (url it).

(** [it.get("headline") or ""] *)
Definition head (it : item) : string := default "" (headline it).

(** The row of the filtering loop. *)
Definition row_head (it : item) : string :=
  "- " +:+ head it +:+ DASH +:+ default "" (source it) +:+ BREAK
    +:+ default "" (url it).

(** [_TICKER_RE], anchored at both ends, on a stripped text: a capital
    letter, then at most nine characters among capital letters, digits,
    the dot and the hyphen. *)
Definition ticker_tail (c : ascii) : bool :=
  Str.is_upper c || Str.is_digit c || Str.one_of ".-" c.

Definition is_ticker (s : string) : bool :=
  match Str.chars s with
  | [] => false
  | c :: rest =>
      Str.is_upper c && (length rest <=? 9)%nat && forallb ticker_tail rest
  end.

(** [[w.lower() for w in q_strip.split() if len(w) > 2]] *)
Definition terms (q_strip : string) : list string :=
  map Str.lower
      (List.filter (fun w => (2 <? String.length w)%nat) (Str.split_ws q_strip)).

(** The test of the loop, negated: the item is kept. *)
Definition kept (ts : list string) (it : item) : bool :=
  match ts with
  | [] => true
  | _ => existsb (fun t => Str.contains t (Str.lower (head it))) ts
  end.

(** [max(1, int(limit))] *)
Definition cap (limit : Z) : nat := Z.to_nat (Z.max 1 limit).

(** The filtering loop with its [break], from the rows gathered so far. *)
Fixpoint gather (ts : list string) (n : nat) (data : list item)
         (rows : list string) : list string :=
  match data with
  | [] => rows
  | it :: rest =>
      if kept ts it then
        let rows' := rows ++ [row_head it] in
        if (n <=? length rows')%nat then rows' else gather ts n rest rows'
      else gather ts n rest rows
  end.

(** [_finnhub_news_from_query(q, limit)], given what the two requests
    answer: [None] stands for anything that is not a list. *)
Definition _finnhub_news_from_query
           (company_news : string -> option (list item))
           (general_news : option (list item))
           (q : string) (limit : Z) : list string :=
  let q_strip := Str.strip q in
  if is_ticker (Str.upper q_strip) then
    match company_news (Tools.map_symbol (Str.upper q_strip)) with
    | None | Some [] => []
    | Some data => map row_titled (take (cap limit) data)
    end
  else
    match general_news with
    | None | Some [] => []
    | Some data =>
        match gather (terms q_strip) (cap limit) data [] with
        | [] => map row_titled (take (cap limit) data)
        | rows => rows
        end
    end.

End News.

(* ===================================================================== *)
(** * The length limit of [int] on decimal texts *)
(* ===================================================================== *)

(** The digits of [n] are within what [int] accepts. *)
Definition within_limit (rt : Py.runtime) (n : nat) : Prop :=
  Py.int_max_str_digits rt = 0 \/
  String.length (Fmt.str_of_nat n) <= Py.int_max_str_digits rt.

(* ===================================================================== *)
(** * Sample inputs *)
(* ===================================================================== *)

Module Sample.

(** A C library whose [pow] is correctly rounded on the two exponents the
    code uses (the product, the square root), with the [OverflowError] of
    a result out of range; the examples below use it where the power is
    exact.  The two interpreters differ in the way [sum] adds. *)
Definition c_pow (x y : float) : Py.outcome float :=
  let r := if (y =? 2)%float then (x * x)%float
           else if (y =? 0.5)%float then PrimFloat.sqrt x
           else nan in
  if PrimFloat.is_infinity r then Py.Raises else Py.Returns r.

(** No square that this [pow] gives is negative, so the complex numbers
    are never reached. *)
Definition complex_deviation (a v : float) : Py.outcome bool := Py.Raises.

Definition py311 : Py.runtime :=
  Py.Runtime c_pow complex_deviation false 4300.
Definition py312 : Py.runtime :=
  Py.Runtime c_pow complex_deviation true 4300.

(** A percentage of 400 digits. *)
Definition huge_percent : string :=
  "1" +:+ Str.of_chars (repeat "0"%char 399) +:+ "% A".




(** The transaction of [tests/test_fraud.py]. *)
Definition tx_test : Fraud.transaction :=
  Fraud.Tx (Some 6000%float) (Some "X") (Some (Fraud.HourInt 0)) None None.

(** A handler that raises, one that returns a denylisted text, one that
    returns a good text, and a chat capability that answers. *)
Definition raising : @Failsafe.handler unit := fun w => (Py.Raises, w).

Definition broken : @Failsafe.handler unit :=
  fun w => (Py.Returns (Py.VStr "tool error: no data"), w).

Definition good : @Failsafe.handler unit :=
  fun w => (Py.Returns (Py.VStr "NVDA is about 187.50"), w).

Definition chat_ok : @Agent.chat_fn unit :=
  fun prompt w =>
    (Py.Returns (Agent.ChatDict (Some ("answer to " +:+ prompt))), w).

(** Every provider is down and nothing is cached. *)
Definition env_down : Tools.env :=
  {| Tools.today := "2025-01-02"; Tools.now := 1735800000%float;
     Tools.ttl_hours := 1; Tools.api_key := Some "demo";
     Tools.alpha_vantage := fun _ => Tools.AvFails;
     Tools.yf_intraday := fun _ => Tools.YfEmpty;
     Tools.yf_daily := fun _ => Tools.YfEmpty;
     Tools.read_ok := true; Tools.write_ok := true |}.

(** The primary provider answers 187.5. *)
Definition env_up : Tools.env :=
  {| Tools.today := "2025-01-02"; Tools.now := 1735800000%float;
     Tools.ttl_hours := 1; Tools.api_key := Some "demo";
     Tools.alpha_vantage := fun _ => Tools.AvPrice 187.5%float;
     Tools.yf_intraday := fun _ => Tools.YfRaises;
     Tools.yf_daily := fun _ => Tools.YfRaises;
     Tools.read_ok := true; Tools.write_ok := true |}.

(** Ten minutes later, every provider down. *)
Definition env_later : Tools.env :=
  {| Tools.today := "2025-01-02"; Tools.now := 1735800600%float;
     Tools.ttl_hours := 1; Tools.api_key := Some "demo";
     Tools.alpha_vantage := fun _ => Tools.AvFails;
     Tools.yf_intraday := fun _ => Tools.YfRaises;
     Tools.yf_daily := fun _ => Tools.YfRaises;
     Tools.read_ok := true; Tools.write_ok := true |}.

End Sample.

(* ===================================================================== *)
(** * Properties *)
(* ===================================================================== *)

(** ** Strings *)

Lemma startswith_app (p s : string) :
  Str.startswith p s = true <-> exists post, s = p +:+ post.
Proof.
  revert s. induction p as [|a p IH]; intros s; simpl.
  - split; [intros _; exists s; reflexivity | reflexivity].
  - destruct s as [|b s]; simpl.
    + split; [discriminate | intros [post H]; discriminate].
    + rewrite andb_true_iff, bool_decide_eq_true, IH. split.
      * intros [-> [post ->]]. exists post. reflexivity.
      * intros [post H]. injection H as -> ->. split; [reflexivity | eauto].
Qed.

Lemma contains_occurs (p s : string) :
  Str.contains p s = true <-> Str.occurs_in p s.
Proof.
  unfold Str.occurs_in. split.
  - induction s as [|c s IH].
    + simpl. rewrite orb_false_r, startswith_app. intros [post H].
      exists "", post. exact H.
    + cbn [Str.contains]. rewrite orb_true_iff, startswith_app.
      intros [[post H] | H].
      * exists "", post. exact H.
      * destruct (IH H) as (pre & post & ->).
        exists (String c pre), post. reflexivity.
  - intros (pre & post & ->). induction pre as [|c pre IH].
    + destruct (p +:+ post) eqn:E; cbn [Str.contains];
        apply orb_true_iff; left; apply startswith_app;
        exists post; simpl; rewrite E; reflexivity.
    + change (String c pre +:+ p +:+ post)
        with (String c (pre +:+ p +:+ post)).
      cbn [Str.contains]. rewrite IH. apply orb_true_r.
Qed.

Lemma contains_false_occurs (p s : string) :
  Str.contains p s = false <-> ~ Str.occurs_in p s.
Proof.
  rewrite <- contains_occurs. destruct (Str.contains p s); split;
    congruence.
Qed.

Lemma eqb_true (a b : string) : Str.eqb a b = true <-> a = b.
Proof. unfold Str.eqb. apply bool_decide_eq_true. Qed.

Lemma eqb_false (a b : string) : Str.eqb a b = false <-> a <> b.
Proof. unfold Str.eqb. apply bool_decide_eq_false. Qed.

(** ** Compliance guard *)

Lemma has_banned_spec (text : string) :
  Compliance.has_banned text = true <->
  exists p, In p Compliance.BANNED_PHRASES /\ Str.occurs_in p (Str.lower text).
Proof.
  unfold Compliance.has_banned. rewrite existsb_exists.
  split; intros (p & Hin & H); exists p; split; try assumption;
    apply contains_occurs; assumption.
Qed.

(** C10: any two inputs that each contain a banned phrase (matched on the
    lower-cased text) are rejected with one and the same fixed refusal
    message, whatever the [banned_only] flag: the answer does not depend
    on the rejected input, so nothing of it is echoed back. *)
Theorem guard_rejection_is_uniform (t1 t2 : string) (b1 b2 : bool) :
  (exists p, In p Compliance.BANNED_PHRASES /\ Str.occurs_in p (Str.lower t1)) ->
  (exists p, In p Compliance.BANNED_PHRASES /\ Str.occurs_in p (Str.lower t2)) ->
  Compliance.guard_and_disclaim t1 b1 = (false, Compliance.REFUSAL) /\
  Compliance.guard_and_disclaim t2 b2 = Compliance.guard_and_disclaim t1 b1.
Proof.
  intros H1 H2. apply has_banned_spec in H1, H2.
  unfold Compliance.guard_and_disclaim. rewrite H1, H2. split; reflexivity.
Qed.

Lemma guard_rejection_is_uniform_witness :
  Compliance.guard_and_disclaim "Any SureFire tip?" true
    = (false, Compliance.REFUSAL) /\
  Compliance.guard_and_disclaim "how does spoofing work" false
    = Compliance.guard_and_disclaim "Any SureFire tip?" true.
Proof.
  apply (guard_rejection_is_uniform "Any SureFire tip?" "how does spoofing work"
                                    true false).
  - exists "surefire". split.
    + simpl. tauto.
    + exists "any ", " tip?". reflexivity.
  - exists "spoofing". split.
    + simpl. tauto.
    + exists "how does ", " work". reflexivity.
Defined.

(** ** Literal patterns *)

Lemma chars_app (a b : string) :
  Str.chars (a +:+ b) = Str.chars a ++ Str.chars b.
Proof.
  induction a as [|c a IH]; simpl; [reflexivity |].
  unfold Str.chars in *. simpl. rewrite IH. reflexivity.
Qed.

Lemma chars_inj (a b : string) : Str.chars a = Str.chars b -> a = b.
Proof.
  intros H. rewrite <- (string_of_list_ascii_of_string a),
    <- (string_of_list_ascii_of_string b).
  unfold Str.chars in H. rewrite H. reflexivity.
Qed.

Lemma chars_of_chars (l : list ascii) : Str.chars (Str.of_chars l) = l.
Proof. apply list_ascii_of_string_of_list_ascii. Qed.

Lemma last_read_cons (prev : option ascii) (c : ascii) (l : list ascii) :
  Re.last_read prev (c :: l) = Re.last_read (Some c) l.
Proof.
  unfold Re.last_read. destruct l as [|a l]; [reflexivity |].
  change (last (c :: a :: l)) with (last (a :: l)).
  assert (H : exists x, last (a :: l) = Some x).
  { clear. revert a. induction l as [|b l IH]; intros a; [eauto |].
    change (last (a :: b :: l)) with (last (b :: l)). apply IH. }
  destruct H as [x ->]. reflexivity.
Qed.

Lemma rmatch_Lit {R : Type} (p : string) :
  forall (prev : option ascii) (l : list ascii) (cs : Re.caps)
         (k : @Re.cont R) (x : R),
    Re.rmatch (Re.Lit p) prev l cs k = Some x <->
    exists rest, l = Str.chars p ++ rest /\
                 k (Re.last_read prev (Str.chars p)) rest cs = Some x.
Proof.
  induction p as [|c p IH]; intros prev l cs k x.
  - simpl. split.
    + intros H. exists l. split; [reflexivity | exact H].
    + intros (rest & -> & H). exact H.
  - assert (Hchr : forall prev' (k' : @Re.cont R),
               Re.rmatch (Re.Lit1 c) prev' l cs k' = Some x <->
               exists rest, l = c :: rest /\ k' (Some c) rest cs = Some x).
    { intros prev' k'. simpl. destruct l as [|c' l'].
      - split; [discriminate | intros (rest & H & _); discriminate].
      - case_bool_decide as E.
        + subst c'. split.
          * intros H. exists l'. auto.
          * intros (rest & H & Hk). injection H as ->. exact Hk.
        + split; [discriminate |].
          intros (rest & H & _). injection H as -> _. congruence. }
    destruct p as [|c2 p].
    + change (Re.Lit (String c "")) with (Re.Lit1 c). rewrite Hchr.
      reflexivity.
    + change (Re.Lit (String c (String c2 p)))
        with (Re.Seq (Re.Lit1 c) (Re.Lit (String c2 p))).
      cbn [Re.rmatch]. fold (Re.Lit1 c). rewrite Hchr. split.
      * intros (rest & -> & H). apply IH in H as (rest' & -> & H).
        exists rest'. split; [reflexivity |].
        change (Str.chars (String c (String c2 p)))
          with (c :: Str.chars (String c2 p)).
        rewrite last_read_cons. exact H.
      * intros (rest & -> & H). exists (Str.chars (String c2 p) ++ rest).
        split; [reflexivity |]. apply IH. exists rest.
        split; [reflexivity |].
        change (Str.chars (String c (String c2 p)))
          with (c :: Str.chars (String c2 p)) in H.
        rewrite last_read_cons in H. exact H.
Qed.

Lemma scan_Lit (p : string) :
  forall (l : list ascii) (prev : option ascii),
    (exists r, Re.scan (Re.Lit p) prev l = Some r) <->
    exists pre rest, l = pre ++ Str.chars p ++ rest.
Proof.
  induction l as [|c l IH]; intros prev.
  - cbn [Re.scan]. split.
    + intros [r H]. destruct (Re.match_here (Re.Lit p) prev []) eqn:E;
        [| discriminate].
      apply rmatch_Lit in E as (rest & E & _). exists [], rest. exact E.
    + intros (pre & rest & H).
      destruct pre; [| discriminate].
      assert (E : Re.match_here (Re.Lit p) prev [] =
                  Some (Re.Hit (Re.last_read prev (Str.chars p)) rest [])).
      { apply rmatch_Lit. exists rest. split; [exact H | reflexivity]. }
      rewrite E. eauto.
  - cbn [Re.scan].
    destruct (Re.match_here (Re.Lit p) prev (c :: l)) eqn:E.
    + split; [| eauto]. intros _.
      apply rmatch_Lit in E as (rest & E & _). exists [], rest. exact E.
    + rewrite IH. split.
      * intros (pre & rest & ->). exists (c :: pre), rest. reflexivity.
      * intros (pre & rest & H). destruct pre as [|c' pre].
        -- exfalso.
           assert (E' : Re.match_here (Re.Lit p) prev (c :: l) =
                        Some (Re.Hit (Re.last_read prev (Str.chars p)) rest [])).
           { apply rmatch_Lit. exists rest. split; [exact H | reflexivity]. }
           congruence.
        -- injection H as -> ->. eauto.
Qed.

(** [re.search] of a literal pattern is the substring test. *)
Lemma search_Lit (p s : string) :
  Re.search (Re.Lit p) s = true <-> Str.occurs_in p s.
Proof.
  unfold Re.search, Re.search_caps, Str.occurs_in.
  destruct (Re.scan (Re.Lit p) None (Str.chars s)) as [[st h]|] eqn:E.
  - split; [intros _ | reflexivity].
    destruct (proj1 (scan_Lit p (Str.chars s) None)) as (pre & rest & H);
      [eauto |].
    exists (Str.of_chars pre), (Str.of_chars rest). apply chars_inj.
    rewrite !chars_app, !chars_of_chars. exact H.
  - split; [discriminate |]. intros (pre & post & ->). exfalso.
    destruct (proj2 (scan_Lit p (Str.chars (pre +:+ p +:+ post)) None))
      as [r Hr]; [| congruence].
    exists (Str.chars pre), (Str.chars post). rewrite !chars_app. reflexivity.
Qed.

(** ** Quality gate *)

Lemma occurs_in_nonempty (p s : string) :
  p <> "" -> Str.occurs_in p s -> s <> "".
Proof.
  intros Hp (pre & post & ->) H.
  destruct pre; [| discriminate]. destruct p; [congruence | discriminate].
Qed.

Lemma lower_empty (s : string) : Str.lower s = "" -> s = "".
Proof. destruct s; [reflexivity | discriminate]. Qed.


Lemma looks_broken_denylisted (output : string) (pat : Re.regex) :
  ~ Failsafe.exempt (Str.lower output) ->
  In pat Failsafe._BAD_PATTERNS ->
  Re.search pat (Str.lower output) = true ->
  Failsafe._looks_broken true output = true.
Proof.
  intros Hex Hin Hs. unfold Failsafe._looks_broken. cbn [negb].
  destruct (Str.eqb output ""); [reflexivity |].
  destruct (Str.contains Failsafe.MARKER (Str.lower output)
            && negb (Str.contains "nan" (Str.lower output))) eqn:E.
  - exfalso. apply Hex. apply andb_true_iff in E as [Hm Hn].
    apply negb_true_iff in Hn. split.
    + apply contains_occurs, Hm.
    + apply contains_false_occurs, Hn.
  - assert (Hx : existsb (fun pat => Re.search pat (Str.lower output))
                         Failsafe._BAD_PATTERNS = true).
    { apply existsb_exists. exists pat. split; assumption. }
    rewrite Hx. reflexivity.
Qed.



(** The gate is off when strict mode is off. *)
Lemma looks_broken_lenient (output : string) :
  Failsafe._looks_broken false output = false.
Proof. reflexivity. Qed.

Example looks_broken_marker_with_nan :
  Failsafe._looks_broken true "Expected annual return: nan%" = true.
Proof. reflexivity. Qed.

Example looks_broken_word_boundary :
  Failsafe._looks_broken true "nan" = true /\
  Failsafe._looks_broken true "banana" = false.
Proof. split; reflexivity. Qed.

(** ** Failsafe executor *)

Section FailsafeFacts.
Context {W : Type}.
Implicit Types (hs : list (@Failsafe.handler W)) (chat : @Agent.chat_fn W).



End FailsafeFacts.


(** A handler that raises, then one that returns a denylisted text, and
    no further handler: both are called once, in order, and then the chat
    capability, once.  With a third handler whose text passes the gate,
    that text is the result and the chat capability is not called. *)
Example failsafe_falls_back_once :
  Failsafe.run_with_failsafe true "price NVDA"
    [Sample.raising; Sample.broken] Sample.chat_ok tt
  = ("answer to price NVDA", tt,
     [ Failsafe.EvHandler 0 Py.Raises;
       Failsafe.EvHandler 1 (Py.Returns (Py.VStr "tool error: no data"));
       Failsafe.EvChat "price NVDA" ]) /\
  Failsafe.run_with_failsafe true "price NVDA"
    [Sample.raising; Sample.broken; Sample.good] Sample.chat_ok tt
  = ("NVDA is about 187.50", tt,
     [ Failsafe.EvHandler 0 Py.Raises;
       Failsafe.EvHandler 1 (Py.Returns (Py.VStr "tool error: no data"));
       Failsafe.EvHandler 2 (Py.Returns (Py.VStr "NVDA is about 187.50")) ]).
Proof. split; reflexivity. Qed.

(** ** Risk-fit label *)

Lemma fit_or_not (vol thr : float) :
  let label := if (vol <? thr)%float then "fit" else "too volatile" in
  (label = "fit" <-> (vol <? thr)%float = true) /\
  (label = "too volatile" <-> (vol <? thr)%float = false).
Proof.
  cbn zeta. destruct (vol <? thr)%float; split; split;
    first [reflexivity | discriminate].
Qed.

(** C8: with the tolerance lower-cased and trimmed, [risk_fit_label]
    returns [fit] exactly when the volatility is strictly below the
    threshold of the tolerance (0.10 for conservative or low, 0.20 for
    moderate or medium, 0.35 for aggressive or high) and [too volatile]
    exactly when it is not; a volatility equal to the threshold is too
    volatile; any other tolerance gives [unknown]. *)
Theorem risk_fit_label_spec (vol : float) (tolerance : option string) :
  let tol := Str.strip (Str.lower (default "" tolerance)) in
  let label := Portfolio.risk_fit_label vol tolerance in
  (tol = "conservative" \/ tol = "low" ->
     (label = "fit" <-> (vol <? 0.10)%float = true) /\
     (label = "too volatile" <-> (vol <? 0.10)%float = false)) /\
  (tol = "moderate" \/ tol = "medium" ->
     (label = "fit" <-> (vol <? 0.20)%float = true) /\
     (label = "too volatile" <-> (vol <? 0.20)%float = false)) /\
  (tol = "aggressive" \/ tol = "high" ->
     (label = "fit" <-> (vol <? 0.35)%float = true) /\
     (label = "too volatile" <-> (vol <? 0.35)%float = false)) /\
  (~ In tol ["conservative"; "low"; "moderate"; "medium"; "aggressive"; "high"] ->
     label = "unknown") /\
  Portfolio.risk_fit_label 0.10 (Some "conservative") = "too volatile" /\
  Portfolio.risk_fit_label 0.20 (Some "moderate") = "too volatile" /\
  Portfolio.risk_fit_label 0.35 (Some "aggressive") = "too volatile".
Proof.
  cbn zeta. unfold Portfolio.risk_fit_label.
  set (tol := Str.strip (Str.lower (default "" tolerance))).
  repeat match goal with |- _ /\ _ => split end;
    try reflexivity.
  - intros [H | H]; rewrite H; apply fit_or_not.
  - intros [H | H]; rewrite H; apply fit_or_not.
  - intros [H | H]; rewrite H; apply fit_or_not.
  - intros H.
    repeat match goal with
           | |- context [Str.eqb tol ?x] =>
               let E := fresh "E" in
               destruct (Str.eqb tol x) eqn:E;
               [apply eqb_true in E; exfalso; apply H; rewrite E; simpl; tauto |]
           end.
    reflexivity.
Qed.

Lemma risk_fit_label_spec_witness :
  Portfolio.risk_fit_label 0.05 (Some " Conservative ") = "fit".
Proof.
  apply (proj1 (risk_fit_label_spec 0.05 (Some " Conservative "))).
  - left. reflexivity.
  - reflexivity.
Defined.

(** ** Fraud screener *)

Lemma In_append_if (x name : string) (c : bool) (fl : list string) :
  In x (Fraud.append_if c name fl) <-> In x fl \/ (c = true /\ x = name).
Proof.
  unfold Fraud.append_if. destruct c.
  - rewrite in_app_iff. simpl. intuition.
  - intuition congruence.
Qed.








(** C6 (amended): on every call of the screener that returns, the
    unknown-counterparty flag fires if and only if a known-counterparty
    set is supplied (empty or not), the trimmed counterparty is not empty
    and it is not a member of the set, compared as is.  With the empty set
    supplied the flag fires for every non-empty counterparty. *)
Theorem unknown_counterparty_spec (rt : Py.runtime) (tx : Fraud.transaction)
        (known : option (gset string)) (pol : option Fraud.policy)
        (hist : option (gmap string (list float))) (s : bool)
        (d : Fraud.details) :
  Fraud.simple_fraud_check rt tx known pol hist = Py.Returns (s, d) ->
  let cp := Fraud.counterparty_of tx in
  (In "unknown-counterparty" (Fraud.flags d) <->
   exists K : gset string, known = Some K /\ cp <> "" /\ cp ∉ K) /\
  (known = Some ∅ ->
   (In "unknown-counterparty" (Fraud.flags d) <-> cp <> "")).
Proof.
  intros H cp.
  assert (Hmain : In "unknown-counterparty" (Fraud.flags d) <->
                  exists K : gset string, known = Some K /\ cp <> "" /\ cp ∉ K).
  { unfold Fraud.simple_fraud_check in H. fold cp in H.
    destruct (if Fraud.truthy_map hist && negb (Str.eqb cp "")
              then Fraud.zscore_flag rt (Fraud.amount_of tx)
                     (Fraud.history_of hist cp)
              else Py.Returns false) as [|a]; [discriminate |].
    injection H as _ <-. cbn [Fraud.flags].
    rewrite !In_append_if. cbn [In]. split.
    - intros [[[[[] | [_ [=]]] | [Hc _]] | [_ [=]]] | [_ [=]]].
      destruct known as [K|]; [| discriminate].
      apply andb_true_iff in Hc as [Hne Hnotin].
      apply negb_true_iff in Hne, Hnotin.
      apply eqb_false in Hne. apply bool_decide_eq_false in Hnotin.
      exists K. auto.
    - intros (K & -> & Hne & Hnotin). left. left. right.
      split; [| reflexivity].
      apply andb_true_iff. split; apply negb_true_iff.
      + apply eqb_false, Hne.
      + apply bool_decide_eq_false, Hnotin. }
  split; [exact Hmain |].
  intros ->. rewrite Hmain. split.
  - intros (K & _ & Hne & _). exact Hne.
  - intros Hne. exists ∅. split; [reflexivity |]. split; [exact Hne |].
    apply not_elem_of_empty.
Qed.

Lemma unknown_counterparty_spec_witness :
  In "unknown-counterparty" ["odd-hour"; "unknown-counterparty"; "large-amount"].
Proof.
  refine (proj2 (proj2 (unknown_counterparty_spec Sample.py311 Sample.tx_test
            (Some ∅) None None true
            {| Fraud.flags := ["odd-hour"; "unknown-counterparty"; "large-amount"];
               Fraud.amount := 6000; Fraud.hour := 0;
               Fraud.counterparty := "X" |} _) _) _).
  - vm_compute. reflexivity.
  - reflexivity.
  - discriminate.
Defined.

(** C6, as stated, fails: with the empty set supplied (as
    [tests/test_fraud.py] does) the flag fires. *)
Lemma unknown_counterparty_fires_on_empty_set :
  Fraud.fires "unknown-counterparty"
    (Fraud.simple_fraud_check Sample.py311 Sample.tx_test (Some ∅) None None).
Proof. vm_compute. right. left. reflexivity. Qed.

(** The tool passes [known_counterparties or set()], so the screener
    always has a set: without one, every non-empty counterparty is
    flagged. *)
Lemma tool_fraud_check_flags_every_counterparty :
  Fraud.fires "unknown-counterparty"
    (Fraud.tool_fraud_check_core Sample.py311
       (Fraud.Dict (Fraud.AmountFloat 6000) (Fraud.CounterpartyStr "X")
                   (Some (Fraud.HourInt 0)) None None)
       None None).
Proof. vm_compute. right. left. reflexivity. Qed.

(** ** Price cache *)

Lemma upper_char_idem (c : ascii) :
  Str.upper_char (Str.upper_char c) = Str.upper_char c.
Proof.
  destruct c as [[] [] [] [] [] [] [] []]; vm_compute; reflexivity.
Qed.

Lemma upper_idem (s : string) : Str.upper (Str.upper s) = Str.upper s.
Proof.
  unfold Str.upper. induction s as [|c s IH]; simpl; [reflexivity |].
  rewrite upper_char_idem, IH. reflexivity.
Qed.

Lemma last_match_app (sym date : string) (rows : list Cache.row)
      (r : Cache.row) :
  Cache.last_match sym date (rows ++ [r])
  = if Cache.matches sym date r then Some r
    else Cache.last_match sym date rows.
Proof. unfold Cache.last_match. rewrite fold_left_app. reflexivity. Qed.

Lemma last_match_unmatched (sym date : string) (rows : list Cache.row) :
  (forall r, In r rows -> Cache.matches sym date r = false) ->
  forall acc,
    fold_left (fun latest r => if Cache.matches sym date r then Some r else latest)
              rows acc = acc.
Proof.
  induction rows as [|r rows IH]; intros H acc; simpl; [reflexivity |].
  rewrite (H r) by (left; reflexivity).
  apply IH. intros r' Hr'. apply H. right. exact Hr'.
Qed.

Lemma last_match_last (sym date : string) (before after : list Cache.row)
      (r : Cache.row) :
  Cache.matches sym date r = true ->
  (forall r', In r' after -> Cache.matches sym date r' = false) ->
  Cache.last_match sym date (before ++ r :: after) = Some r.
Proof.
  intros Hr Hafter. unfold Cache.last_match.
  rewrite fold_left_app. simpl. rewrite Hr.
  apply last_match_unmatched, Hafter.
Qed.

Lemma get_after_put (ttl : Z) (now_put now_get : float) (f : Cache.file)
      (symbol date : string) (price : float) :
  (Cache.CACHE_TTL_S ttl <? now_get - now_put)%float = false ->
  Cache.get_cached_price ttl now_get true
    (Cache.put_cached_price now_put true f symbol date price) symbol date
  = Some price.
Proof.
  intros Httl. unfold Cache.put_cached_price, Cache.get_cached_price.
  cbn [negb]. rewrite last_match_app.
  unfold Cache.matches at 1. cbn [Cache.r_symbol Cache.r_date].
  rewrite upper_idem.
  assert (E1 : Str.eqb (Str.upper symbol) (Str.upper symbol) = true)
    by (apply eqb_true; reflexivity).
  assert (E2 : Str.eqb date date = true) by (apply eqb_true; reflexivity).
  rewrite E1, E2. cbn [andb Cache.r_ts Cache.r_price].
  rewrite Httl. reflexivity.
Qed.

(** C9: a price written with a successful [put_cached_price] is returned
    by [get_cached_price] for the same symbol and date as long as the
    clock has not moved more than the TTL past the write; the read looks
    at the cache file only, and [get_latest_price], run after a lookup
    that fetched the price from a provider and wrote it back, answers
    from the cache with no provider call.  When several rows match the
    key, the read is decided by the last of them in the file, the most
    recently written: its price within its TTL, nothing otherwise. *)
Theorem cache_round_trip :
  (forall (ttl : Z) (now_put now_get : float) (f : Cache.file)
          (symbol date : string) (price : float),
      (Cache.CACHE_TTL_S ttl <? now_get - now_put)%float = false ->
      Cache.get_cached_price ttl now_get true
        (Cache.put_cached_price now_put true f symbol date price) symbol date
      = Some price) /\
  (forall (e1 e2 : Tools.env) (f f1 : Cache.file) (symbol src : string)
          (p : float) (log1 : list Tools.event),
      Tools.get_latest_price e1 f symbol = ((Some p, src), f1, log1) ->
      src <> "cache:today" ->
      Tools.write_ok e1 = true ->
      Tools.read_ok e2 = true ->
      Tools.today e2 = Tools.today e1 ->
      (Cache.CACHE_TTL_S (Tools.ttl_hours e2)
         <? Tools.now e2 - Tools.now e1)%float = false ->
      Tools.get_latest_price e2 f1 symbol
      = ((Some p, "cache:today"), f1,
         [Tools.CacheRead (Tools.map_symbol symbol) (Tools.today e2)])) /\
  (forall (ttl : Z) (now : float) (before after : list Cache.row)
          (r : Cache.row) (symbol date : string),
      Cache.matches (Str.upper symbol) date r = true ->
      (forall r', In r' after ->
                  Cache.matches (Str.upper symbol) date r' = false) ->
      Cache.get_cached_price ttl now true (Some (before ++ r :: after))
                             symbol date
      = if (Cache.CACHE_TTL_S ttl <? now - Cache.r_ts r)%float then None
        else Some (Cache.r_price r)).
Proof.
  split; [exact get_after_put |]. split.
  - intros e1 e2 f f1 symbol src p log1 Hrun Hsrc Hw Hr Hday Httl.
    assert (Hf1 : f1 = Cache.put_cached_price (Tools.now e1) true f
                         (Tools.map_symbol symbol) (Tools.today e1) p).
    { unfold Tools.get_latest_price in Hrun. rewrite Hw in Hrun.
      destruct (Cache.get_cached_price _ _ _ f _ _).
      - injection Hrun as _ <- _ _. congruence.
      - destruct (Tools.configured (Tools.api_key e1)).
        + destruct (Tools.alpha_vantage_price e1 _) as [[q|] src'].
          * injection Hrun as <- _ <- _. reflexivity.
          * destruct (Tools._latest_price_yf e1 _) as [[[q|] src''] l];
              [injection Hrun as <- _ <- _; reflexivity | discriminate].
        + destruct (Tools._latest_price_yf e1 _) as [[[q|] src''] l];
            [injection Hrun as <- _ <- _; reflexivity | discriminate]. }
    unfold Tools.get_latest_price. rewrite Hr, Hday, Hf1.
    rewrite get_after_put by exact Httl.
    reflexivity.
  - intros ttl now before after r symbol date Hm Hafter.
    unfold Cache.get_cached_price. cbn [negb].
    rewrite (last_match_last _ _ _ _ _ Hm Hafter). reflexivity.
Qed.

Lemma cache_round_trip_witness :
  Tools.get_latest_price Sample.env_later
    (snd (fst (Tools.get_latest_price Sample.env_up None "nvda"))) "nvda"
  = ((Some 187.5%float, "cache:today"),
     snd (fst (Tools.get_latest_price Sample.env_up None "nvda")),
     [Tools.CacheRead "NVDA" "2025-01-02"]).
Proof.
  refine (proj1 (proj2 cache_round_trip) Sample.env_up Sample.env_later None
            _ "nvda" "alpha_vantage" 187.5%float
            (snd (Tools.get_latest_price Sample.env_up None "nvda"))
            _ _ _ _ _ _).
  - vm_compute. reflexivity.
  - discriminate.
  - reflexivity.
  - reflexivity.
  - reflexivity.
  - vm_compute. reflexivity.
Defined.

(** ** Price resolution chain *)

(** C2 (amended): [get_latest_price] always returns, and what it does is
    one of five runs, tried in this order, each stopping the chain.
    (1) Today's cache entry is there: it is the answer, tagged
    [cache:today], after the cache read alone.  (2) Otherwise, with a
    credential configured, Alpha Vantage gives a price: it is written back
    and returned.  (3) Otherwise (no credential, or no price from Alpha
    Vantage) yfinance intraday gives a price: written back and returned.
    (4) Otherwise the intraday frame is empty and the last daily close is
    there: written back and returned.  (5) Otherwise the answer is [None]
    with the tag [yfinance:unavailable] (both frames empty) or
    [yfinance:error] (yfinance raised), and the cache is left as it
    was. *)
Theorem get_latest_price_chain (e : Tools.env) (f : Cache.file)
        (symbol : string) :
  let sy := Tools.map_symbol symbol in
  let day := Tools.today e in
  let cached :=
    Cache.get_cached_price (Tools.ttl_hours e) (Tools.now e) (Tools.read_ok e)
                           f sy day in
  let put p :=
    Cache.put_cached_price (Tools.now e) (Tools.write_ok e) f sy day p in
  let primary :=
    if Tools.configured (Tools.api_key e) then [Tools.AlphaVantage sy] else [] in
  let run := Tools.get_latest_price e f symbol in
  (exists c, cached = Some c /\
             run = ((Some c, "cache:today"), f, [Tools.CacheRead sy day]))
  \/
  (cached = None /\
   ((exists p, Tools.configured (Tools.api_key e) = true /\
               Tools.alpha_vantage e sy = Tools.AvPrice p /\
               run = ((Some p, "alpha_vantage"), put p,
                      [Tools.CacheRead sy day; Tools.AlphaVantage sy;
                       Tools.CacheWrite sy day p]))
    \/
    ((Tools.configured (Tools.api_key e) = false \/
      Tools.alpha_vantage e sy = Tools.AvNoPrice \/
      Tools.alpha_vantage e sy = Tools.AvFails) /\
     ((exists p, Tools.yf_intraday e sy = Tools.YfClose p /\
                 run = ((Some p, "yfinance (intraday)"), put p,
                        Tools.CacheRead sy day :: primary ++
                        [Tools.YfIntraday sy; Tools.CacheWrite sy day p]))
      \/
      (exists p, Tools.yf_intraday e sy = Tools.YfEmpty /\
                 Tools.yf_daily e sy = Tools.YfClose p /\
                 run = ((Some p, "yfinance:last_close"), put p,
                        Tools.CacheRead sy day :: primary ++
                        [Tools.YfIntraday sy; Tools.YfDaily sy;
                         Tools.CacheWrite sy day p]))
      \/
      (Tools.yf_intraday e sy = Tools.YfEmpty /\
       Tools.yf_daily e sy = Tools.YfEmpty /\
       run = ((None, "yfinance:unavailable"), f,
              Tools.CacheRead sy day :: primary ++
              [Tools.YfIntraday sy; Tools.YfDaily sy]))
      \/
      (Tools.yf_intraday e sy = Tools.YfEmpty /\
       Tools.yf_daily e sy = Tools.YfRaises /\
       run = ((None, "yfinance:error"), f,
              Tools.CacheRead sy day :: primary ++
              [Tools.YfIntraday sy; Tools.YfDaily sy]))
      \/
      (Tools.yf_intraday e sy = Tools.YfRaises /\
       run = ((None, "yfinance:error"), f,
              Tools.CacheRead sy day :: primary ++ [Tools.YfIntraday sy])))))).
Proof.
  cbn zeta. unfold Tools.get_latest_price.
  destruct (Cache.get_cached_price _ _ _ f _ _) as [c|]; [left; eauto |].
  right. split; [reflexivity |].
  unfold Tools.alpha_vantage_price, Tools._latest_price_yf.
  destruct (Tools.configured (Tools.api_key e));
    [destruct (Tools.alpha_vantage e _) as [| |p] eqn:Hav;
     [| | left; exists p; auto] |];
    (right; split; [auto |]);
    (destruct (Tools.yf_intraday e _) as [| |q];
     [ do 4 right; auto
     | destruct (Tools.yf_daily e _) as [| |q'];
       [ do 3 right; left; auto
       | do 2 right; left; auto
       | right; left; exists q'; auto ]
     | left; exists q; auto ]).
Qed.

(** C2, as stated, fails: when every attempt fails the tag is the one of
    the secondary provider, not [unavailable]. *)
Lemma get_latest_price_all_down :
  fst (fst (Tools.get_latest_price Sample.env_down None "NVDA"))
  = (None, "yfinance:unavailable") /\
  fst (fst (Tools.get_latest_price Sample.env_down None "NVDA"))
  <> (None, "unavailable").
Proof. split; [vm_compute; reflexivity | vm_compute; discriminate]. Qed.

(** ** Allocation parser *)

Section AllocationFacts.
Import Portfolio.

Lemma dict_get_set_eq (k : string) (v : float) (d : dict) :
  dict_get k (dict_set k v d) = v.
Proof.
  induction d as [|[k' v'] d IH]; simpl.
  - assert (E : Str.eqb k k = true) by (apply eqb_true; reflexivity).
    rewrite E. reflexivity.
  - destruct (Str.eqb k k') eqn:E; simpl; rewrite E; [reflexivity | exact IH].
Qed.

Lemma dict_get_set_ne (k k' : string) (v : float) (d : dict) :
  k <> k' -> dict_get k (dict_set k' v d) = dict_get k d.
Proof.
  intros Hne. induction d as [|[k2 v2] d IH]; simpl.
  - apply eqb_false in Hne. rewrite Hne. reflexivity.
  - destruct (Str.eqb k' k2) eqn:E; simpl.
    + apply eqb_true in E. subst k2.
      apply eqb_false in Hne. rewrite Hne. reflexivity.
    + rewrite IH. reflexivity.
Qed.

Lemma keys_dict_set (k : string) (v : float) (d : dict) :
  keys (dict_set k v d) = if bool_decide (k ∈ keys d) then keys d
                          else keys d ++ [k].
Proof.
  induction d as [|[k' v'] d IH].
  - reflexivity.
  - cbn [dict_set]. destruct (Str.eqb k k') eqn:E.
    + apply eqb_true in E. subst k'. cbn [keys map fst].
      rewrite bool_decide_eq_true_2 by apply list_elem_of_here.
      reflexivity.
    + apply eqb_false in E. cbn [keys map fst]. fold (keys d).
      fold (keys (dict_set k v d)). rewrite IH.
      destruct (bool_decide (k ∈ keys d)) eqn:B.
      * apply bool_decide_eq_true in B.
        rewrite bool_decide_eq_true_2 by (apply list_elem_of_further, B).
        reflexivity.
      * apply bool_decide_eq_false in B.
        rewrite bool_decide_eq_false_2; [reflexivity |].
        intros H. apply elem_of_cons in H as [? | ?]; congruence.
Qed.

Lemma NoDup_keys_dict_set (k : string) (v : float) (d : dict) :
  NoDup (keys d) -> NoDup (keys (dict_set k v d)).
Proof.
  intros H. rewrite keys_dict_set. case_bool_decide as B; [exact H |].
  apply NoDup_app. split; [exact H |].
  split; [| apply NoDup_singleton].
  intros x Hx Hk. apply list_elem_of_singleton in Hk. subst. contradiction.
Qed.

(** In a dict the values are what [get] gives for the keys. *)
Lemma values_by_keys (d : dict) :
  NoDup (keys d) -> values d = map (fun k => dict_get k d) (keys d).
Proof.
  induction d as [|[k v] d IH]; intros H; [reflexivity |].
  cbn [keys map fst] in H. apply NoDup_cons in H as [Hk Hd].
  cbn [values keys map fst snd dict_get].
  assert (E : Str.eqb k k = true) by (apply eqb_true; reflexivity).
  rewrite E. f_equal. fold (values d). fold (keys d). rewrite (IH Hd).
  apply map_ext_in. intros k' Hk'.
  assert (E' : Str.eqb k' k = false).
  { apply eqb_false. intros ->. apply Hk, list_elem_of_In, Hk'. }
  rewrite E'. reflexivity.
Qed.

Lemma dict_get_divided (k : string) (t : float) (d : dict) :
  k ∈ keys d ->
  dict_get k (map (fun kv => (fst kv, (snd kv / t)%float)) d)
  = (dict_get k d / t)%float.
Proof.
  induction d as [|[k' v'] d IH]; intros H.
  - apply elem_of_nil in H. contradiction.
  - cbn [map fst snd dict_get]. destruct (Str.eqb k k') eqn:E; [reflexivity |].
    apply IH. cbn [keys map fst] in H.
    apply elem_of_cons in H as [-> | H]; [| exact H].
    apply eqb_false in E. contradiction.
Qed.

Lemma keys_divided (t : float) (d : dict) :
  keys (map (fun kv => (fst kv, (snd kv / t)%float)) d) = keys d.
Proof. unfold keys. rewrite map_map. reflexivity. Qed.

(** The cleaning of the code gives the symbol of the specification. *)
Lemma clean_symbol_spec (sym : string) : clean_symbol sym = spec_symbol sym.
Proof.
  unfold clean_symbol, Str.upper. induction sym as [|c sym IH]; [reflexivity |].
  change (Str.chars (String c sym)) with (c :: Str.chars sym).
  rewrite filter_cons. cbn [spec_symbol].
  destruct (Str.is_alnum c) eqn:E.
  - rewrite decide_True by exact I.
    change (Str.of_chars (c :: ?l)) with (String c (Str.of_chars l)).
    cbn [Str.map_string]. rewrite IH. reflexivity.
  - rewrite decide_False by (intros []). exact IH.
Qed.

Lemma accumulate_keys (pairs : list (string * string)) :
  forall out,
    keys (accumulate pairs out)
    = fold_left (fun seen p =>
                   let k := spec_symbol (snd p) in
                   if Str.eqb k "" || bool_decide (k ∈ seen) then seen
                   else seen ++ [k])
                pairs (keys out).
Proof.
  induction pairs as [|[pct sym] rest IH]; intros out; [reflexivity |].
  cbn [accumulate fold_left snd]. cbn zeta. rewrite clean_symbol_spec.
  destruct (Str.eqb (spec_symbol sym) ""); cbn [orb]; rewrite IH;
    [reflexivity |].
  rewrite keys_dict_set. destruct (bool_decide _); reflexivity.
Qed.

Lemma accumulate_get (k : string) (pairs : list (string * string)) :
  k <> "" ->
  forall out,
    dict_get k (accumulate pairs out)
    = fold_left (fun acc p =>
                   if Str.eqb (spec_symbol (snd p)) k
                   then (acc + pair_weight (fst p))%float else acc)
                pairs (dict_get k out).
Proof.
  intros Hk. induction pairs as [|[pct sym] rest IH]; intros out;
    [reflexivity |].
  cbn [accumulate fold_left fst snd]. cbn zeta. rewrite clean_symbol_spec.
  fold (pair_weight pct).
  destruct (Str.eqb (spec_symbol sym) "") eqn:E.
  - apply eqb_true in E. rewrite E.
    assert (E' : Str.eqb "" k = false) by (apply eqb_false; congruence).
    rewrite E'. apply IH.
  - rewrite IH. destruct (Str.eqb (spec_symbol sym) k) eqn:E'.
    + apply eqb_true in E'. rewrite E', dict_get_set_eq. reflexivity.
    + apply eqb_false in E'.
      rewrite dict_get_set_ne by congruence. reflexivity.
Qed.

Lemma accumulate_NoDup (pairs : list (string * string)) :
  forall out, NoDup (keys out) -> NoDup (keys (accumulate pairs out)).
Proof.
  induction pairs as [|[pct sym] rest IH]; intros out H; [exact H |].
  cbn [accumulate]. destruct (Str.eqb (clean_symbol sym) ""); apply IH;
    [exact H | apply NoDup_keys_dict_set, H].
Qed.

Lemma accumulate_keys_nonempty (pairs : list (string * string)) :
  forall out, "" ∉ keys out -> "" ∉ keys (accumulate pairs out).
Proof.
  induction pairs as [|[pct sym] rest IH]; intros out H; [exact H |].
  cbn [accumulate]. destruct (Str.eqb (clean_symbol sym) "") eqn:E;
    apply IH; [exact H |].
  apply eqb_false in E. rewrite keys_dict_set.
  case_bool_decide; [exact H |].
  intros Hin. apply elem_of_app in Hin as [Hin | Hin]; [contradiction |].
  apply list_elem_of_singleton in Hin. congruence.
Qed.

(** What the loop leaves: the symbols of the specification, each with its
    share. *)
Lemma accumulate_spec (pairs : list (string * string)) :
  let out := accumulate pairs [] in
  keys out = symbols pairs /\
  NoDup (keys out) /\
  ("" ∉ keys out) /\
  values out = map (fun k => share k pairs) (symbols pairs) /\
  forall k, k ∈ keys out -> dict_get k out = share k pairs.
Proof.
  cbn zeta.
  pose proof (accumulate_keys pairs []) as Hkeys.
  pose proof (accumulate_NoDup pairs [] (NoDup_nil_2)) as Hnd.
  pose proof (accumulate_keys_nonempty pairs [] (not_elem_of_nil _)) as Hne.
  assert (Hget : forall k, k ∈ keys (accumulate pairs []) ->
                           dict_get k (accumulate pairs []) = share k pairs).
  { intros k Hk. apply (accumulate_get k pairs); intros ->; contradiction. }
  split; [exact Hkeys |]. split; [exact Hnd |]. split; [exact Hne |].
  split; [| exact Hget].
  rewrite (values_by_keys _ Hnd). change (symbols pairs)
    with (fold_left (fun seen p =>
                       let k := spec_symbol (snd p) in
                       if Str.eqb k "" || bool_decide (k ∈ seen) then seen
                       else seen ++ [k]) pairs (keys [])).
  rewrite <- Hkeys. apply map_ext_in. intros k Hk.
  apply Hget, list_elem_of_In, Hk.
Qed.

End AllocationFacts.

(** C4 (amended): on the text [50% NVDA, 30% TSLA, 20% bonds], cleaned by
    [_alloc_only] (which resolves [bonds] to [BND]) and parsed by
    [parse_percent_alloc], the weights are the floats 0.5, 0.3 and 0.2.
    For every input on which [parse_percent_alloc] returns weights: the
    symbols are those named in the text, each once, in the order they
    first come; the weight of a symbol is the sum of the weights of all
    the pairs that name it, so repeated symbols add up, divided by the
    total of these sums, every sum and quotient being the binary64 one.
    The parser fails exactly when no pair names a symbol or the total is
    zero or less.  Nothing makes the weights sum to exactly 1. *)
Theorem parse_percent_alloc_spec :
  (forall rt,
      Portfolio.parse_percent_alloc rt
        (Jagent._alloc_only "50% NVDA, 30% TSLA, 20% bonds")
      = Some [("NVDA", 0.5%float); ("TSLA", 0.3%float); ("BND", 0.2%float)]) /\
  (forall (rt : Py.runtime) (s : string) (w : Portfolio.dict),
      Portfolio.parse_percent_alloc rt s = Some w ->
      let pairs := Re.findall2 Portfolio.PERCENT_PAIR s in
      Portfolio.keys w = Portfolio.symbols pairs /\
      NoDup (Portfolio.keys w) /\
      (Portfolio.total rt pairs <=? 0)%float = false /\
      (forall k, k ∈ Portfolio.keys w ->
                 Portfolio.dict_get k w
                 = (Portfolio.share k pairs / Portfolio.total rt pairs)%float)) /\
  (forall (rt : Py.runtime) (s : string),
      let pairs := Re.findall2 Portfolio.PERCENT_PAIR s in
      Portfolio.parse_percent_alloc rt s = None <->
      Portfolio.symbols pairs = [] \/
      (Portfolio.total rt pairs <=? 0)%float = true).
Proof.
  split; [intros [pw cd [] lim]; vm_compute; reflexivity |].
  assert (Hparse : forall rt s,
             let pairs := Re.findall2 Portfolio.PERCENT_PAIR s in
             Portfolio.parse_percent_alloc rt s
             = match Portfolio.symbols pairs with
               | [] => None
               | _ =>
                   if (Portfolio.total rt pairs <=? 0)%float then None
                   else Some (map (fun kv =>
                                     (fst kv,
                                      (snd kv / Portfolio.total rt pairs)%float))
                                  (Portfolio.accumulate pairs []))
               end).
  { intros rt s pairs.
    unfold Portfolio.parse_percent_alloc, Portfolio.normalize_allocations,
      Portfolio.total.
    cbn zeta. fold pairs.
    destruct (accumulate_spec pairs) as (Hk & _ & _ & Hv & _).
    rewrite <- Hv, <- Hk.
    destruct (Portfolio.accumulate pairs []) as [|kv out]; reflexivity. }
  split.
  - intros rt s w H pairs. rewrite Hparse in H. fold pairs in H.
    destruct (accumulate_spec pairs) as (Hk & Hnd & _ & _ & Hget).
    destruct (Portfolio.symbols pairs) as [|k0 ks] eqn:Hs; [discriminate |].
    destruct (Portfolio.total rt pairs <=? 0)%float eqn:Ht; [discriminate |].
    injection H as <-. rewrite keys_divided.
    split; [exact Hk |]. split; [exact Hnd |]. split; [reflexivity |].
    intros k Hin. rewrite dict_get_divided by exact Hin.
    rewrite (Hget k Hin). reflexivity.
  - intros rt s pairs. rewrite Hparse. fold pairs.
    destruct (Portfolio.symbols pairs) as [|k0 ks].
    + split; [auto | reflexivity].
    + destruct (Portfolio.total rt pairs <=? 0)%float.
      * split; [auto | reflexivity].
      * split; [discriminate | intros [H | H]; discriminate H].
Qed.

Lemma parse_percent_alloc_spec_witness :
  exists w,
    Portfolio.parse_percent_alloc Sample.py312 "60% AAPL, 20% bnd and 20% aapl"
    = Some w /\
    Portfolio.keys w = ["AAPL"; "BND"].
Proof.
  eexists. split.
  - vm_compute. reflexivity.
  - refine (proj1 (proj1 (proj2 parse_percent_alloc_spec) Sample.py312
                     "60% AAPL, 20% bnd and 20% aapl" _ _)).
    vm_compute. reflexivity.
Defined.

(** C4, as stated, fails: the weights of [1% A, 1% B, 8% C] do not sum
    to 1.0, whichever way [sum] adds them; and a percentage too long for
    a float makes the weight not a number. *)
Lemma weights_need_not_sum_to_one :
  let w := [("A", 0x1.9999999999999p-4%float);
            ("B", 0x1.9999999999999p-4%float);
            ("C", 0x1.9999999999999p-1%float)] in
  Portfolio.parse_percent_alloc Sample.py311 "1% A, 1% B, 8% C" = Some w /\
  Portfolio.parse_percent_alloc Sample.py312 "1% A, 1% B, 8% C" = Some w /\
  (Py.sum_floats Sample.py311 (Portfolio.values w) =? 1)%float = false /\
  (Py.sum_floats Sample.py312 (Portfolio.values w) =? 1)%float = false /\
  (Portfolio.dict_get "A" w + Portfolio.dict_get "B" w
   + Portfolio.dict_get "C" w <? 1)%float = true /\
  (exists x,
      Portfolio.parse_percent_alloc Sample.py311 Sample.huge_percent
      = Some [("A", x)] /\ PrimFloat.is_nan x = true).
Proof.
  cbn zeta. repeat split; try (vm_compute; reflexivity).
  eexists. split; vm_compute; reflexivity.
Qed.

(** [parse_percent_alloc] by itself keeps the word [bonds]: the alias is
    resolved by [_alloc_only] on the way from the command line. *)
Example parse_percent_alloc_duplicates :
  Portfolio.parse_percent_alloc Sample.py311 "50% bonds, 25% BND, 25% bonds"
  = Some [("BONDS", 0.75%float); ("BND", 0.25%float)].
Proof. vm_compute. reflexivity. Qed.

(** ** Compliance on the way in *)

Section PipelineFacts.
Context {W : Type}.
Variable tools : Jagent.tool_call -> W -> Py.outcome Py.value * W.
Variable exec : @Agent.executor W.

(** [AgentWithMemory.invoke] refuses a message with a banned phrase before
    the executor (the language model and its tools) is called: the agent
    and the world are as before. *)
Lemma invoke_blocks_banned (user_msg : string) (a : Agent.agent) (w : W) :
  Compliance.has_banned user_msg = true ->
  Agent.invoke exec user_msg a w = (Compliance.REFUSAL, a, w).
Proof.
  intros H. unfold Agent.invoke, Compliance.guard_and_disclaim.
  rewrite H. reflexivity.
Qed.

(** A free-form line with a banned phrase goes to the agent, which refuses
    it: no handler and no executor call. *)
Lemma freeform_banned_is_refused (strict : bool) (st : Jagent.session)
      (a : Agent.agent) (w : W) :
  Jagent.turn tools exec strict st "tell me about spoofing" (a, w)
  = (Some Compliance.REFUSAL, (a, w),
     [Failsafe.EvChat "tell me about spoofing"]).
Proof.
  unfold Jagent.turn.
  replace (Jagent.route st "tell me about spoofing")
    with (Jagent.Failsafe "tell me about spoofing" [])
    by (vm_compute; reflexivity).
  cbn [map]. unfold Failsafe.run_with_failsafe. cbn [Failsafe.run_from].
  unfold Agent.run_and_comply, Jagent.agent_chat.
  rewrite invoke_blocks_banned by (vm_compute; reflexivity).
  reflexivity.
Qed.

(** C7 fails on the command routes: the line below contains the banned
    phrase [surefire], yet the router hands it to the sentiment tool, the
    failsafe executor calls that handler on it, and when the tool's text
    passes the quality gate it is the answer: no refusal, and the
    compliance guard is never consulted. *)
Theorem banned_input_reaches_tool (strict : bool) (st : Jagent.session)
        (a : Agent.agent) (w : W) :
  let line := "sentiment this is a surefire win" in
  let call := Jagent.Sentiment "this is a surefire win" in
  Compliance.has_banned line = true /\
  Jagent.route st line = Jagent.Failsafe line [call] /\
  (exists rest,
      snd (Jagent.turn tools exec strict st line (a, w))
      = Failsafe.EvHandler 0 (fst (tools call w)) :: rest) /\
  (forall text,
      fst (tools call w) = Py.Returns (Py.VStr text) ->
      Failsafe._looks_broken strict text = false ->
      Jagent.turn tools exec strict st line (a, w)
      = (Some text, (a, snd (tools call w)),
         [Failsafe.EvHandler 0 (Py.Returns (Py.VStr text))])).
Proof.
  cbn zeta.
  assert (Hroute : Jagent.route st "sentiment this is a surefire win"
                   = Jagent.Failsafe "sentiment this is a surefire win"
                       [Jagent.Sentiment "this is a surefire win"])
    by (vm_compute; reflexivity).
  split; [vm_compute; reflexivity |]. split; [exact Hroute |].
  unfold Jagent.turn. rewrite Hroute. cbn [map].
  unfold Failsafe.run_with_failsafe. cbn [Failsafe.run_from].
  unfold Jagent.handler_of.
  destruct (tools (Jagent.Sentiment "this is a surefire win") w)
    as [o w1] eqn:Ht.
  cbn [fst snd]. split.
  - destruct o as [|v].
    + destruct (Agent.run_and_comply _ _ _) as [t wd].
      cbn [snd app]. eauto.
    + destruct (Failsafe._looks_broken strict (Py.to_str v)).
      * destruct (Agent.run_and_comply _ _ _) as [t wd].
        cbn [snd app]. eauto.
      * cbn [snd app]. eauto.
  - intros text -> Hok. cbv iota beta. cbn [Py.to_str]. rewrite Hok.
    reflexivity.
Qed.

End PipelineFacts.

Lemma banned_input_reaches_tool_witness :
  Jagent.turn
    (fun _ (w : unit) => (Py.Returns (Py.VStr "Sentiment: positive (simple fallback)."), w))
    (fun _ _ (w : unit) => (Py.Raises, w))
    true (Jagent.Session "moderate" [])
    "sentiment this is a surefire win" (Agent.MkAgent [] [], tt)
  = (Some "Sentiment: positive (simple fallback).", (Agent.MkAgent [] [], tt),
     [Failsafe.EvHandler 0
        (Py.Returns (Py.VStr "Sentiment: positive (simple fallback)."))]).
Proof.
  refine (proj2 (proj2 (proj2
            (banned_input_reaches_tool _ _ true (Jagent.Session "moderate" [])
               (Agent.MkAgent [] []) tt)))
            "Sentiment: positive (simple fallback)." _ _).
  - reflexivity.
  - vm_compute. reflexivity.
Defined.

(** ** The repository's own examples *)

(** [tests/test_fraud.py] *)
Example test_flags :
  exists d,
    Fraud.simple_fraud_check Sample.py311 Sample.tx_test (Some ∅) None None
    = Py.Returns (true, d) /\
    In "large-amount" (Fraud.flags d) /\ In "odd-hour" (Fraud.flags d).
Proof. eexists. split; [vm_compute; reflexivity | simpl; tauto]. Qed.

(** [tests/test_parsers.py]: the price pattern catches natural language. *)
Example test_price_regex_catches_natural_language :
  Re.search Jagent.PRICE_TICKER_REGEX "what's NVDA's price?" = true /\
  Jagent.route (Jagent.Session "moderate" []) "what's NVDA's price?"
  = Jagent.Failsafe "what's NVDA's price?" [Jagent.StockQuery "NVDA"].
Proof. split; vm_compute; reflexivity. Qed.

(** The examples of the help text. *)
Example route_analyze_portfolio :
  Jagent.route (Jagent.Session "moderate" [])
               "analyze portfolio 50% NVDA, 30% TSLA, 20% bonds"
  = Jagent.Failsafe "analyze portfolio 50% NVDA, 30% TSLA, 20% bonds"
      [Jagent.PortfolioAnalysis "50% NVDA, 30% TSLA, 20% BND" "moderate"].
Proof. vm_compute. reflexivity. Qed.

Example route_risk_statement :
  Jagent.route (Jagent.Session "moderate" []) "I'm very conservative"
  = Jagent.SetRiskInferred "conservative".
Proof. vm_compute. reflexivity. Qed.

Example route_price :
  Jagent.route (Jagent.Session "moderate" []) "price BRK.B"
  = Jagent.Failsafe "price BRK.B" [Jagent.StockQuery "BRK.B"].
Proof. vm_compute. reflexivity. Qed.

Example route_freeform :
  Jagent.route (Jagent.Session "moderate" []) "just tip me some dark edges"
  = Jagent.Failsafe "just tip me some dark edges" [].
Proof. vm_compute. reflexivity. Qed.

(** A provider price is written back and served from the cache on the
    next lookup. *)
Example price_then_cache :
  Tools.get_latest_price Sample.env_up None "nvda"
  = ((Some 187.5%float, "alpha_vantage"),
     Some [Cache.Row "NVDA" "2025-01-02" 187.5 1735800000],
     [Tools.CacheRead "NVDA" "2025-01-02"; Tools.AlphaVantage "NVDA";
      Tools.CacheWrite "NVDA" "2025-01-02" 187.5]).
Proof. vm_compute. reflexivity. Qed.

(* ===================================================================== *)
(** * Further properties of the code *)
(* ===================================================================== *)

(** ** The compliance guard on the way out *)

Lemma lower_app (a b : string) :
  Str.lower (a +:+ b) = Str.lower a +:+ Str.lower b.
Proof.
  unfold Str.lower. induction a as [|c a IH]; simpl; [reflexivity |].
  rewrite IH. reflexivity.
Qed.

Lemma lower_upper_char (c : ascii) :
  Str.lower_char (Str.upper_char c) = Str.lower_char c.
Proof.
  destruct c as [[] [] [] [] [] [] [] []]; vm_compute; reflexivity.
Qed.

Lemma lower_upper (s : string) : Str.lower (Str.upper s) = Str.lower s.
Proof.
  unfold Str.lower, Str.upper. induction s as [|c s IH]; simpl;
    [reflexivity |].
  rewrite lower_upper_char, IH. reflexivity.
Qed.

Lemma lower_char_idem (c : ascii) :
  Str.lower_char (Str.lower_char c) = Str.lower_char c.
Proof.
  destruct c as [[] [] [] [] [] [] [] []]; vm_compute; reflexivity.
Qed.

Lemma lower_idem (s : string) : Str.lower (Str.lower s) = Str.lower s.
Proof.
  unfold Str.lower. induction s as [|c s IH]; simpl; [reflexivity |].
  rewrite lower_char_idem, IH. reflexivity.
Qed.

(** A phrase without the character [c] that occurs in [a], [c], [b] put
    together occurs in [a] or in [b]. *)
Lemma occurs_in_separated (p a b : string) (c : ascii) :
  ~ In c (Str.chars p) ->
  Str.occurs_in p (a +:+ String c b) ->
  Str.occurs_in p a \/ Str.occurs_in p b.
Proof.
  intros Hc (pre & post & H).
  apply (f_equal Str.chars) in H. rewrite !chars_app in H.
  change (Str.chars (String c b)) with (c :: Str.chars b) in H.
  assert (Hsub : forall x : string,
             (exists u v, Str.chars x = u ++ Str.chars p ++ v) ->
             Str.occurs_in p x).
  { intros x (u & v & E). exists (Str.of_chars u), (Str.of_chars v).
    apply chars_inj. rewrite !chars_app, !chars_of_chars. exact E. }
  apply app_eq_inv in H as [(k & Ha & Hk) | (k & Hpre & Hk)].
  - (* the phrase starts inside [a] *)
    apply app_eq_inv in Hk as [(k' & Hp & Hk') | (k' & Hk' & Hpost)].
    + destruct k' as [|c' k'].
      * left. apply (Hsub a). exists (Str.chars pre), [].
        rewrite Ha, Hp, !app_nil_r. reflexivity.
      * exfalso. injection Hk' as <- _. apply Hc. rewrite Hp.
        apply in_or_app. right. left. reflexivity.
    + left. apply (Hsub a). exists (Str.chars pre), k'.
      rewrite Ha, Hk'. reflexivity.
  - (* the phrase starts at or after [c] *)
    destruct k as [|c' k].
    + simpl in Hk. destruct (Str.chars p) as [|c' p'] eqn:Hp.
      * right. apply (Hsub b). exists [], (Str.chars b). reflexivity.
      * exfalso. injection Hk as <- _. apply Hc. left. reflexivity.
    + injection Hk as _ Hb. right. apply (Hsub b).
      exists k, (Str.chars post). exact Hb.
Qed.

Lemma has_banned_false (text : string) :
  Compliance.has_banned text = false <->
  forall p, In p Compliance.BANNED_PHRASES ->
            ~ Str.occurs_in p (Str.lower text).
Proof.
  split.
  - intros H p Hin Hocc.
    assert (Ht : Compliance.has_banned text = true)
      by (apply has_banned_spec; eauto).
    congruence.
  - intros H. destruct (Compliance.has_banned text) eqn:E; [| reflexivity].
    apply has_banned_spec in E as (p & Hin & Hocc).
    exfalso. exact (H p Hin Hocc).
Qed.

(** The text that [guard_and_disclaim] returns carries no banned phrase:
    the refusal has none, and the disclaimer neither has one nor completes
    one across the blank line that separates it from the text. *)
Lemma guard_text_allowed (text : string) (banned_only : bool) :
  Compliance.has_banned
    (snd (Compliance.guard_and_disclaim text banned_only)) = false.
Proof.
  unfold Compliance.guard_and_disclaim.
  destruct (Compliance.has_banned text) eqn:Hb; [vm_compute; reflexivity |].
  destruct banned_only; [exact Hb |]. cbn [snd].
  apply has_banned_false. intros p Hin Hocc.
  rewrite has_banned_false in Hb. apply (Hb p Hin).
  rewrite lower_app in Hocc.
  match type of Hocc with
  | context [Str.lower (Compliance.NEWLINE +:+ ?x)] =>
      change (Str.lower (Compliance.NEWLINE +:+ x))
        with (String (ascii_of_nat 10) (Str.lower x)) in Hocc
  end.
  apply occurs_in_separated in Hocc as [Hocc | Hocc]; [exact Hocc | |].
  - exfalso. apply contains_occurs in Hocc. revert Hocc.
    simpl in Hin.
    repeat (destruct Hin as [<- | Hin]; [vm_compute; discriminate |]).
    contradiction.
  - simpl in Hin.
    repeat (destruct Hin as [<- | Hin];
            [vm_compute; intuition discriminate |]).
    contradiction.
Qed.

(** Whatever the text and the flag, the text that [guard_and_disclaim]
    returns carries no banned phrase, so a text that went through the
    guard is never refused by the guard again. *)
Theorem guard_output_is_allowed (text : string) (banned_only b2 : bool) :
  Compliance.has_banned
    (snd (Compliance.guard_and_disclaim text banned_only)) = false /\
  fst (Compliance.guard_and_disclaim
         (snd (Compliance.guard_and_disclaim text banned_only)) b2) = true.
Proof.
  pose proof (guard_text_allowed text banned_only) as Hout.
  split; [exact Hout |].
  unfold Compliance.guard_and_disclaim at 1. rewrite Hout.
  destruct b2; reflexivity.
Qed.

Section InvokeFacts.
Context {W : Type}.
Variable exec : @Agent.executor W.

(** What [invoke] does with a message that passes the input guard. *)
Lemma invoke_allowed_input (user_msg : string) (a : Agent.agent) (w : W) :
  Compliance.has_banned user_msg = false ->
  let r := exec user_msg (Agent.mem a) w in
  let ai := match fst r with
            | Py.Raises => Agent.SORRY_INVOKE
            | Py.Returns res =>
                default (Agent.er_repr res) (Agent.er_output res)
            end in
  Agent.invoke exec user_msg a w
  = (snd (Compliance.guard_and_disclaim ai false),
     {| Agent.mem := Agent.mem a ++ [(user_msg, ai)];
        Agent.exec_calls := Agent.exec_calls a ++ [user_msg] |},
     snd r).
Proof.
  intros Hb. cbn zeta.
  unfold Agent.invoke. unfold Compliance.guard_and_disclaim at 1.
  rewrite Hb. cbn [negb].
  destruct (exec user_msg (Agent.mem a) w) as [r w1]. cbn [fst snd].
  destruct (Compliance.guard_and_disclaim _ false); reflexivity.
Qed.

Lemma invoke_output_allowed (user_msg : string) (a : Agent.agent) (w : W) :
  Compliance.has_banned (fst (fst (Agent.invoke exec user_msg a w))) = false.
Proof.
  destruct (Compliance.has_banned user_msg) eqn:Hb.
  - rewrite (invoke_blocks_banned exec user_msg a w Hb). vm_compute.
    reflexivity.
  - rewrite (invoke_allowed_input user_msg a w Hb). cbn [fst].
    apply guard_text_allowed.
Qed.

(** [AgentWithMemory.invoke] never returns a text with a banned phrase,
    whatever the message and whatever the executor answers or raises.  On
    a message with a banned phrase the executor is not called and nothing
    is saved.  Otherwise the executor is called once, with the message and
    the turns saved so far; the answer is the ["output"] entry of what it
    returned (the [str()] of the result when there is none, the apology
    when it raised); exactly that turn is saved, with the answer as it
    came, and the text returned is what [guard_and_disclaim] makes of that
    answer. *)
Theorem invoke_is_safe (user_msg : string) (a : Agent.agent) (w : W) :
  let r := Agent.invoke exec user_msg a w in
  let out := fst (fst r) in
  let a' := snd (fst r) in
  let ai_msg :=
    match fst (exec user_msg (Agent.mem a) w) with
    | Py.Returns res => default (Agent.er_repr res) (Agent.er_output res)
    | Py.Raises =>
        "Sorry — something went wrong while processing that. Try rephrasing or a simpler request."
    end in
  Compliance.has_banned out = false /\
  (Compliance.has_banned user_msg = true ->
   out = Compliance.REFUSAL /\ a' = a /\ snd r = w) /\
  (Compliance.has_banned user_msg = false ->
   Agent.exec_calls a' = Agent.exec_calls a ++ [user_msg] /\
   snd r = snd (exec user_msg (Agent.mem a) w) /\
   Agent.mem a' = Agent.mem a ++ [(user_msg, ai_msg)] /\
   out = snd (Compliance.guard_and_disclaim ai_msg false)).
Proof.
  cbn zeta. split; [apply invoke_output_allowed |].
  split; intros Hb.
  - rewrite (invoke_blocks_banned exec user_msg a w Hb). cbn [fst snd]. auto.
  - rewrite (invoke_allowed_input user_msg a w Hb).
    cbn [fst snd Agent.exec_calls Agent.mem].
    destruct (fst (exec user_msg (Agent.mem a) w)); repeat split; reflexivity.
Qed.

End InvokeFacts.

Lemma invoke_is_safe_witness :
  Agent.mem
    (snd (fst (Agent.invoke
                 (fun _ _ (w : unit) =>
                    (Py.Returns (Agent.ExecResult (Some "try spoofing") "{}"), w))
                 "how do markets work" (Agent.MkAgent [] []) tt)))
  = [("how do markets work", "try spoofing")].
Proof.
  refine (proj1 (proj2 (proj2 (proj2 (proj2 (invoke_is_safe
            (fun _ _ (w : unit) =>
               (Py.Returns (Agent.ExecResult (Some "try spoofing") "{}"), w))
            "how do markets work" (Agent.MkAgent [] []) tt)) _)))).
  vm_compute. reflexivity.
Defined.

(** ** The quality gate *)

(** The quality gate reads the text in lower case only: two outputs that
    differ in letter case alone get the same verdict. *)
Theorem looks_broken_ignores_case (strict : bool) (s1 s2 : string) :
  Str.lower s1 = Str.lower s2 ->
  Failsafe._looks_broken strict s1 = Failsafe._looks_broken strict s2.
Proof.
  intros H. unfold Failsafe._looks_broken. rewrite H.
  assert (E : Str.eqb s1 "" = Str.eqb s2 "").
  { destruct s1, s2; try discriminate H; reflexivity. }
  rewrite E. reflexivity.
Qed.

Lemma looks_broken_ignores_case_witness :
  Failsafe._looks_broken true "REQUEST TIMED OUT"
  = Failsafe._looks_broken true (Str.upper "request Timed out").
Proof.
  apply (looks_broken_ignores_case true "REQUEST TIMED OUT"
                                   (Str.upper "request Timed out")).
  reflexivity.
Defined.

(** ** Routes whose answer goes through the compliance guard *)

Section GuardedRoutes.
Context {W : Type}.
Variable tools : Jagent.tool_call -> W -> Py.outcome Py.value * W.
Variable exec : @Agent.executor W.

Lemma agent_chat_answer_allowed (question : string) (wd : @Jagent.world W) :
  Compliance.has_banned
    (fst (Agent.run_and_comply (Jagent.agent_chat exec) question wd)) = false.
Proof.
  destruct wd as [a w]. unfold Agent.run_and_comply, Jagent.agent_chat.
  pose proof (invoke_output_allowed exec question a w) as H.
  destruct (Agent.invoke exec question a w) as [[out a'] w'].
  exact H.
Qed.

(** On the free-form route and on the fraud route the text printed never
    carries a banned phrase: the fraud handler passes the tool's text
    through [guard_and_disclaim], and the fallback is the agent, whose
    answer went through it too. *)
Theorem guarded_routes_are_safe (strict : bool) (st : Jagent.session)
        (line question : string) (handlers : list Jagent.tool_call)
        (wd : @Jagent.world W) :
  Jagent.route st line = Jagent.Failsafe question handlers ->
  (handlers = [] \/ exists js known, handlers = [Jagent.FraudCheck js known]) ->
  exists out,
    fst (fst (Jagent.turn tools exec strict st line wd)) = Some out /\
    Compliance.has_banned out = false.
Proof.
  intros Hroute Hh. unfold Jagent.turn. rewrite Hroute.
  unfold Failsafe.run_with_failsafe.
  destruct Hh as [-> | (js & known & ->)]; cbn [map Failsafe.run_from].
  - pose proof (agent_chat_answer_allowed question wd) as H.
    destruct (Agent.run_and_comply (Jagent.agent_chat exec) question wd)
      as [text wd'].
    cbn [fst] in *. eauto.
  - destruct wd as [a w]. unfold Jagent.handler_of.
    destruct (tools (Jagent.FraudCheck js known) w) as [[|v] w1].
    + pose proof (agent_chat_answer_allowed question (a, w1)) as H.
      destruct (Agent.run_and_comply (Jagent.agent_chat exec) question (a, w1))
        as [text wd'].
      cbn [fst] in *. eauto.
    + cbn [Py.to_str].
      destruct (Failsafe._looks_broken strict _).
      * pose proof (agent_chat_answer_allowed question (a, w1)) as H.
        destruct (Agent.run_and_comply (Jagent.agent_chat exec) question (a, w1))
          as [text wd'].
        cbn [fst] in *. eauto.
      * cbn [fst]. eexists. split; [reflexivity |].
        apply guard_text_allowed.
Qed.

End GuardedRoutes.

Lemma guarded_routes_are_safe_witness :
  exists out,
    fst (fst (Jagent.turn
                (fun _ (w : unit) => (Py.Returns (Py.VStr "Suspicious: True."), w))
                (fun _ _ (w : unit) => (Py.Raises, w))
                true (Jagent.Session "moderate" [])
                "fraud {amount: 9000}" (Agent.MkAgent [] [], tt)))
    = Some out /\
    Compliance.has_banned out = false.
Proof.
  refine (guarded_routes_are_safe _ _ true (Jagent.Session "moderate" [])
            "fraud {amount: 9000}" "fraud {amount: 9000}"
            [Jagent.FraudCheck "{amount: 9000}" []] (Agent.MkAgent [] [], tt)
            _ _).
  - vm_compute. reflexivity.
  - right. eauto.
Defined.

(** ** The other rules of the fraud screener *)

(** The shape of what [simple_fraud_check] returns. *)
Lemma simple_fraud_check_returns (rt : Py.runtime) (tx : Fraud.transaction)
      (known : option (gset string)) (pol : option Fraud.policy)
      (hist : option (gmap string (list float))) (s : bool)
      (d : Fraud.details) :
  Fraud.simple_fraud_check rt tx known pol hist = Py.Returns (s, d) ->
  exists c_unknown c_anomaly : bool,
    Fraud.flags d
    = (if bool_decide (Fraud._parse_hour rt tx ∈
                         default [0; 1; 2; 3; 4]%Z (pol ≫= Fraud.odd_hours))
       then ["odd-hour"] else [])
      ++ (if c_unknown then ["unknown-counterparty"] else [])
      ++ (if (default 5000%float (pol ≫= Fraud.large_amount_threshold)
              <=? Fraud.amount_of tx)%float
          then ["large-amount"] else [])
      ++ (if c_anomaly then ["amount-anomaly"] else []) /\
    s = negb (bool_decide (Fraud.flags d = [])) /\
    Fraud.amount d = Fraud.amount_of tx /\
    Fraud.hour d = Fraud._parse_hour rt tx /\
    Fraud.counterparty d = Fraud.counterparty_of tx.
Proof.
  unfold Fraud.simple_fraud_check.
  destruct (if Fraud.truthy_map hist && negb (Str.eqb (Fraud.counterparty_of tx) "")
            then Fraud.zscore_flag rt (Fraud.amount_of tx)
                   (Fraud.history_of hist (Fraud.counterparty_of tx))
            else Py.Returns false) as [|a]; [discriminate |].
  intros [= <- <-]. cbn [Fraud.flags Fraud.amount Fraud.hour Fraud.counterparty].
  exists (match known with
          | Some K =>
              negb (Str.eqb (Fraud.counterparty_of tx) "")
              && negb (bool_decide (Fraud.counterparty_of tx ∈ K))
          | None => false
          end), a.
  split; [| auto].
  unfold Fraud.append_if.
  repeat match goal with
         | |- context [if ?c then _ else _] => destruct c
         end; reflexivity.
Qed.

(** On every call of the screener that returns: the odd-hour flag fires
    exactly when the parsed hour is in the policy's odd hours (0 to 4
    without a policy), the large-amount flag exactly when the amount is at
    least the threshold (5000 without a policy); the verdict is suspicious
    exactly when some flag fired; the flags come in the fixed order
    odd-hour, unknown-counterparty, large-amount, amount-anomaly, each at
    most once. *)
Theorem fraud_verdict_shape (rt : Py.runtime) (tx : Fraud.transaction)
        (known : option (gset string)) (pol : option Fraud.policy)
        (hist : option (gmap string (list float))) (s : bool)
        (d : Fraud.details) :
  Fraud.simple_fraud_check rt tx known pol hist = Py.Returns (s, d) ->
  (In "odd-hour" (Fraud.flags d) <->
   In (Fraud._parse_hour rt tx)
      (default [0; 1; 2; 3; 4]%Z (pol ≫= Fraud.odd_hours))) /\
  (In "large-amount" (Fraud.flags d) <->
   (default 5000%float (pol ≫= Fraud.large_amount_threshold)
    <=? Fraud.amount_of tx)%float = true) /\
  (s = true <-> exists flag, In flag (Fraud.flags d)) /\
  sublist (Fraud.flags d)
          ["odd-hour"; "unknown-counterparty"; "large-amount"; "amount-anomaly"].
Proof.
  intros H.
  apply simple_fraud_check_returns in H as (cu & ca & Hfl & Hs & _).
  set (odd := default [0; 1; 2; 3; 4]%Z (pol ≫= Fraud.odd_hours)) in *.
  split; [rewrite Hfl | split; [rewrite Hfl | split; [| rewrite Hfl]]].
  - destruct (bool_decide (Fraud._parse_hour rt tx ∈ odd)) eqn:Hh;
      [apply bool_decide_eq_true in Hh | apply bool_decide_eq_false in Hh];
      rewrite list_elem_of_In in Hh;
      destruct cu, ca; destruct (_ <=? _)%float; simpl;
      intuition (try discriminate).
  - destruct (bool_decide (Fraud._parse_hour rt tx ∈ odd));
      destruct cu, ca; destruct (_ <=? _)%float; simpl;
      intuition (try discriminate).
  - subst s. rewrite negb_true_iff, bool_decide_eq_false.
    destruct (Fraud.flags d) as [|f fl].
    + split; [congruence | intros [flag []]].
    + split; [intros _; exists f; left; reflexivity | discriminate].
  - destruct (bool_decide (Fraud._parse_hour rt tx ∈ odd));
      destruct cu, ca; destruct (_ <=? _)%float; cbn [app];
      repeat first [ apply sublist_nil | apply sublist_skip
                   | apply sublist_cons ].
Qed.

Lemma fraud_verdict_shape_witness :
  In "large-amount" ["odd-hour"; "unknown-counterparty"; "large-amount"].
Proof.
  refine (proj2 (proj1 (proj2 (fraud_verdict_shape Sample.py311
            Sample.tx_test (Some ∅) None None true
            {| Fraud.flags := ["odd-hour"; "unknown-counterparty"; "large-amount"];
               Fraud.amount := 6000; Fraud.hour := 0;
               Fraud.counterparty := "X" |} _))) _).
  - vm_compute. reflexivity.
  - vm_compute. reflexivity.
Defined.

(** Through [tool_fraud_check], which passes what [json.loads] gave
    with no history and the known set defaulting to the empty set, the
    screener raises exactly when the JSON is no dict, or its amount is
    something [float()] rejects, or its counterparty is a true value that
    is no text; nothing in the tool catches that.  When it returns, the
    amount-anomaly flag has not fired, and the unknown-counterparty flag
    has fired exactly for a stripped counterparty that is not empty and
    not in the set. *)
Theorem tool_fraud_check_rules (rt : Py.runtime) (p : Fraud.parsed)
        (known : option (gset string)) (pol : option Fraud.policy) :
  (Fraud.tool_fraud_check_core rt p known pol = Py.Raises <->
   match p with
   | Fraud.NotDict => True
   | Fraud.Dict amt cp _ _ _ =>
       amt = Fraud.AmountBad \/ cp = Fraud.CounterpartyBad
   end) /\
  (forall s d,
      Fraud.tool_fraud_check_core rt p known pol = Py.Returns (s, d) ->
      ~ In "amount-anomaly" (Fraud.flags d) /\
      (In "unknown-counterparty" (Fraud.flags d) <->
       Fraud.counterparty d <> "" /\
       Fraud.counterparty d ∉ default ∅ known) /\
      exists text,
        Fraud.counterparty d = Str.strip text /\
        match p with
        | Fraud.Dict _ (Fraud.CounterpartyStr t) _ _ _ => text = t
        | _ => text = ""
        end).
Proof.
  assert (Hret : forall tx s d,
             Fraud.simple_fraud_check rt tx (Some (default ∅ known)) pol None
             = Py.Returns (s, d) ->
             ~ In "amount-anomaly" (Fraud.flags d) /\
             (In "unknown-counterparty" (Fraud.flags d) <->
              Fraud.counterparty d <> "" /\
              Fraud.counterparty d ∉ default ∅ known) /\
             Fraud.counterparty d = Str.strip (default "" (Fraud.tx_counterparty tx))).
  { intros tx s d H. unfold Fraud.simple_fraud_check in H.
    cbn [Fraud.truthy_map andb] in H. injection H as _ <-.
    cbn [Fraud.flags Fraud.counterparty]. rewrite !In_append_if. cbn [In].
    split; [| split; [| reflexivity]].
    - intros [[[[] | [_ [=]]] | [_ [=]]] | [_ [=]]].
    - split.
      + intros [[[[] | [_ [=]]] | [Hc _]] | [_ [=]]].
        apply andb_true_iff in Hc as [Hne Hnotin].
        apply negb_true_iff in Hne, Hnotin.
        apply eqb_false in Hne. apply bool_decide_eq_false in Hnotin. auto.
      + intros [Hne Hnotin]. left. right. split; [| reflexivity].
        apply andb_true_iff. split; apply negb_true_iff.
        * apply eqb_false, Hne.
        * apply bool_decide_eq_false, Hnotin. }
  assert (Hno : forall tx,
             Fraud.simple_fraud_check rt tx (Some (default ∅ known)) pol None
             <> Py.Raises).
  { intros tx. unfold Fraud.simple_fraud_check.
    cbn [Fraud.truthy_map andb]. discriminate. }
  split.
  - destruct p as [|[| a |] [| t |] h tm ts]; cbn [Fraud.tool_fraud_check_core];
      try (split; [auto; fail | reflexivity]);
      try (split; [intros H; exfalso; exact (Hno _ H)
                  | intros [H | H]; discriminate H]).
  - intros s d H.
    destruct p as [|[| a |] [| t |] h tm ts]; cbn [Fraud.tool_fraud_check_core] in H;
      try discriminate H;
      destruct (Hret _ _ _ H) as (Ha & Hu & Hc);
      (split; [exact Ha |]); (split; [exact Hu |]);
      eexists; (split; [exact Hc | reflexivity]).
Qed.

Lemma tool_fraud_check_rules_witness :
  Fraud.tool_fraud_check_core Sample.py311
    (Fraud.Dict Fraud.AmountBad Fraud.CounterpartyFalsy None None None)
    None None
  = Py.Raises.
Proof.
  apply (proj1 (tool_fraud_check_rules Sample.py311
                  (Fraud.Dict Fraud.AmountBad Fraud.CounterpartyFalsy None
                              None None) None None)).
  left. reflexivity.
Defined.

(** ** Reading the hour of a transaction *)

Lemma digit_not_space (c : ascii) :
  Str.is_digit c = true -> Str.is_space c = false.
Proof.
  destruct c as [[] [] [] [] [] [] [] []]; vm_compute; congruence.
Qed.

Lemma digit_not_sign (c : ascii) :
  Str.is_digit c = true ->
  c <> "-"%char /\ c <> "+"%char /\ c <> ":"%char /\ c <> "_"%char.
Proof.
  destruct c as [[] [] [] [] [] [] [] []]; vm_compute; intros H;
    repeat split; congruence.
Qed.

Lemma lstrip_by_head (p : ascii -> bool) (c : ascii) (s : string) :
  p c = false -> Str.lstrip_by p (String c s) = String c s.
Proof. intros H. simpl. rewrite H. reflexivity. Qed.

Lemma rstrip_by_none (p : ascii -> bool) (s : string) :
  Forall (fun c => p c = false) (Str.chars s) -> Str.rstrip_by p s = s.
Proof.
  induction s as [|c s IH]; intros H; [reflexivity |].
  change (Str.chars (String c s)) with (c :: Str.chars s) in H.
  apply Forall_cons in H as [Hc Hs]. cbn [Str.rstrip_by].
  rewrite (IH Hs). destruct s; [rewrite Hc |]; reflexivity.
Qed.

Lemma strip_none (s : string) :
  Forall (fun c => Str.is_space c = false) (Str.chars s) -> Str.strip s = s.
Proof.
  intros H. unfold Str.strip, Str.strip_by.
  assert (Hl : Str.lstrip_by Str.is_space s = s).
  { destruct s as [|c s]; [reflexivity |].
    change (Str.chars (String c s)) with (c :: Str.chars s) in H.
    apply Forall_cons in H as [Hc _]. apply lstrip_by_head, Hc. }
  rewrite Hl. apply rstrip_by_none, H.
Qed.

Lemma uint_chars_digits (d : Decimal.uint) :
  Forall (fun c => Str.is_digit c = true)
         (Str.chars (DecimalString.NilEmpty.string_of_uint d)).
Proof.
  induction d; cbn [DecimalString.NilEmpty.string_of_uint];
    solve [ constructor
          | match goal with
            | |- Forall _ (Str.chars (String ?c ?s)) =>
                change (Str.chars (String c s)) with (c :: Str.chars s);
                constructor; [reflexivity | assumption]
            end ].
Qed.

Lemma digits_val_uint (d : Decimal.uint) :
  forall (a : nat) (b : bool),
    b = true \/ d <> Decimal.Nil ->
    Fraud.digits_val (Z.of_nat a) b
      (Str.chars (DecimalString.NilEmpty.string_of_uint d))
    = Some (Z.of_nat (Nat.of_uint_acc d a)).
Proof.
  induction d; intros a b Hb;
    cbn [DecimalString.NilEmpty.string_of_uint Nat.of_uint_acc];
    [ destruct Hb as [-> | Hb]; [reflexivity | contradiction] | .. ];
    match goal with
    | |- context [Str.chars (String ?c ?s)] =>
        change (Str.chars (String c s)) with (c :: Str.chars s)
    end;
    cbn [Fraud.digits_val]; rewrite Nat.tail_mul_spec;
    match goal with
    | |- context [Str.is_digit ?c] =>
        change (Str.is_digit c) with true; cbv iota;
        let k := eval vm_compute in (Z.of_nat (Str.code c - 48)) in
        change (Z.of_nat (Str.code c - 48)) with k
    end;
    match goal with
    | |- Fraud.digits_val ?z true _ = Some (Z.of_nat (Nat.of_uint_acc _ ?n)) =>
        replace z with (Z.of_nat n) by lia
    end;
    apply IHd; left; reflexivity.
Qed.

Lemma to_uint_not_nil (n : nat) : Nat.to_uint n <> Decimal.Nil.
Proof.
  intros H. pose proof (DecimalNat.Unsigned.of_to n) as E.
  destruct n as [|n]; [vm_compute in H; discriminate |].
  rewrite H in E. vm_compute in E. discriminate.
Qed.

Lemma str_of_nat_digits (n : nat) :
  Forall (fun c => Str.is_digit c = true) (Str.chars (Fmt.str_of_nat n)) /\
  Fmt.str_of_nat n <> "".
Proof.
  unfold Fmt.str_of_nat, DecimalString.NilZero.string_of_uint.
  pose proof (to_uint_not_nil n) as Hn.
  destruct (Nat.to_uint n) eqn:E; try contradiction;
    (split; [rewrite <- E at 1 | discriminate]);
    rewrite E; apply uint_chars_digits.
Qed.

Lemma count_digits_all (l : list ascii) :
  Forall (fun c => Str.is_digit c = true) l -> Fraud.count_digits l = length l.
Proof.
  unfold Fraud.count_digits. induction 1 as [|c l Hc _ IH]; [reflexivity |].
  cbn [List.filter]. rewrite Hc. cbn [length]. rewrite IH. reflexivity.
Qed.

Lemma length_chars (s : string) : length (Str.chars s) = String.length s.
Proof.
  induction s as [|c s IH]; [reflexivity |].
  change (Str.chars (String c s)) with (c :: Str.chars s).
  cbn [length String.length]. rewrite IH. reflexivity.
Qed.

Lemma over_limit_str_of_nat (rt : Py.runtime) (n : nat) :
  Fraud.over_limit rt (Str.chars (Fmt.str_of_nat n))
  = (0 <? Py.int_max_str_digits rt)%nat
    && (Py.int_max_str_digits rt <? String.length (Fmt.str_of_nat n))%nat.
Proof.
  unfold Fraud.over_limit.
  rewrite count_digits_all by apply str_of_nat_digits.
  rewrite length_chars. reflexivity.
Qed.

(** [int(str(n))] is [n] within the digit limit, and a [ValueError]
    beyond it. *)
Lemma parse_int_str_of_nat (rt : Py.runtime) (n : nat) :
  Fraud.parse_int rt (Fmt.str_of_nat n)
  = if (0 <? Py.int_max_str_digits rt)%nat
       && (Py.int_max_str_digits rt <? String.length (Fmt.str_of_nat n))%nat
    then None else Some (Z.of_nat n).
Proof.
  destruct (str_of_nat_digits n) as [Hd Hne].
  pose proof (over_limit_str_of_nat rt n) as Hover.
  unfold Fraud.parse_int. rewrite strip_none.
  2:{ eapply Forall_impl; [exact Hd |]. intros c. apply digit_not_space. }
  assert (Hv : Fraud.digits_val 0 false (Str.chars (Fmt.str_of_nat n))
               = Some (Z.of_nat n)).
  { unfold Fmt.str_of_nat, DecimalString.NilZero.string_of_uint.
    pose proof (to_uint_not_nil n) as Hn.
    pose proof (DecimalNat.Unsigned.of_to n) as E. unfold Nat.of_uint in E.
    assert (Hs : match Nat.to_uint n with
                 | Decimal.Nil => "0"
                 | _ => DecimalString.NilEmpty.string_of_uint (Nat.to_uint n)
                 end = DecimalString.NilEmpty.string_of_uint (Nat.to_uint n)).
    { destruct (Nat.to_uint n); try reflexivity. contradiction. }
    rewrite Hs. change 0%Z with (Z.of_nat 0).
    rewrite digits_val_uint by (right; exact Hn). rewrite E. reflexivity. }
  destruct (Str.chars (Fmt.str_of_nat n)) as [|c l] eqn:Ec.
  - exfalso. apply Hne. apply chars_inj. rewrite Ec. reflexivity.
  - apply Forall_cons in Hd as [Hc _].
    destruct (digit_not_sign c Hc) as (H1 & H2 & _).
    cbn zeta. rewrite !bool_decide_eq_false_2 by assumption.
    cbn [orb]. rewrite Hover.
    destruct (_ && _); [reflexivity | exact Hv].
Qed.

Lemma parse_int_within (rt : Py.runtime) (n : nat) :
  within_limit rt n ->
  Fraud.parse_int rt (Fmt.str_of_nat n) = Some (Z.of_nat n).
Proof.
  intros H. rewrite parse_int_str_of_nat.
  destruct H as [H | H].
  - rewrite H. reflexivity.
  - assert (E : (Py.int_max_str_digits rt
                 <? String.length (Fmt.str_of_nat n))%nat = false)
      by (apply Nat.ltb_ge; exact H).
    rewrite E, andb_false_r. reflexivity.
Qed.

Lemma before_colon_app (s rest : string) :
  Forall (fun c => c <> ":"%char) (Str.chars s) ->
  Fraud.before_colon (s +:+ ":" +:+ rest) = s.
Proof.
  induction s as [|c s IH]; intros H; [reflexivity |].
  change (Str.chars (String c s)) with (c :: Str.chars s) in H.
  apply Forall_cons in H as [Hc Hs].
  change (String c s +:+ ":" +:+ rest) with (String c (s +:+ ":" +:+ rest)).
  cbn [Fraud.before_colon]. rewrite bool_decide_eq_false_2 by exact Hc.
  rewrite (IH Hs). reflexivity.
Qed.

Lemma clock_text (rt : Py.runtime) (h : nat) (rest : string) :
  within_limit rt h ->
  let t := Fmt.str_of_nat h +:+ ":" +:+ rest in
  Fraud.str_or (Some t) None = Some t /\
  (forall y, Fraud.str_or (Some t) y = Some t) /\
  Str.contains ":" t = true /\
  Fraud.parse_int rt (Fraud.before_colon t) = Some (Z.of_nat h).
Proof.
  intros Hlim. cbn zeta. destruct (str_of_nat_digits h) as [Hd Hne].
  assert (Hstr : forall y,
             Fraud.str_or (Some (Fmt.str_of_nat h +:+ ":" +:+ rest)) y
             = Some (Fmt.str_of_nat h +:+ ":" +:+ rest)).
  { intros y. destruct (Fmt.str_of_nat h); [contradiction | reflexivity]. }
  split; [apply Hstr |]. split; [exact Hstr |]. split.
  - apply contains_occurs. exists (Fmt.str_of_nat h), rest. reflexivity.
  - rewrite before_colon_app; [apply parse_int_within, Hlim |].
    eapply Forall_impl; [exact Hd |]. intros c Hc.
    apply (digit_not_sign c Hc).
Qed.

(** Where the hour of a transaction comes from.  A numeric ["hour"] entry
    is the hour, whatever the other entries say; so is one written as
    decimal text, as long as it has no more digits than [int] accepts
    (4300 by default): a longer one is not usable.  Without a usable
    ["hour"] entry the hour is read from the text before the first colon
    of the ["time"] entry, or of the ["timestamp"] entry when ["time"] is
    absent or empty, within the same limit; and when there is neither,
    the hour is -1. *)
Theorem parse_hour_sources (rt : Py.runtime) (tx : Fraud.transaction) :
  (forall z, Fraud.tx_hour tx = Some (Fraud.HourInt z) ->
             Fraud._parse_hour rt tx = z) /\
  (forall h, Fraud.tx_hour tx = Some (Fraud.HourStr (Fmt.str_of_nat h)) ->
             (within_limit rt h -> Fraud._parse_hour rt tx = Z.of_nat h) /\
             (~ within_limit rt h ->
              Fraud.tx_hour tx ≫= Fraud.int_of_hour rt = None)) /\
  (Fraud.tx_hour tx ≫= Fraud.int_of_hour rt = None ->
   (forall h rest,
       within_limit rt h ->
       Fraud.tx_time tx = Some (Fmt.str_of_nat h +:+ ":" +:+ rest) ->
       Fraud._parse_hour rt tx = Z.of_nat h) /\
   (forall h rest,
       within_limit rt h ->
       Fraud.tx_time tx = None \/ Fraud.tx_time tx = Some "" ->
       Fraud.tx_timestamp tx = Some (Fmt.str_of_nat h +:+ ":" +:+ rest) ->
       Fraud._parse_hour rt tx = Z.of_nat h) /\
   (Fraud.tx_time tx = None \/ Fraud.tx_time tx = Some "" ->
    Fraud.tx_timestamp tx = None \/ Fraud.tx_timestamp tx = Some "" ->
    Fraud._parse_hour rt tx = (-1)%Z)).
Proof.
  unfold Fraud._parse_hour. split; [| split].
  - intros z ->. reflexivity.
  - intros h ->. cbn [mbind option_bind Fraud.int_of_hour]. split.
    + intros Hlim. rewrite (parse_int_within rt h Hlim). reflexivity.
    + intros Hlim. rewrite parse_int_str_of_nat.
      destruct (0 <? Py.int_max_str_digits rt)%nat eqn:E0;
        destruct (Py.int_max_str_digits rt
                  <? String.length (Fmt.str_of_nat h))%nat eqn:E1;
        cbn [andb]; try reflexivity; exfalso; apply Hlim.
      * right. apply Nat.ltb_ge, E1.
      * left. apply Nat.ltb_ge in E0. lia.
      * left. apply Nat.ltb_ge in E0. lia.
  - intros ->. split; [| split].
    + intros h rest Hlim ->.
      destruct (clock_text rt h rest Hlim) as (_ & Hs & Hc & Hp).
      rewrite Hs, Hc, Hp. reflexivity.
    + intros h rest Hlim Ht ->.
      destruct (clock_text rt h rest Hlim) as (Hs & _ & Hc & Hp).
      assert (E : Fraud.str_or (Fraud.tx_time tx)
                    (Some (Fmt.str_of_nat h +:+ ":" +:+ rest))
                  = Some (Fmt.str_of_nat h +:+ ":" +:+ rest))
        by (destruct Ht as [-> | ->]; reflexivity).
      rewrite E, Hc, Hp. reflexivity.
    + intros [-> | ->] [-> | ->]; reflexivity.
Qed.

Lemma parse_hour_sources_witness :
  Fraud._parse_hour Sample.py311
    (Fraud.Tx None None (Some Fraud.HourBad) (Some "") (Some "23:59:07"))
  = 23%Z.
Proof.
  refine (proj1 (proj2 (proj2 (proj2 (parse_hour_sources Sample.py311
            (Fraud.Tx None None (Some Fraud.HourBad) (Some "")
                      (Some "23:59:07")))) _)) 23 "59:07" _ _ _).
  - reflexivity.
  - right. vm_compute. lia.
  - right. reflexivity.
  - reflexivity.
Defined.

(** ** The symbols of a parsed allocation *)

Section SymbolFacts.
Import Portfolio.

Lemma chars_map_string (f : ascii -> ascii) (s : string) :
  Str.chars (Str.map_string f s) = map f (Str.chars s).
Proof.
  induction s as [|c s IH]; [reflexivity |].
  cbn [Str.map_string]. unfold Str.chars in *. simpl. rewrite IH.
  reflexivity.
Qed.

Lemma upper_alnum_clean (c : ascii) :
  Str.is_alnum c = true -> clean_char (Str.upper_char c) = true.
Proof.
  destruct c as [[] [] [] [] [] [] [] []]; vm_compute; congruence.
Qed.

Lemma clean_symbol_chars (sym : string) :
  Forall (fun c => clean_char c = true) (Str.chars (clean_symbol sym)).
Proof.
  unfold clean_symbol, Str.upper. rewrite chars_map_string, chars_of_chars.
  apply Forall_forall. intros c Hc.
  apply list_elem_of_fmap in Hc as (c0 & -> & Hc0).
  apply list_elem_of_filter in Hc0 as [Hal _].
  apply upper_alnum_clean. apply Is_true_true, Hal.
Qed.

Lemma accumulate_keys_clean (pairs : list (string * string)) :
  forall out,
    Forall (fun k => Forall (fun c => clean_char c = true) (Str.chars k))
           (keys out) ->
    Forall (fun k => Forall (fun c => clean_char c = true) (Str.chars k))
           (keys (accumulate pairs out)).
Proof.
  induction pairs as [|[pct sym] rest IH]; intros out H; [exact H |].
  cbn [accumulate].
  destruct (Str.eqb (clean_symbol sym) ""); apply IH; [exact H |].
  rewrite keys_dict_set. case_bool_decide; [exact H |].
  apply Forall_app. split; [exact H |].
  constructor; [apply clean_symbol_chars | constructor].
Qed.

(** Every symbol of what [parse_percent_alloc] returns is non-empty and
    made of capital letters and digits only, whatever was typed around
    and inside it. *)
Theorem parsed_symbols_are_clean (rt : Py.runtime) (s : string) (w : dict) :
  parse_percent_alloc rt s = Some w ->
  Forall (fun k => k <> "" /\
                   Forall (fun c => clean_char c = true) (Str.chars k))
         (keys w).
Proof.
  intros H. unfold parse_percent_alloc in H.
  set (pairs := Re.findall2 PERCENT_PAIR s) in *.
  pose proof (accumulate_keys_nonempty pairs [] (not_elem_of_nil _)) as Hne.
  pose proof (accumulate_keys_clean pairs [] (Forall_nil_2 _)) as Hcl.
  assert (Hn : normalize_allocations rt (accumulate pairs []) = Some w)
    by (destruct (accumulate pairs []); [discriminate | exact H]).
  unfold normalize_allocations in Hn.
  destruct (_ <=? _)%float; [discriminate |]. injection Hn as <-.
  rewrite keys_divided. apply Forall_forall. intros k Hk. split.
  - intros ->. contradiction.
  - rewrite Forall_forall in Hcl. apply Hcl, Hk.
Qed.

End SymbolFacts.

Lemma parsed_symbols_are_clean_witness :
  Forall (fun k => k <> "" /\
                   Forall (fun c => Portfolio.clean_char c = true) (Str.chars k))
         ["BRKB"; "TBILLS"].
Proof.
  apply (parsed_symbols_are_clean Sample.py311 "70% brk.b, 30% t-bills"
           [("BRKB", 0.7%float); ("TBILLS", 0.3%float)]).
  vm_compute. reflexivity.
Defined.

(** ** Risk tolerance read from free text *)

Section RiskInference.
Import Re.

Lemma scan_hit (r : regex) (s : list ascii) :
  forall (prev : option ascii) (st : list ascii) (h : hit),
    scan r prev s = Some (st, h) ->
    exists pre, s = pre ++ st /\ match_here r (last_read prev pre) st = Some h.
Proof.
  induction s as [|c s IH]; intros prev st h H; cbn [scan] in H.
  - destruct (match_here r prev []) as [h0|] eqn:E; [| discriminate].
    injection H as <- <-. exists []. split; [reflexivity | exact E].
  - destruct (match_here r prev (c :: s)) as [h0|] eqn:E.
    + injection H as <- <-. exists []. split; [reflexivity | exact E].
    + apply IH in H as (pre & -> & H). exists (c :: pre).
      split; [reflexivity |]. rewrite last_read_cons. exact H.
Qed.

Lemma scan_complete (r : regex) (s : list ascii) :
  forall (prev : option ascii) (pre st : list ascii),
    s = pre ++ st ->
    is_Some (match_here r (last_read prev pre) st) ->
    is_Some (scan r prev s).
Proof.
  induction s as [|c s IH]; intros prev pre st Hs Hm.
  - destruct pre; [| discriminate]. simpl in Hs. subst st.
    cbn [scan]. destruct Hm as [h Hm]. cbn in Hm. rewrite Hm. eauto.
  - cbn [scan]. destruct (match_here r prev (c :: s)) as [h0|] eqn:E; [eauto |].
    destruct pre as [|c' pre].
    + simpl in Hs. subst st. destruct Hm as [h Hm]. cbn in Hm. congruence.
    + injection Hs as <- Hs. rewrite last_read_cons in Hm.
      exact (IH (Some c) pre st Hs Hm).
Qed.

Lemma wordb_first {R : Type} (r : regex) (prev : option ascii)
      (s : list ascii) (cs : caps) (k : @cont R) (x : R) :
  rmatch (Seq WordB r) prev s cs k = Some x ->
  boundary prev s = true /\ rmatch r prev s cs k = Some x.
Proof.
  cbn [rmatch]. destruct (boundary prev s); [auto | discriminate].
Qed.

(** An alternation with an empty alternative matches wherever what
    follows it matches. *)
Lemma alts_with_eps {R : Type} (l1 l2 : list regex) (prev : option ascii)
      (s : list ascii) (cs : caps) (k : @cont R) :
  is_Some (k prev s cs) ->
  is_Some (rmatch (Alts (l1 ++ Eps :: l2)) prev s cs k).
Proof.
  intros Hk. induction l1 as [|a l1 IH].
  - cbn [app Alts]. destruct l2 as [|b l2]; [exact Hk |].
    cbn [rmatch]. destruct Hk as [x ->]. eauto.
  - cbn [app]. destruct (l1 ++ Eps :: l2) as [|b l] eqn:E.
    + destruct l1; discriminate.
    + change (Alts (a :: b :: l)) with (Alt a (Alts (b :: l))).
      cbn [rmatch]. destruct (rmatch a prev s cs k); [eauto | exact IH].
Qed.

Lemma search_with_eps (i : nat) (l1 l2 : list regex) (t : string) :
  (exists pre st, Str.chars t = pre ++ st /\
                  boundary (last_read None pre) st = true) ->
  search (Seq WordB (Seq (Group i (Alts (l1 ++ Eps :: l2))) WordB)) t = true.
Proof.
  intros (pre & st & Ht & Hb). unfold search, search_caps.
  destruct (scan_complete
              (Seq WordB (Seq (Group i (Alts (l1 ++ Eps :: l2))) WordB))
              (Str.chars t) None pre st Ht) as [[st' h] ->]; [| reflexivity].
  unfold match_here. cbn [rmatch]. rewrite Hb.
  apply alts_with_eps. cbn [rmatch]. rewrite Hb. eauto.
Qed.

Lemma take_app_rest {A : Type} (l rest : list A) :
  take (length (l ++ rest) - length rest) (l ++ rest) = l.
Proof.
  rewrite length_app.
  replace (length l + length rest - length rest)%nat with (length l) by lia.
  apply take_app_length.
Qed.

(** A group of literal alternatives captures one of the literals. *)
Lemma alts_of_literals {R : Type} (ws : list string) :
  ws <> [] ->
  forall (prev : option ascii) (s : list ascii) (cs : caps) (k : @cont R)
         (x : R),
    rmatch (Alts (map Lit ws)) prev s cs k = Some x ->
    exists w rest, In w ws /\ s = Str.chars w ++ rest /\
                   k (last_read prev (Str.chars w)) rest cs = Some x.
Proof.
  induction ws as [|w ws IH]; intros Hne prev s cs k x H; [congruence |].
  destruct ws as [|w2 ws].
  - cbn [map Alts] in H. apply rmatch_Lit in H as (rest & Hs & Hk).
    exists w, rest. split; [left; reflexivity | auto].
  - change (Alts (map Lit (w :: w2 :: ws)))
      with (Alt (Lit w) (Alts (map Lit (w2 :: ws)))) in H.
    cbn [rmatch] in H.
    destruct (rmatch (Lit w) prev s cs k) as [y|] eqn:E.
    + injection H as ->. apply rmatch_Lit in E as (rest & Hs & Hk).
      exists w, rest. split; [left; reflexivity | auto].
    + apply IH in H as (w' & rest & Hin & Hs & Hk); [| discriminate].
      exists w', rest. split; [right; exact Hin | auto].
Qed.

Lemma word_group_hit (i : nat) (ws : list string) (prev : option ascii)
      (s : list ascii) (h : hit) :
  ws <> [] ->
  match_here (Seq WordB (Seq (Group i (Alts (map Lit ws))) WordB)) prev s
  = Some h ->
  exists w, In w ws /\ group i (hit_caps h) = Some w.
Proof.
  intros Hne H. unfold match_here in H.
  apply wordb_first in H as [_ H]. cbn [rmatch] in H.
  apply (alts_of_literals ws Hne) in H as (w & rest & Hin & -> & H).
  destruct (boundary _ rest); [| discriminate].
  injection H as <-. exists w. split; [exact Hin |].
  cbn [hit_caps group]. rewrite Nat.eqb_refl, take_app_rest.
  f_equal. apply chars_inj. apply chars_of_chars.
Qed.

Lemma search_caps_hit (r : regex) (t : string) (cs : caps) :
  search_caps r t = Some cs ->
  exists pre st h, Str.chars t = pre ++ st /\
                   match_here r (last_read None pre) st = Some h /\
                   hit_caps h = cs.
Proof.
  unfold search_caps. destruct (scan r None (Str.chars t)) as [[st h]|] eqn:E;
    [| discriminate].
  intros [= <-]. apply scan_hit in E as (pre & Ht & Hm). eauto 6.
Qed.

Lemma first_synonym_canon (t : string) (syn : list (regex * string))
      (r : string) :
  Jagent.first_synonym t syn = Some r -> In r (map snd syn).
Proof.
  induction syn as [|[pat canon] syn IH]; cbn [Jagent.first_synonym];
    [discriminate |].
  destruct (search pat t).
  - intros [= <-]. left. reflexivity.
  - intros H. right. exact (IH H).
Qed.

(** What [_infer_risk_freeform] can answer.  The answer is one of the
    three tolerance words.  There is no answer exactly when the text has
    no cue.  And with a cue but none of the three words as a word of the
    text, the answer is [aggressive] whatever else the text says: the
    first pattern of [SYNONYMS] has an empty alternative, so it matches at
    the first word boundary and the patterns for [moderate] and
    [conservative] are never tried. *)
Theorem infer_risk_freeform_answers (text : string) :
  let t := Str.lower text in
  (forall r, Jagent._infer_risk_freeform text = Some r ->
             In r ["conservative"; "moderate"; "aggressive"]) /\
  (Jagent._infer_risk_freeform text = None <-> search Jagent.CUE t = false) /\
  (search Jagent.CUE t = true ->
   search Jagent.TOLERANCE t = false ->
   Jagent._infer_risk_freeform text = Some "aggressive").
Proof.
  cbn zeta.
  assert (Hsyn : search Jagent.CUE (Str.lower text) = true ->
                 Jagent.first_synonym (Str.lower text) Jagent.SYNONYMS
                 = Some "aggressive").
  { intros Hcue. unfold search in Hcue.
    destruct (search_caps Jagent.CUE (Str.lower text)) as [cs|] eqn:E;
      [| discriminate].
    apply search_caps_hit in E as (pre & st & h & Ht & Hm & _).
    unfold match_here, Jagent.CUE in Hm. cbn [Seqs] in Hm.
    apply wordb_first in Hm as [Hb _].
    unfold Jagent.SYNONYMS. cbn [Jagent.first_synonym].
    pose proof (search_with_eps 1
               [Lit "high risk"; Lit "risk-on"; Lit "risk on"]
               [Seqs [Lit "risk"; Opt (Chr Jagent.dash_or_space); Lit "on"];
                Lit "very aggressive"; Lit "speculative"; Lit "max risk"]
               (Str.lower text)) as Hs.
    cbn [Seqs app] in Hs |- *. rewrite Hs by eauto.
    reflexivity. }
  assert (Htol : forall cs,
             search_caps Jagent.TOLERANCE (Str.lower text) = Some cs ->
             exists w, In w ["conservative"; "moderate"; "aggressive"] /\
                       group 1 cs = Some w).
  { intros cs E. apply search_caps_hit in E as (pre & st & h & _ & Hm & <-).
    apply (word_group_hit 1 ["conservative"; "moderate"; "aggressive"]
                          (last_read None pre) st h);
      [discriminate | exact Hm]. }
  unfold Jagent._infer_risk_freeform.
  destruct (search Jagent.CUE (Str.lower text)) eqn:Hcue; cbn [negb].
  - specialize (Hsyn eq_refl). unfold search.
    destruct (search_caps Jagent.TOLERANCE (Str.lower text)) as [cs|] eqn:E.
    + destruct (Htol cs eq_refl) as (w & Hin & Hg). rewrite Hg.
      split; [intros r [= <-]; exact Hin |].
      split; [split; discriminate | discriminate].
    + rewrite Hsyn. split; [intros r [= <-]; simpl; auto |].
      split; [split; discriminate | reflexivity].
  - split; [discriminate |]. split; [split; reflexivity | discriminate].
Qed.

End RiskInference.

Lemma infer_risk_freeform_answers_witness :
  Jagent._infer_risk_freeform "I'm risk averse" = Some "aggressive".
Proof.
  apply (proj2 (proj2 (infer_risk_freeform_answers "I'm risk averse")));
    vm_compute; reflexivity.
Defined.

(** ** Stripping and letter case *)

Section Stripping.
Variable p : ascii -> bool.

Lemma lstrip_by_idem (s : string) :
  Str.lstrip_by p (Str.lstrip_by p s) = Str.lstrip_by p s.
Proof.
  induction s as [|c s IH]; [reflexivity |]. cbn [Str.lstrip_by].
  destruct (p c) eqn:E; [exact IH |]. cbn [Str.lstrip_by]. rewrite E.
  reflexivity.
Qed.

Lemma lstrip_by_head_false (s : string) (c : ascii) (t : string) :
  Str.lstrip_by p s = String c t -> p c = false.
Proof.
  induction s as [|a s IH]; [discriminate |]. cbn [Str.lstrip_by].
  destruct (p a) eqn:E; [exact IH |]. intros [= <- _]. exact E.
Qed.

Lemma rstrip_by_cons (c : ascii) (s : string) :
  Str.rstrip_by p (String c s)
  = match Str.rstrip_by p s with
    | EmptyString => if p c then EmptyString else String c EmptyString
    | r => String c r
    end.
Proof. reflexivity. Qed.

Lemma rstrip_by_idem (s : string) :
  Str.rstrip_by p (Str.rstrip_by p s) = Str.rstrip_by p s.
Proof.
  induction s as [|c s IH]; [reflexivity |]. rewrite rstrip_by_cons.
  destruct (Str.rstrip_by p s) as [|a r] eqn:E.
  - destruct (p c) eqn:Hc; [reflexivity |]. cbn. rewrite Hc. reflexivity.
  - rewrite rstrip_by_cons, IH. reflexivity.
Qed.

(** Stripping the right end leaves the first character in place. *)
Lemma rstrip_by_keeps_head (c : ascii) (s : string) :
  p c = false -> exists r, Str.rstrip_by p (String c s) = String c r.
Proof.
  intros Hc. rewrite rstrip_by_cons.
  destruct (Str.rstrip_by p s); [rewrite Hc |]; eauto.
Qed.

Lemma strip_by_idem (s : string) :
  Str.strip_by p (Str.strip_by p s) = Str.strip_by p s.
Proof.
  unfold Str.strip_by. destruct (Str.lstrip_by p s) as [|c t] eqn:E;
    [reflexivity |].
  pose proof (lstrip_by_head_false _ _ _ E) as Hc.
  destruct (rstrip_by_keeps_head c t Hc) as [r Hr]. rewrite Hr.
  rewrite (lstrip_by_head p c r Hc), <- Hr. apply rstrip_by_idem.
Qed.

Lemma lstrip_empty_rstrip_empty (s : string) :
  Str.lstrip_by p s = "" -> Str.rstrip_by p s = "".
Proof.
  induction s as [|c s IH]; [reflexivity |]. cbn [Str.lstrip_by].
  destruct (p c) eqn:E; [| discriminate].
  intros H. rewrite rstrip_by_cons, (IH H), E. reflexivity.
Qed.

(** A non-empty tail of a right-stripped text is right-stripped. *)
Lemma rstripped_tail (a b : string) :
  b <> "" ->
  Str.rstrip_by p (a +:+ b) = a +:+ b -> Str.rstrip_by p b = b.
Proof.
  intros Hb. induction a as [|x a IH]; [auto |].
  change (String x a +:+ b) with (String x (a +:+ b)).
  rewrite rstrip_by_cons. intros H. apply IH.
  destruct (Str.rstrip_by p (a +:+ b)) as [|y r] eqn:E.
  - exfalso. destruct (p x); [discriminate |].
    injection H as H. destruct a; [apply Hb; symmetry; exact H | discriminate].
  - injection H as H. exact H.
Qed.

Lemma rstripped_tail_not_blank (a b : string) :
  b <> "" ->
  Str.rstrip_by p (a +:+ b) = a +:+ b -> Str.lstrip_by p b <> "".
Proof.
  intros Hb H Hl. apply Hb.
  rewrite <- (rstripped_tail a b Hb H). apply lstrip_empty_rstrip_empty, Hl.
Qed.

(** Stripping commutes with a change of characters that respects the
    stripped set. *)
Variable f : ascii -> ascii.
Hypothesis f_respects : forall c, p (f c) = p c.

Lemma lstrip_by_map (s : string) :
  Str.lstrip_by p (Str.map_string f s) = Str.map_string f (Str.lstrip_by p s).
Proof.
  induction s as [|c s IH]; [reflexivity |].
  cbn [Str.map_string Str.lstrip_by]. rewrite f_respects.
  destruct (p c); [exact IH | reflexivity].
Qed.

Lemma rstrip_by_map (s : string) :
  Str.rstrip_by p (Str.map_string f s) = Str.map_string f (Str.rstrip_by p s).
Proof.
  induction s as [|c s IH]; [reflexivity |].
  cbn [Str.map_string]. rewrite !rstrip_by_cons, IH, f_respects.
  destruct (Str.rstrip_by p s); [destruct (p c) |]; reflexivity.
Qed.

Lemma strip_by_map (s : string) :
  Str.strip_by p (Str.map_string f s) = Str.map_string f (Str.strip_by p s).
Proof. unfold Str.strip_by. rewrite lstrip_by_map, rstrip_by_map. reflexivity. Qed.

End Stripping.

Lemma lower_char_space (c : ascii) :
  Str.is_space (Str.lower_char c) = Str.is_space c.
Proof. destruct c as [[] [] [] [] [] [] [] []]; vm_compute; reflexivity. Qed.

Lemma upper_char_space (c : ascii) :
  Str.is_space (Str.upper_char c) = Str.is_space c.
Proof. destruct c as [[] [] [] [] [] [] [] []]; vm_compute; reflexivity. Qed.

Lemma strip_idem (s : string) : Str.strip (Str.strip s) = Str.strip s.
Proof. apply strip_by_idem. Qed.

Lemma strip_lower (s : string) :
  Str.strip (Str.lower s) = Str.lower (Str.strip s).
Proof. apply strip_by_map, lower_char_space. Qed.

Lemma strip_upper (s : string) :
  Str.strip (Str.upper s) = Str.upper (Str.strip s).
Proof. apply strip_by_map, upper_char_space. Qed.

Lemma strip_rstripped (s : string) :
  Str.rstrip_by Str.is_space (Str.strip s) = Str.strip s.
Proof. unfold Str.strip, Str.strip_by. apply rstrip_by_idem. Qed.

Lemma strip_lstripped (s : string) :
  Str.lstrip_by Str.is_space (Str.strip s) = Str.strip s.
Proof.
  unfold Str.strip, Str.strip_by.
  destruct (Str.lstrip_by Str.is_space s) as [|c t] eqn:E; [reflexivity |].
  pose proof (lstrip_by_head_false _ _ _ _ E) as Hc.
  destruct (rstrip_by_keeps_head Str.is_space c t Hc) as [r ->].
  apply lstrip_by_head, Hc.
Qed.

(** ** The uncaught [IndexError] of the routing block *)

Lemma after_first_none (sep s : string) :
  Str.after_first sep s = None -> Str.contains sep s = false.
Proof.
  induction s as [|c s IH]; cbn [Str.after_first Str.contains];
    destruct (Str.startswith sep _); try discriminate; auto.
Qed.

Lemma append_assoc (a b c : string) : (a +:+ b) +:+ c = a +:+ (b +:+ c).
Proof.
  apply chars_inj. rewrite !chars_app. symmetry. apply app_assoc.
Qed.

Lemma startswith_contains (a b s : string) :
  Str.startswith (a +:+ b) s = true -> Str.contains a s = true.
Proof.
  intros H. apply startswith_app in H as [post ->].
  apply contains_occurs. exists "", (b +:+ post).
  rewrite append_assoc. reflexivity.
Qed.

Lemma startswith_occurs_later (a b s : string) :
  Str.startswith (a +:+ b) s = true -> Str.contains b s = true.
Proof.
  intros H. apply startswith_app in H as [post ->].
  apply contains_occurs. exists a, post. apply append_assoc.
Qed.

Lemma lower_char_is_space (c : ascii) :
  Str.lower_char c = " "%char -> c = " "%char.
Proof.
  destruct c as [[] [] [] [] [] [] [] []]; vm_compute; congruence.
Qed.

Lemma contains_space_lower (s : string) :
  Str.contains " " (Str.lower s) = Str.contains " " s.
Proof.
  induction s as [|c s IH]; [reflexivity |].
  change (Str.lower (String c s)) with (String (Str.lower_char c) (Str.lower s)).
  cbn [Str.contains Str.startswith]. rewrite IH. f_equal. f_equal.
  apply bool_decide_ext. split; [| intros <-; reflexivity].
  intros H. symmetry. apply lower_char_is_space. symmetry. exact H.
Qed.

(** A command word and a space at the start of a stripped line leave
    something after the first run of white space. *)
Lemma split1_ws_after_word (line : string) (w : string) :
  Forall (fun c => Str.is_space c = false) (Str.chars w) ->
  w <> "" ->
  Str.startswith (w +:+ " ") (Str.lower (Str.strip line)) = true ->
  Str.split1_ws (Str.strip line) <> None.
Proof.
  intros Hw Hne Hs. unfold Str.split1_ws. rewrite strip_lstripped.
  pose proof (strip_rstripped line) as Hr.
  apply startswith_app in Hs as [post Hs].
  revert Hs Hr. generalize (Str.strip line) as u. clear line.
  assert (Hgen : forall (w : string) (pre u : string),
             Forall (fun c => Str.is_space c = false) (Str.chars w) ->
             Str.lower u = w +:+ " " +:+ post ->
             Str.rstrip_by Str.is_space (pre +:+ u) = pre +:+ u ->
             Str.skip_word u <> None).
  { clear. induction w as [|c w IH]; intros pre u Hw Hu Hr.
    - destruct u as [|x u]; [discriminate |].
      change (Str.lower (String x u))
        with (String (Str.lower_char x) (Str.lower u)) in Hu.
      change ("" +:+ " " +:+ post) with (String " " post) in Hu.
      injection Hu as Hx _.
      apply lower_char_is_space in Hx. subst x.
      cbn [Str.skip_word]. change (Str.is_space " ") with true. cbv iota.
      destruct (Str.lstrip_by Str.is_space u) eqn:E; [| discriminate].
      exfalso.
      apply (rstripped_tail_not_blank Str.is_space pre (String " " u));
        [discriminate | exact Hr |].
      cbn [Str.lstrip_by]. change (Str.is_space " ") with true. exact E.
    - destruct u as [|x u]; [discriminate |].
      change (Str.lower (String x u))
        with (String (Str.lower_char x) (Str.lower u)) in Hu.
      change (String c w +:+ " " +:+ post)
        with (String c (w +:+ " " +:+ post)) in Hu.
      injection Hu as Hx Hu.
      change (Str.chars (String c w)) with (c :: Str.chars w) in Hw.
      apply Forall_cons in Hw as [Hc Hw].
      cbn [Str.skip_word]. rewrite <- (lower_char_space x), Hx, Hc.
      apply (IH (pre +:+ String x "") u Hw Hu).
      rewrite append_assoc. exact Hr. }
  intros u Hu Hr. rewrite append_assoc in Hu. apply (Hgen w "" u Hw Hu Hr).
Qed.

(** The routing block raises its uncaught [IndexError] in two places
    only: the [analyze portfolio] and the [fraud] commands split the line
    as typed on the command word in lower case, while the command was
    recognised on the lower-cased line.  So a line all in lower case is
    never the cause of one, and neither are the [help], [price],
    [sentiment] and [news] commands. *)
Theorem route_crash_needs_capitals (st : Jagent.session) (line : string) :
  (Jagent.route st line = Jagent.Crash ->
   (Str.startswith "analyze portfolio" (Str.lower (Str.strip line)) = true /\
    Str.contains "analyze portfolio" (Str.strip line) = false) \/
   (Str.startswith "fraud " (Str.lower (Str.strip line)) = true /\
    Str.contains "fraud" (Str.strip line) = false)) /\
  (Str.lower line = line -> Jagent.route st line <> Jagent.Crash).
Proof.
  assert (Hcrash : Jagent.route st line = Jagent.Crash ->
   (Str.startswith "analyze portfolio" (Str.lower (Str.strip line)) = true /\
    Str.contains "analyze portfolio" (Str.strip line) = false) \/
   (Str.startswith "fraud " (Str.lower (Str.strip line)) = true /\
    Str.contains "fraud" (Str.strip line) = false)).
  { unfold Jagent.route. cbn zeta.
    rewrite strip_lower, strip_idem.
    set (u := Str.strip line). set (low := Str.lower u).
    repeat first
      [ discriminate
      | match goal with
        | |- (if ?b then _ else _) = _ -> _ => destruct b eqn:?
        | |- match ?o with Some _ => _ | None => _ end = _ -> _ =>
            destruct o eqn:?
        end ];
      intros _.
    - (* help *)
      exfalso.
      match goal with
      | H : Str.after_first " " low = None |- _ =>
          apply after_first_none in H; rename H into Hn
      end.
      match goal with
      | H : Str.startswith "help " low = true |- _ =>
          apply (startswith_occurs_later "help" " ") in H; congruence
      end.
    - (* price *)
      exfalso.
      match goal with
      | H : Str.split1_ws u = None |- _ => revert H
      end.
      apply (split1_ws_after_word line "price").
      + repeat constructor.
      + discriminate.
      + assumption.
    - (* analyze portfolio *)
      left. split; [first [assumption | reflexivity] |].
      apply after_first_none. assumption.
    - (* fraud *)
      right. split; [first [assumption | reflexivity] |].
      apply after_first_none. assumption.
    - (* sentiment *)
      exfalso.
      match goal with
      | H : Str.after_first " " u = None |- _ =>
          apply after_first_none in H; rename H into Hn
      end.
      match goal with
      | H : Str.startswith "sentiment " low = true |- _ =>
          apply (startswith_occurs_later "sentiment" " ") in H;
          unfold low in H; rewrite contains_space_lower in H; congruence
      end.
    - (* news *)
      exfalso.
      match goal with
      | H : Str.after_first " " u = None |- _ =>
          apply after_first_none in H; rename H into Hn
      end.
      match goal with
      | H : Str.startswith "news " low = true |- _ =>
          apply (startswith_occurs_later "news" " ") in H;
          unfold low in H; rewrite contains_space_lower in H; congruence
      end. }
  split; [exact Hcrash |].
  intros Hlow Hc. apply Hcrash in Hc.
  assert (Hu : Str.lower (Str.strip line) = Str.strip line)
    by (rewrite <- strip_lower, Hlow; reflexivity).
  rewrite Hu in Hc. destruct Hc as [[Hs Hn] | [Hs Hn]].
  - apply (startswith_contains "analyze portfolio" "") in Hs. congruence.
  - apply (startswith_contains "fraud" " ") in Hs. congruence.
Qed.

Lemma route_crash_needs_capitals_witness :
  Str.startswith "fraud " (Str.lower (Str.strip "Fraud {amount: 10}")) = true /\
  Str.contains "fraud" (Str.strip "Fraud {amount: 10}") = false.
Proof.
  destruct (proj1 (route_crash_needs_capitals (Jagent.Session "moderate" [])
                     "Fraud {amount: 10}")) as [[H _] | H].
  - vm_compute. reflexivity.
  - vm_compute in H. discriminate H.
  - exact H.
Defined.

(** ** Symbols as the price lookup keys them *)

Lemma upper_lower_char (c : ascii) :
  Str.upper_char (Str.lower_char c) = Str.upper_char c.
Proof. destruct c as [[] [] [] [] [] [] [] []]; vm_compute; reflexivity. Qed.

Lemma upper_lower (s : string) : Str.upper (Str.lower s) = Str.upper s.
Proof.
  unfold Str.lower, Str.upper. induction s as [|c s IH]; simpl;
    [reflexivity |].
  rewrite upper_lower_char, IH. reflexivity.
Qed.

Lemma map_symbol_cases (s : string) :
  (Str.upper (Str.strip s) = "BONDS" /\ Tools.map_symbol s = "BND") \/
  (Str.upper (Str.strip s) <> "BONDS" /\
   Tools.map_symbol s = Str.upper (Str.strip s)).
Proof.
  unfold Tools.map_symbol. cbn zeta.
  destruct (Str.eqb (Str.upper (Str.strip s)) "BONDS") eqn:E.
  - left. apply eqb_true in E. auto.
  - right. apply eqb_false in E. auto.
Qed.

Lemma map_symbol_upper (s : string) :
  Str.upper (Tools.map_symbol s) = Tools.map_symbol s.
Proof.
  destruct (map_symbol_cases s) as [[_ ->] | [_ ->]];
    [reflexivity | apply upper_idem].
Qed.

Lemma map_symbol_strip (s : string) :
  Str.strip (Tools.map_symbol s) = Tools.map_symbol s.
Proof.
  destruct (map_symbol_cases s) as [[_ ->] | [_ ->]]; [reflexivity |].
  rewrite strip_upper, strip_idem. reflexivity.
Qed.

Lemma map_symbol_idem (s : string) :
  Tools.map_symbol (Tools.map_symbol s) = Tools.map_symbol s.
Proof.
  destruct (map_symbol_cases s) as [[_ H] | [Hne H]].
  - rewrite H. reflexivity.
  - unfold Tools.map_symbol at 1. cbn zeta.
    rewrite map_symbol_strip, map_symbol_upper.
    rewrite H at 1.
    destruct (Str.eqb (Str.upper (Str.strip s)) "BONDS") eqn:E;
      [apply eqb_true in E; contradiction | reflexivity].
Qed.

(** [map_symbol] gives the symbol in the form the price lookup works
    with.  Mapping a mapped symbol again changes nothing, so
    [get_latest_price], which maps its argument, gives the same result,
    cache file and calls for a symbol and for its mapped form; the mapped
    symbol is in upper case without surrounding white space, is never
    [BONDS], and does not depend on the letter case of what was typed. *)
Theorem map_symbol_canonical (s : string) :
  Tools.map_symbol (Tools.map_symbol s) = Tools.map_symbol s /\
  Str.upper (Tools.map_symbol s) = Tools.map_symbol s /\
  Str.strip (Tools.map_symbol s) = Tools.map_symbol s /\
  Tools.map_symbol s <> "BONDS" /\
  Tools.map_symbol (Str.lower s) = Tools.map_symbol s /\
  Tools.map_symbol (Str.upper s) = Tools.map_symbol s /\
  (forall (e : Tools.env) (f : Cache.file),
      Tools.get_latest_price e f (Tools.map_symbol s)
      = Tools.get_latest_price e f s).
Proof.
  split; [apply map_symbol_idem |].
  split; [apply map_symbol_upper |].
  split; [apply map_symbol_strip |].
  split.
  { destruct (map_symbol_cases s) as [[_ ->] | [Hne ->]];
      [discriminate | exact Hne]. }
  split.
  { unfold Tools.map_symbol. cbn zeta.
    rewrite strip_lower, upper_lower. reflexivity. }
  split.
  { unfold Tools.map_symbol. cbn zeta.
    rewrite strip_upper, upper_idem. reflexivity. }
  intros e f. unfold Tools.get_latest_price. cbn zeta.
  rewrite map_symbol_idem. reflexivity.
Qed.

(** ** Cache entries of other symbols and days *)

Lemma matches_put_other (s1 d1 s2 d2 : string) (p ts : float) :
  Str.upper s1 <> Str.upper s2 \/ d1 <> d2 ->
  Cache.matches (Str.upper s2) d2
    {| Cache.r_symbol := Str.upper s1; Cache.r_date := d1;
       Cache.r_price := p; Cache.r_ts := ts |} = false.
Proof.
  intros H. unfold Cache.matches. cbn [Cache.r_symbol Cache.r_date].
  rewrite upper_idem. apply andb_false_iff.
  destruct H as [H | H]; [left | right]; apply eqb_false; exact H.
Qed.

Lemma get_after_put_other (ttl : Z) (now_put now_get : float)
      (ok_r ok_w : bool) (f : Cache.file) (s1 d1 s2 d2 : string) (p : float) :
  Str.upper s1 <> Str.upper s2 \/ d1 <> d2 ->
  Cache.get_cached_price ttl now_get ok_r
    (Cache.put_cached_price now_put ok_w f s1 d1 p) s2 d2
  = Cache.get_cached_price ttl now_get ok_r f s2 d2.
Proof.
  intros H. unfold Cache.put_cached_price.
  destruct ok_w; cbn [negb]; [| reflexivity].
  unfold Cache.get_cached_price. destruct ok_r; cbn [negb];
    [| destruct f; reflexivity].
  rewrite last_match_app, (matches_put_other s1 d1 s2 d2 p now_put H).
  destruct f as [rows|]; reflexivity.
Qed.

(** A write to the cache concerns its own key only.  Reading another
    symbol (compared in upper case) or another day gives what it gave
    before the write, whether or not the file existed; and a price lookup
    for one symbol leaves what the cache answers for a different mapped
    symbol as it was.  The symbol's letter case is not part of the key:
    a price written under one spelling is read under another. *)
Theorem cache_write_is_local :
  (forall (ttl : Z) (now_put now_get : float) (ok_r ok_w : bool)
          (f : Cache.file) (s1 d1 s2 d2 : string) (p : float),
      Str.upper s1 <> Str.upper s2 \/ d1 <> d2 ->
      Cache.get_cached_price ttl now_get ok_r
        (Cache.put_cached_price now_put ok_w f s1 d1 p) s2 d2
      = Cache.get_cached_price ttl now_get ok_r f s2 d2) /\
  (forall (e : Tools.env) (f : Cache.file) (s1 s2 day : string)
          (ttl : Z) (now : float) (ok_r : bool),
      Tools.map_symbol s1 <> Tools.map_symbol s2 ->
      Cache.get_cached_price ttl now ok_r
        (snd (fst (Tools.get_latest_price e f s1))) (Tools.map_symbol s2) day
      = Cache.get_cached_price ttl now ok_r f (Tools.map_symbol s2) day) /\
  (forall (ttl : Z) (now_put now_get : float) (f : Cache.file)
          (s1 s2 date : string) (p : float),
      Str.upper s1 = Str.upper s2 ->
      (Cache.CACHE_TTL_S ttl <? now_get - now_put)%float = false ->
      Cache.get_cached_price ttl now_get true
        (Cache.put_cached_price now_put true f s1 date p) s2 date
      = Some p).
Proof.
  split; [exact get_after_put_other |]. split.
  - intros e f s1 s2 day ttl now ok_r Hne.
    assert (Hkey : Str.upper (Tools.map_symbol s1)
                   <> Str.upper (Tools.map_symbol s2) \/ Tools.today e <> day)
      by (left; rewrite !map_symbol_upper; exact Hne).
    unfold Tools.get_latest_price. cbn zeta.
    destruct (Cache.get_cached_price _ _ _ f (Tools.map_symbol s1) _);
      [reflexivity |].
    destruct (Tools.configured (Tools.api_key e));
      [destruct (Tools.alpha_vantage_price e _) as [[q|] src];
       [cbn [fst snd]; apply get_after_put_other, Hkey |] |];
      (destruct (Tools._latest_price_yf e _) as [[[q|] src'] l];
       cbn [fst snd]; [apply get_after_put_other, Hkey | reflexivity]).
  - intros ttl now_put now_get f s1 s2 date p Hs Httl.
    unfold Cache.put_cached_price, Cache.get_cached_price. cbn [negb].
    rewrite last_match_app. unfold Cache.matches at 1.
    cbn [Cache.r_symbol Cache.r_date]. rewrite upper_idem, Hs.
    assert (E1 : Str.eqb (Str.upper s2) (Str.upper s2) = true)
      by (apply eqb_true; reflexivity).
    assert (E2 : Str.eqb date date = true) by (apply eqb_true; reflexivity).
    rewrite E1, E2. cbn [andb Cache.r_ts Cache.r_price].
    rewrite Httl. reflexivity.
Qed.

Lemma cache_write_is_local_witness :
  Cache.get_cached_price 1 1000 true
    (Cache.put_cached_price 1000 true None "nvda" "2025-01-02" 187.5)
    "NVDA" "2025-01-02"
  = Some 187.5%float.
Proof.
  apply (proj2 (proj2 cache_write_is_local)); vm_compute; reflexivity.
Defined.

(** ** The two price lookups *)

(** [get_latest_price] extends the older [get_realtime_price].  The two
    make their Alpha Vantage request with different timeouts (15 and 60
    seconds); where the provider answers both the same, or no credential
    is configured, or the cache answers: whenever the older lookup finds
    a price, the newer one finds the same price after the same calls and
    leaves the same cache file; the tags agree except for the cache hit,
    tagged [cache(csv)] by the one and [cache:today] by the other.  When
    the older lookup finds none, its tag is [unavailable] and the cache is
    untouched; the newer one then either finds none as well, under a
    [yfinance] tag, or answers with the last daily close, which the older
    lookup never asks for. *)
Theorem realtime_price_agrees (request_15 : string -> Tools.av_response)
        (e : Tools.env) (f : Cache.file) (symbol : string) :
  let sy := Tools.map_symbol symbol in
  let old := Realtime.get_realtime_price request_15 e f symbol in
  let new := Tools.get_latest_price e f symbol in
  (request_15 sy = Tools.alpha_vantage e sy \/
   Tools.configured (Tools.api_key e) = false \/
   Cache.get_cached_price (Tools.ttl_hours e) (Tools.now e) (Tools.read_ok e)
                          f sy (Tools.today e) <> None) ->
  (forall p, fst (fst (fst old)) = Some p ->
     fst (fst (fst new)) = Some p /\
     snd (fst new) = snd (fst old) /\
     snd new = snd old /\
     (snd (fst (fst new)) = snd (fst (fst old)) \/
      (snd (fst (fst old)) = "cache(csv)" /\
       snd (fst (fst new)) = "cache:today"))) /\
  (fst (fst (fst old)) = None ->
     snd (fst (fst old)) = "unavailable" /\
     snd (fst old) = f /\
     ((fst (fst (fst new)) = None /\ snd (fst new) = f /\
       (snd (fst (fst new)) = "yfinance:unavailable" \/
        snd (fst (fst new)) = "yfinance:error")) \/
      (exists p, Tools.yf_daily e sy = Tools.YfClose p /\
                 fst (fst new) = (Some p, "yfinance:last_close")))).
Proof.
  cbn zeta. intros Hsame.
  unfold Realtime.get_realtime_price, Tools.get_latest_price.
  cbn zeta. unfold Tools._latest_price_yf.
  destruct (Cache.get_cached_price _ _ _ f _ _) as [c|].
  { cbn [fst snd]. split; [| discriminate].
    intros p [= <-]. auto 6. }
  assert (Hav : Tools.configured (Tools.api_key e) = true ->
                Realtime.alpha_vantage_price request_15
                  (Tools.map_symbol symbol)
                = Tools.alpha_vantage_price e (Tools.map_symbol symbol)).
  { intros Hc. destruct Hsame as [Hs | [Hs | Hs]];
      [| congruence | contradiction].
    unfold Realtime.alpha_vantage_price, Tools.alpha_vantage_price.
    rewrite Hs. reflexivity. }
  destruct (Tools.configured (Tools.api_key e));
    [rewrite (Hav eq_refl);
     destruct (Tools.alpha_vantage_price e _) as [[q|] src];
     [cbn [fst snd]; split; [intros p [= <-]; auto 6 | discriminate] |] |];
    (destruct (Tools.yf_intraday e _) as [| |q];
     [ cbn [fst snd]; split; [discriminate |]; intros _;
       split; [reflexivity |]; split; [reflexivity |]; left; auto
     | destruct (Tools.yf_daily e _) as [| |q'];
       cbn [fst snd]; (split; [discriminate |]); intros _;
       (split; [reflexivity |]); (split; [reflexivity |]);
       [left; auto | left; auto | right; eauto]
     | cbn [fst snd app]; split; [intros p [= <-]; auto 6 | discriminate] ]).
Qed.

Lemma realtime_price_agrees_witness :
  fst (fst (fst (Tools.get_latest_price Sample.env_up None "nvda")))
  = Some 187.5%float.
Proof.
  apply (proj1 (realtime_price_agrees (Tools.alpha_vantage Sample.env_up)
                  Sample.env_up None "nvda" (or_introl eq_refl))).
  vm_compute. reflexivity.
Defined.

(** ** Weights given as a dict *)

Section DictWeights.
Import Portfolio.

Lemma mapped_from_app (d : Analysis.entries) (k : string)
      (o : Py.outcome float) :
  forall vals,
    Analysis.mapped_from vals (d ++ [(k, o)])
    = match Analysis.mapped_from vals d, o with
      | Py.Returns out, Py.Returns v =>
          Py.Returns (dict_set (Tools.map_symbol k) v out)
      | _, _ => Py.Raises
      end.
Proof.
  induction d as [|[k' [|v']] d IH]; intros vals; cbn [app Analysis.mapped_from].
  - destruct o; reflexivity.
  - reflexivity.
  - apply IH.
Qed.

Lemma last_value_app (k : string) (d : Analysis.entries) (k' : string)
      (o : Py.outcome float) :
  Analysis.last_value k (d ++ [(k', o)])
  = if Str.eqb (Tools.map_symbol k') k
    then match o with Py.Returns v => Some v | Py.Raises => None end
    else Analysis.last_value k d.
Proof.
  unfold Analysis.last_value. rewrite rev_app_distr. cbn [rev app find fst].
  destruct (Str.eqb (Tools.map_symbol k') k); reflexivity.
Qed.

Lemma mapped_spec (d : Analysis.entries) :
  forall out,
    Analysis.mapped_from [] d = Py.Returns out ->
    NoDup (keys out) /\
    (forall k, In k (keys out) <->
               exists k0, In k0 (map fst d) /\ Tools.map_symbol k0 = k) /\
    (forall k, dict_get k out = default 0%float (Analysis.last_value k d)) /\
    (forall k, In k (keys out) ->
               Analysis.last_value k d = Some (dict_get k out)).
Proof.
  induction d as [|[k' o] d IH] using rev_ind; intros out H.
  - injection H as <-. split; [constructor |]. split.
    + cbn. split; [contradiction | intros (k0 & [] & _)].
    + split; [reflexivity | intros k []].
  - rewrite mapped_from_app in H.
    destruct (Analysis.mapped_from [] d) as [|out0]; [discriminate |].
    destruct o as [|v]; [discriminate |]. injection H as <-.
    destruct (IH out0 eq_refl) as (Hnd & Hkeys & Hget & Hlast).
    assert (Hin : forall k,
               In k (keys (dict_set (Tools.map_symbol k') v out0)) <->
               In k (keys out0) \/ Tools.map_symbol k' = k).
    { intros k. rewrite keys_dict_set. case_bool_decide as Hm.
      - split; [auto |]. intros [Hk | <-]; [exact Hk |].
        apply list_elem_of_In, Hm.
      - rewrite in_app_iff. cbn [In]. tauto. }
    split; [apply NoDup_keys_dict_set, Hnd |]. split; [| split].
    + intros k. rewrite Hin, Hkeys, map_app. cbn [map fst]. split.
      * intros [(k0 & Hk0 & E) | E].
        -- exists k0. split; [apply in_or_app; left; exact Hk0 | exact E].
        -- exists k'. split; [apply in_or_app; right; left; reflexivity
                             | exact E].
      * intros (k0 & Hk0 & E). apply in_app_or in Hk0 as [Hk0 | [<- | []]];
          [left; eauto | right; exact E].
    + intros k. rewrite last_value_app.
      destruct (Str.eqb (Tools.map_symbol k') k) eqn:E.
      * apply eqb_true in E. subst k. apply dict_get_set_eq.
      * apply eqb_false in E. rewrite dict_get_set_ne by congruence.
        apply Hget.
    + intros k Hk. rewrite last_value_app.
      destruct (Str.eqb (Tools.map_symbol k') k) eqn:E.
      * apply eqb_true in E. subst k. rewrite dict_get_set_eq. reflexivity.
      * apply eqb_false in E. rewrite dict_get_set_ne by congruence.
        apply Hlast. apply Hin in Hk as [Hk | Hk]; [exact Hk | contradiction].
Qed.

(** [_normalize_from_dict] keys the weights by the mapped symbols, each
    once.  Where several keys map to one symbol (say [bonds] and [BND]),
    the weight of the symbol comes from the last of them alone: the
    earlier values are replaced, not added up as [parse_percent_alloc]
    adds the repeated symbols of a text.  Each weight is that value
    divided by the total of the values kept, in binary64; the call raises
    when [float()] rejects a value. *)
Theorem normalize_from_dict_last_wins (rt : Py.runtime)
        (d : Analysis.entries) :
  (forall k, In (k, Py.Raises) d ->
             Analysis._normalize_from_dict rt d = Py.Raises) /\
  (forall w,
      Analysis._normalize_from_dict rt d = Py.Returns w ->
      let total :=
        Py.sum_floats rt
          (map (fun k => default 0%float (Analysis.last_value k d)) (keys w)) in
      NoDup (keys w) /\
      (forall k, In k (keys w) <->
                 exists k0, In k0 (map fst d) /\ Tools.map_symbol k0 = k) /\
      (total <=? 0)%float = false /\
      (forall k, In k (keys w) ->
                 exists v, Analysis.last_value k d = Some v /\
                           dict_get k w = (v / total)%float)).
Proof.
  split.
  - intros k Hin. unfold Analysis._normalize_from_dict.
    assert (E : Analysis.mapped_from [] d = Py.Raises); [| rewrite E; reflexivity].
    generalize (@nil (string * float)) as vals.
    induction d as [|[k' [|v']] d IH]; intros vals; [destruct Hin | reflexivity |].
    cbn [Analysis.mapped_from]. apply IH.
    destruct Hin as [Hin | Hin]; [discriminate | exact Hin].
  - intros w H. unfold Analysis._normalize_from_dict in H.
    destruct (Analysis.mapped_from [] d) as [|out] eqn:Hm; [discriminate |].
    destruct (mapped_spec d out Hm) as (Hnd & Hkeys & Hget & Hlast).
    destruct (_ <=? _)%float eqn:Ht; [discriminate |].
    injection H as <-. cbn zeta. rewrite keys_divided.
    assert (Hv : map (fun k => default 0%float (Analysis.last_value k d))
                     (keys out) = values out).
    { rewrite (values_by_keys out Hnd). apply map_ext. intros k.
      symmetry. apply Hget. }
    rewrite Hv. split; [exact Hnd |]. split; [exact Hkeys |].
    split; [exact Ht |].
    intros k Hk. exists (dict_get k out). split; [apply Hlast, Hk |].
    apply dict_get_divided, list_elem_of_In, Hk.
Qed.

End DictWeights.

Lemma normalize_from_dict_last_wins_witness :
  exists v,
    Analysis.last_value "BND"
      [("bonds", Py.Returns 20%float); ("AAPL", Py.Returns 50%float);
       ("BND", Py.Returns 30%float)] = Some v /\
    Portfolio.dict_get "BND" [("BND", 0.375%float); ("AAPL", 0.625%float)]
    = (v / Py.sum_floats Sample.py311
             (map (fun k =>
                     default 0%float
                       (Analysis.last_value k
                          [("bonds", Py.Returns 20%float);
                           ("AAPL", Py.Returns 50%float);
                           ("BND", Py.Returns 30%float)]))
                  (Portfolio.keys
                     [("BND", 0.375%float); ("AAPL", 0.625%float)])))%float.
Proof.
  refine (proj2 (proj2 (proj2 (proj2 (normalize_from_dict_last_wins
            Sample.py311
            [("bonds", Py.Returns 20%float); ("AAPL", Py.Returns 50%float);
             ("BND", Py.Returns 30%float)])
            [("BND", 0.375%float); ("AAPL", 0.625%float)] _))) "BND" _).
  - vm_compute. reflexivity.
  - left. reflexivity.
Defined.

(** ** The quality gate on the tools' own texts *)

Lemma occurs_in_self (p : string) : Str.occurs_in p p.
Proof.
  exists "", "". apply chars_inj. rewrite !chars_app. cbn.
  rewrite app_nil_r. reflexivity.
Qed.

Lemma occurs_in_app_l (p a b : string) :
  Str.occurs_in p a -> Str.occurs_in p (a +:+ b).
Proof.
  intros (pre & post & ->). exists pre, (post +:+ b).
  rewrite !append_assoc. reflexivity.
Qed.

Lemma occurs_in_app_r (p a b : string) :
  Str.occurs_in p b -> Str.occurs_in p (a +:+ b).
Proof.
  intros (pre & post & ->). exists (a +:+ pre), post.
  rewrite !append_assoc. reflexivity.
Qed.

Lemma occurs_in_trans (p q s : string) :
  Str.occurs_in p q -> Str.occurs_in q s -> Str.occurs_in p s.
Proof.
  intros Hp (pre & post & ->).
  apply occurs_in_app_r, occurs_in_app_l, Hp.
Qed.

(** On a text with the marker phrase the gate is the test for [nan]
    anywhere in the lower-cased text. *)
Lemma looks_broken_marked (output : string) :
  Str.occurs_in Failsafe.MARKER (Str.lower output) ->
  Failsafe._looks_broken true output = Str.contains "nan" (Str.lower output).
Proof.
  intros Hm. unfold Failsafe._looks_broken. cbn [negb].
  assert (Hne : Str.eqb output "" = false).
  { apply eqb_false. intros ->.
    apply (occurs_in_nonempty Failsafe.MARKER (Str.lower ""));
      [discriminate | exact Hm | reflexivity]. }
  rewrite Hne. apply contains_occurs in Hm. rewrite Hm.
  destruct (Str.contains "nan" (Str.lower output)); cbn [negb andb];
    [| reflexivity].
  destruct (existsb _ Failsafe._BAD_PATTERNS); reflexivity.
Qed.

Lemma report_has_marker (r : Report.fields) :
  Str.occurs_in Failsafe.MARKER (Str.lower (Report.text r)).
Proof.
  unfold Report.text, Report.lines. cbn [Str.join].
  rewrite !lower_app.
  apply occurs_in_app_r, occurs_in_app_r, occurs_in_app_l, occurs_in_app_l.
  exists "", " ". reflexivity.
Qed.

Lemma report_has_source (r : Report.fields) :
  Str.occurs_in (Str.lower (Report.hsrc r)) (Str.lower (Report.text r)).
Proof.
  unfold Report.text, Report.lines. cbn [Str.join].
  rewrite !lower_app.
  apply occurs_in_app_l.
  apply occurs_in_app_r, occurs_in_app_r, occurs_in_app_r, occurs_in_app_l.
  apply occurs_in_self.
Qed.

(** The gate flags a report of [tool_portfolio_analysis] exactly when
    the letters [nan] occur somewhere in its lower-cased text: the report
    always has the marker phrase, so the denylist does not decide.  The
    history source is part of the first line, and [yfinance] has these
    letters in it; so a report computed from yfinance data is always
    flagged, whatever the numbers, and counts as a failed handler. *)
Theorem analysis_report_gate (r : Report.fields) :
  Failsafe._looks_broken true (Report.text r)
  = Str.contains "nan" (Str.lower (Report.text r)) /\
  (Report.hsrc r = "yfinance" ->
   Failsafe._looks_broken true (Report.text r) = true /\
   Failsafe.failed true (Py.Returns (Py.VStr (Report.text r))) = true).
Proof.
  pose proof (looks_broken_marked _ (report_has_marker r)) as Hg.
  split; [exact Hg |]. intros Hsrc.
  assert (Hb : Failsafe._looks_broken true (Report.text r) = true).
  { rewrite Hg. apply contains_occurs.
    apply (occurs_in_trans "nan" (Str.lower (Report.hsrc r)));
      [| apply report_has_source].
    rewrite Hsrc. exists "yfi", "ce". reflexivity. }
  split; [exact Hb |]. exact Hb.
Qed.

Lemma analysis_report_gate_witness :
  Failsafe._looks_broken true
    (Report.text
       (Report.Fields ["NVDA"; "BND"] "yfinance" "12.00%" "18.00%" "4.25%"
                      "0.43" "0.520" "-17.70%" "moderate" "fit")) = true.
Proof.
  apply (proj2 (analysis_report_gate
                  (Report.Fields ["NVDA"; "BND"] "yfinance" "12.00%" "18.00%"
                                 "4.25%" "0.43" "0.520" "-17.70%" "moderate"
                                 "fit"))).
  reflexivity.
Defined.

(** When both yfinance frames are empty and nothing else gave a price,
    the text [tool_stock_query] builds from the result of
    [get_latest_price] is flagged by the gate, for every symbol: the
    handler counts as failed and the executor goes on to the chat. *)
Theorem unavailable_price_is_flagged (fmt2 : float -> string)
        (e : Tools.env) (f : Cache.file) (sym : string) :
  fst (fst (Tools.get_latest_price e f sym)) = (None, "yfinance:unavailable") ->
  Failsafe.failed true
    (Py.Returns
       (Py.VStr (Report.stock_query_answer fmt2 (Tools.today e) sym
                   (fst (fst (Tools.get_latest_price e f sym)))))) = true.
Proof.
  intros ->. cbn [Failsafe.failed Py.to_str Report.stock_query_answer].
  set (text := "Could not fetch a price for " +:+ sym +:+ "." +:+ Report.LF
                 +:+ "[source: " +:+ "yfinance:unavailable" +:+ "]").
  assert (Htail : forall p, Str.occurs_in p "yfinance:unavailable" ->
                            Str.occurs_in p (Str.lower text)).
  { intros p Hp. unfold text. rewrite !lower_app.
    do 5 apply occurs_in_app_r. apply occurs_in_app_l. exact Hp. }
  apply (looks_broken_denylisted text (Re.Lit "unavailable")).
  - intros [_ Hn]. apply Hn, Htail. exists "yfi", "ce:unavailable".
    reflexivity.
  - cbn. auto.
  - apply search_Lit, Htail. exists "yfinance:", "". reflexivity.
Qed.

Lemma unavailable_price_is_flagged_witness :
  Failsafe.failed true
    (Py.Returns
       (Py.VStr (Report.stock_query_answer (fun _ => "0.00")
                   (Tools.today Sample.env_down) "NVDA"
                   (fst (fst (Tools.get_latest_price Sample.env_down None
                                                     "NVDA")))))) = true.
Proof.
  apply (unavailable_price_is_flagged (fun _ => "0.00") Sample.env_down None
                                      "NVDA").
  vm_compute. reflexivity.
Defined.

(** ** News rows *)

Section NewsRows.
Import News.

Lemma cap_positive (limit : Z) : (1 <= cap limit)%nat.
Proof. unfold cap. lia. Qed.

(** The loop, from rows gathered so far that are fewer than the bound:
    the rows of the kept items are added in the order of the data until
    the bound is reached. *)
Lemma gather_eq (ts : list string) (n : nat) (data : list item) :
  forall rows,
    (length rows < n)%nat ->
    gather ts n data rows
    = rows ++ map row_head
                  (take (n - length rows) (List.filter (kept ts) data)).
Proof.
  induction data as [|it data IH]; intros rows Hlen.
  - cbn [gather List.filter]. rewrite take_nil. cbn [map].
    rewrite app_nil_r. reflexivity.
  - cbn [gather List.filter]. destruct (kept ts it) eqn:Hk.
    + cbn zeta. destruct (n <=? length (rows ++ [row_head it]))%nat eqn:Hn.
      * apply Nat.leb_le in Hn. rewrite length_app in Hn. cbn in Hn.
        replace (n - length rows)%nat with 1%nat by lia.
        cbn [take map]. rewrite take_0. reflexivity.
      * apply Nat.leb_gt in Hn. rewrite (IH _ Hn).
        rewrite length_app in *. cbn [length] in *.
        replace (n - length rows)%nat
          with (S (n - (length rows + 1)))%nat by lia.
        cbn [take map]. rewrite <- app_assoc. reflexivity.
    + apply IH, Hlen.
Qed.

(** [_finnhub_news_from_query] gives at most [max(1, limit)] rows, so at
    least one is allowed whatever the limit, and it gives no row only when
    the request gave no item.  Outside the ticker branch the rows are
    exactly those of the headlines with one of the terms, all of them in
    the order received up to the bound and none after it; when no
    headline has a term, the first items are shown instead, whatever they
    are about, with [(no title)] for a missing headline. *)
Theorem news_rows_bounded (company_news : string -> option (list item))
        (general_news : option (list item)) (q : string) (limit : Z) :
  let rows := _finnhub_news_from_query company_news general_news q limit in
  let q_strip := Str.strip q in
  let data :=
    default [] (if is_ticker (Str.upper q_strip)
                then company_news (Tools.map_symbol (Str.upper q_strip))
                else general_news) in
  (length rows <= cap limit)%nat /\
  (rows = [] <-> data = []) /\
  (is_ticker (Str.upper q_strip) = true ->
   rows = map row_titled (take (cap limit) data)) /\
  (is_ticker (Str.upper q_strip) = false ->
   rows = match List.filter (kept (terms q_strip)) data with
          | [] => map row_titled (take (cap limit) data)
          | with_term => map row_head (take (cap limit) with_term)
          end).
Proof.
  cbn zeta. unfold _finnhub_news_from_query. cbn zeta.
  pose proof (cap_positive limit) as Hcap.
  assert (Htake : forall {A : Type} (g : A -> string) (x : A) l,
             (length (map g (take (cap limit) (x :: l))) <= cap limit)%nat /\
             map g (take (cap limit) (x :: l)) <> []).
  { intros A g x l. split.
    - rewrite length_map, length_take. lia.
    - destruct (cap limit); [lia | discriminate]. }
  destruct (is_ticker (Str.upper (Str.strip q))).
  - destruct (company_news _) as [[|it data]|]; cbn [default from_option id length].
    + split; [lia |]. split; [tauto |]. split; [| discriminate].
      intros _. rewrite take_nil. reflexivity.
    + destruct (Htake _ row_titled it data) as [Hl Hne].
      split; [exact Hl |]. split; [| split; [reflexivity | discriminate]].
      split; [intros H; contradiction | discriminate].
    + split; [lia |]. split; [tauto |]. split; [| discriminate].
      intros _. rewrite take_nil. reflexivity.
  - destruct general_news as [[|it data]|]; cbn [default from_option id length].
    + split; [lia |]. split; [tauto |]. split; [discriminate |].
      intros _. cbn [List.filter]. rewrite take_nil. reflexivity.
    + rewrite (gather_eq _ (cap limit) (it :: data) []) by (cbn; lia).
      cbn [app length]. rewrite Nat.sub_0_r.
      destruct (List.filter (kept (terms (Str.strip q))) (it :: data))
        as [|k ks] eqn:Hf.
      * rewrite take_nil. cbn [map].
        destruct (Htake _ row_titled it data) as [Hl Hne].
        split; [exact Hl |]. split; [| split; [discriminate | reflexivity]].
        split; [intros H; contradiction | discriminate].
      * destruct (cap limit) as [|c] eqn:Hc; [lia |].
        cbn [take map length]. rewrite length_map, length_take.
        split; [lia |]. split; [| split; [discriminate | reflexivity]].
        split; discriminate.
    + split; [lia |]. split; [tauto |]. split; [discriminate |].
      intros _. cbn [List.filter]. rewrite take_nil. reflexivity.
Qed.

End NewsRows.

Lemma news_rows_bounded_witness :
  News._finnhub_news_from_query (fun _ => None)
    (Some [News.Item (Some "Fed holds rates") (Some "Wire") None;
           News.Item (Some "Chip makers rally") None (Some "u");
           News.Item (Some "Rates and chips") None None])
    "chip news" 0
  = map News.row_head [News.Item (Some "Chip makers rally") None (Some "u")].
Proof.
  apply (proj2 (proj2 (proj2 (news_rows_bounded (fun _ => None)
      (Some [News.Item (Some "Fed holds rates") (Some "Wire") None;
             News.Item (Some "Chip makers rally") None (Some "u");
             News.Item (Some "Rates and chips") None None])
      "chip news" 0)))).
  reflexivity.
Defined.
